(** * Attrition computation engine (libcompute.ts, page.tsx): model and properties

    The TypeScript sources compute on JavaScript numbers.  They are modelled
    here as the type [number]: a finite value carried by a real, or one of the
    three special values NaN, +Infinity, -Infinity.  Finite arithmetic is exact
    (the rounding and overflow of IEEE doubles and the sign of zero are outside
    the model); the special values follow the ECMAScript rules, because the
    sources' guards ([Number.isFinite], [||], [??], comparisons that are false
    on NaN) are written against them.

    Where a statement would otherwise depend on the difference, it carries the
    range in which the doubles of the sources agree with the exact numbers:
    sums of counts up to [Number.MAX_SAFE_INTEGER], which doubles carry
    exactly, and counts up to 10^9 where a root and a power must resolve a
    loss of one.  Strings are byte strings with the case mappings and the
    white space of ASCII; statements about the case of letters are made for
    ASCII strings, on which JavaScript agrees. *)

From Stdlib Require Import Reals Lra Lia ZArith List String Ascii Bool Setoid Permutation
  Sorted.
Import ListNotations.

Local Open Scope R_scope.

(** ** JavaScript numbers *)

Inductive number : Type :=
| Fin (x : R)
| NaN
| PosInf
| NegInf.

Definition R_leb (x y : R) : bool := if Rle_dec x y then true else false.
Definition R_ltb (x y : R) : bool := if Rlt_dec x y then true else false.
Definition R_eqb (x y : R) : bool := if Req_dec_T x y then true else false.

(** [a <= b], [a < b], [a >= b], [a > b]: false as soon as one side is NaN. *)
Definition n_le (a b : number) : bool :=
  match a, b with
  | NaN, _ | _, NaN => false
  | Fin x, Fin y => R_leb x y
  | NegInf, _ | _, PosInf => true
  | _, _ => false
  end.

Definition n_lt (a b : number) : bool :=
  match a, b with
  | NaN, _ | _, NaN => false
  | Fin x, Fin y => R_ltb x y
  | PosInf, _ | _, NegInf => false
  | _, _ => true
  end.

Definition n_ge (a b : number) : bool := n_le b a.
Definition n_gt (a b : number) : bool := n_lt b a.

Definition n_neg (a : number) : number :=
  match a with
  | Fin x => Fin (- x)
  | NaN => NaN
  | PosInf => NegInf
  | NegInf => PosInf
  end.

Definition n_add (a b : number) : number :=
  match a, b with
  | NaN, _ | _, NaN => NaN
  | Fin x, Fin y => Fin (x + y)
  | PosInf, NegInf | NegInf, PosInf => NaN
  | PosInf, _ | _, PosInf => PosInf
  | NegInf, _ | _, NegInf => NegInf
  end.

Definition n_sub (a b : number) : number := n_add a (n_neg b).

(** The product of an infinity of the given sign with the finite [x]. *)
Definition inf_times (positive : bool) (x : R) : number :=
  if R_ltb 0 x then (if positive then PosInf else NegInf)
  else if R_ltb x 0 then (if positive then NegInf else PosInf)
  else NaN.

Definition n_mul (a b : number) : number :=
  match a, b with
  | NaN, _ | _, NaN => NaN
  | Fin x, Fin y => Fin (x * y)
  | Fin x, PosInf | PosInf, Fin x => inf_times true x
  | Fin x, NegInf | NegInf, Fin x => inf_times false x
  | PosInf, PosInf | NegInf, NegInf => PosInf
  | PosInf, NegInf | NegInf, PosInf => NegInf
  end.

Definition n_div (a b : number) : number :=
  match a, b with
  | NaN, _ | _, NaN => NaN
  | Fin x, Fin y =>
      if R_eqb y 0
      then (if R_ltb 0 x then PosInf else if R_ltb x 0 then NegInf else NaN)
      else Fin (x / y)
  | Fin _, _ => Fin 0
  | PosInf, Fin y => if R_ltb y 0 then NegInf else PosInf
  | NegInf, Fin y => if R_ltb y 0 then PosInf else NegInf
  | _, _ => NaN
  end.

Definition Number_isFinite (a : number) : bool :=
  match a with Fin _ => true | _ => false end.

Definition Number_MAX_SAFE_INTEGER : number := Fin 9007199254740991.

(** *** The [Math] object *)

Definition Math_floor (a : number) : number :=
  match a with Fin x => Fin (IZR (Zfloor x)) | _ => a end.

Definition Math_ceil (a : number) : number :=
  match a with Fin x => Fin (IZR (Zceil x)) | _ => a end.

(** [Math.round] rounds to the nearest integer, a tie going up. *)
Definition Math_round (a : number) : number :=
  match a with Fin x => Fin (IZR (Zfloor (x + / 2))) | _ => a end.

Definition Math_max (a b : number) : number :=
  match a, b with
  | NaN, _ | _, NaN => NaN
  | _, _ => if n_le a b then b else a
  end.

Definition Math_min (a b : number) : number :=
  match a, b with
  | NaN, _ | _, NaN => NaN
  | _, _ => if n_le a b then a else b
  end.

Definition Math_log (a : number) : number :=
  match a with
  | Fin x => if R_ltb 0 x then Fin (ln x) else if R_eqb x 0 then NegInf else NaN
  | PosInf => PosInf
  | _ => NaN
  end.

Definition is_integer (x : R) : bool := R_eqb (IZR (Zfloor x)) x.
Definition is_odd_integer (x : R) : bool := is_integer x && Z.odd (Zfloor x).

(** [Math.pow base exponent] (Number::exponentiate). *)
Definition Math_pow (base exponent : number) : number :=
  match exponent with
  | NaN => NaN
  | Fin y =>
      if R_eqb y 0 then Fin 1 else
      match base with
      | NaN => NaN
      | PosInf => if R_ltb 0 y then PosInf else Fin 0
      | NegInf =>
          if R_ltb 0 y then (if is_odd_integer y then NegInf else PosInf) else Fin 0
      | Fin x =>
          if R_ltb 0 x then Fin (Rpower x y)
          else if R_eqb x 0 then (if R_ltb 0 y then Fin 0 else PosInf)
          else if is_integer y then Fin (powerRZ x (Zfloor y))
          else NaN
      end
  | PosInf =>
      match base with
      | Fin x =>
          if R_ltb 1 (Rabs x) then PosInf else if R_eqb (Rabs x) 1 then NaN else Fin 0
      | NaN => NaN
      | _ => PosInf
      end
  | NegInf =>
      match base with
      | Fin x =>
          if R_ltb 1 (Rabs x) then Fin 0 else if R_eqb (Rabs x) 1 then NaN else PosInf
      | NaN => NaN
      | _ => Fin 0
      end
  end.

(** ** JavaScript values

    The engine is written defensively against values of any type.  A value is
    [undefined], [null], a boolean, a number, an array, or anything else (a
    string, an object); of the last kind only the result of its conversion to
    a number matters to the engine, and the constructor [JOther] carries it. *)

#[warnings="-register-all"] Inductive JsVal : Type :=
| JUndefined
| JNull
| JBool (b : bool)
| JNum (n : number)
| JArr (elems : list JsVal)
| JOther (numeric : number).

(** [Number(v)].  An array converts through its string: the empty array to 0,
    a one-element array as that element printed and read back, a longer one
    (its string has a comma) to NaN. *)
Fixpoint Number (v : JsVal) : number :=
  match v with
  | JUndefined => NaN
  | JNull => Fin 0
  | JBool b => if b then Fin 1 else Fin 0
  | JNum n => n
  | JOther n => n
  | JArr elems =>
      match elems with
      | [] => Fin 0
      | [e] =>
          match e with
          | JUndefined | JNull => Fin 0
          | JBool _ => NaN
          | _ => Number e
          end
      | _ => NaN
      end
  end.

Definition Array_isArray (v : JsVal) : bool :=
  match v with JArr _ => true | _ => false end.

(** [v ?? dflt] *)
Definition nullish (v dflt : JsVal) : JsVal :=
  match v with JUndefined | JNull => dflt | _ => v end.

(** [n || 0] on a number: 0 and NaN are falsy. *)
Definition or_zero (n : number) : number :=
  match n with
  | NaN => Fin 0
  | Fin x => if R_eqb x 0 then Fin 0 else n
  | _ => n
  end.

(** The elements of an array; used only under [Array.isArray]. *)
Definition elements (v : JsVal) : list JsVal :=
  match v with JArr l => l | _ => [] end.

(** [base[i]]: [undefined] past the end. *)
Definition index (base : list JsVal) (i : nat) : JsVal := nth i base JUndefined.

(** [ToIntegerOrInfinity] on a finite value truncates towards zero. *)
Definition Ztrunc (x : R) : Z := if R_leb 0 x then Zfloor x else Zceil x.

(** [arr.slice(0, end)] *)
Definition slice0 {A : Type} (arr : list A) (end_ : number) : list A :=
  match end_ with
  | NaN | NegInf => []
  | PosInf => arr
  | Fin x =>
      let k := Ztrunc x in
      if (k <? 0)%Z
      then firstn (Z.to_nat (Z.max (Z.of_nat (List.length arr) + k) 0)) arr
      else firstn (Z.to_nat k) arr
  end.

(** [arr.reduce((s, v) => s + v, 0)] *)
Definition reduce_add (arr : list number) : number := fold_left n_add arr (Fin 0).

(** ** libcompute.ts: scalar helpers *)

Definition clamp (n min max : number) : number := Math_max min (Math_min max n).

Definition safeNum (v : JsVal) : number :=
  let n := Number v in
  if Number_isFinite n then n else Fin 0.

(** Compound attrition model: remaining = start * (1 - p)^day *)
Definition remainingAfterDays (start : number) (dailyPct day : JsVal) : number :=
  let p := n_div (safeNum dailyPct) (Fin 100) in
  let d := Math_max (Fin 0) (Math_floor (safeNum day)) in
  if n_le start (Fin 0) then Fin 0
  else if n_le p (Fin 0) then start
  else if n_ge p (Fin 1) then Fin 0
  else n_mul start (Math_pow (n_sub (Fin 1) p) d).

(** The result [null] is [None]. *)
Definition daysToReachFraction (dailyPct : JsVal) (targetFraction : number)
  : option number :=
  let p := n_div (safeNum dailyPct) (Fin 100) in
  if n_le targetFraction (Fin 0) then Some (Fin 0)
  else if n_ge targetFraction (Fin 1) then None
  else if n_le p (Fin 0) then None
  else if n_ge p (Fin 1) then Some (Fin 0)
  else
    let d := n_div (Math_log targetFraction) (Math_log (n_sub (Fin 1) p)) in
    if negb (Number_isFinite d) || n_lt d (Fin 0) then None
    else Some (Math_ceil d).

Definition normalizeDestroyedByDay (arr : JsVal) : list number :=
  let base := if Array_isArray arr then elements arr else [] in
  map (fun i => clamp (Math_round (safeNum (index base i))) (Fin 0) Number_MAX_SAFE_INTEGER)
      (seq 0 5).

(** ** page.tsx: rate inference *)

Module Page.

Definition clampInt (n : JsVal) (min max : number) : number :=
  let x := Math_floor (or_zero (Number n)) in
  Math_max min (Math_min max x).

Definition normalizeDestroyedByDay (arr : JsVal) : list number :=
  let base := if Array_isArray arr then elements arr else [] in
  map (fun i => Math_max (Fin 0) (Math_floor (Number (nullish (index base i) (JNum (Fin 0))))))
      (seq 0 5).

(** Infer constant daily attrition % that matches the cumulative
    destroyed-through-day.  Compound model: remaining = onHand*(1-p)^day *)
Definition inferDailyAttritionPct (onHand destroyedByDay day : JsVal) : number :=
  let oh := Math_max (Fin 0) (Math_floor (or_zero (Number onHand))) in
  let d := clampInt day (Fin 1) (Fin 5) in
  if n_le oh (Fin 0) then Fin 0
  else
    let byDay := normalizeDestroyedByDay destroyedByDay in
    let cumDestroyed := reduce_add (slice0 byDay d) in
    let remaining := Math_max (Fin 0) (n_sub oh cumDestroyed) in
    let frac := n_div remaining oh in
    if n_le frac (Fin 0) then Fin 100
    else if n_ge frac (Fin 1) then Fin 0
    else
      let p := n_sub (Fin 1) (Math_pow frac (n_div (Fin 1) d)) in
      Math_max (Fin 0) (Math_min (Fin 100) (n_mul p (Fin 100))).

End Page.

(** ** libcompute.ts: unit identifiers

    Strings are byte strings; case and white space are those of ASCII. *)

Local Open Scope string_scope.

Definition is_space (c : ascii) : bool :=
  let n := N_of_ascii c in
  (N.eqb n 32 || (N.leb 9 n && N.leb n 13))%bool.

Definition upper_char (c : ascii) : ascii :=
  let n := N_of_ascii c in
  if (N.leb 97 n && N.leb n 122)%bool then ascii_of_N (n - 32) else c.

Fixpoint toUpperCase (s : string) : string :=
  match s with
  | EmptyString => EmptyString
  | String c s' => String (upper_char c) (toUpperCase s')
  end.

Fixpoint trimStart (s : string) : string :=
  match s with
  | EmptyString => EmptyString
  | String c s' => if is_space c then trimStart s' else s
  end.

Fixpoint trimEnd (s : string) : string :=
  match s with
  | EmptyString => EmptyString
  | String c s' =>
      let t := trimEnd s' in
      if (is_space c && String.eqb t EmptyString)%bool then EmptyString else String c t
  end.

Definition trim (s : string) : string := trimEnd (trimStart s).

(** [s.replace(/\s+/g, " ")]; [in_run] says the previous character was
    white space. *)
Fixpoint collapse_spaces (in_run : bool) (s : string) : string :=
  match s with
  | EmptyString => EmptyString
  | String c s' =>
      if is_space c
      then (if in_run then collapse_spaces true s'
            else String " " (collapse_spaces true s'))
      else String c (collapse_spaces false s')
  end.

Definition BCG_165_BNS : list string :=
  ["1651"; "1652"; "1653"; "1654"; "1657"; "1658"; "1659"].

(** OS/SS must be under 165 *)
Definition OS_SS_ALIASES : list string :=
  ["OS/SS"; "OSSS"; "OS-SS"; "OS & SS"; "OS AND SS"].

Definition has (set : list string) (s : string) : bool :=
  existsb (String.eqb s) set.

(** The identifier is a string, as [TrackerRow] declares it. *)
Definition normalizeBn (raw : string) : string :=
  let s := collapse_spaces false (toUpperCase (trim raw)) in
  if has OS_SS_ALIASES s then "OS/SS" else s.

Inductive GroupKey : Type := BCG_165 | OTHER.

Definition GroupKey_eqb (a b : GroupKey) : bool :=
  match a, b with
  | BCG_165, BCG_165 | OTHER, OTHER => true
  | _, _ => false
  end.

Definition GroupKey_name (g : GroupKey) : string :=
  match g with BCG_165 => "165_BCG" | OTHER => "OTHER" end.

Definition groupForBn (rawBn : string) : GroupKey :=
  let bn := normalizeBn rawBn in
  if String.eqb bn "OS/SS" then BCG_165
  else if has BCG_165_BNS bn then BCG_165
  else OTHER.

Local Close Scope string_scope.

(** ** libcompute.ts: rows and summaries *)

Module TrackerRow.
(** An optional field that is absent reads [undefined]. *)
Record t : Type := mk {
  id : string;
  bn : string;
  equipmentType : string;
  onHand : JsVal;
  dailyAttritionPct : JsVal;
  destroyedManual : JsVal;
  destroyedByDay : JsVal
}.
End TrackerRow.

Module ComputedRow.
(** The input row spread, with [bn], [onHand] and [destroyedManual]
    overwritten, and the computed fields. *)
Record t : Type := mk {
  id : string;
  bn : string;
  equipmentType : string;
  onHand : number;
  dailyAttritionPct : JsVal;
  destroyedManual : number;
  destroyedByDay : JsVal;
  destroyedAttrition : number;
  destroyed : number;
  remaining : number;
  combatPowerPct : number;
  daysTo25Pct : option number;
  destroyedManualActive : number;
  destroyedManualTotal : number
}.
End ComputedRow.

Module BnSummary.
Record t : Type := mk {
  bn : string;
  onHand : number;
  remaining : number;
  destroyed : number;
  combatPowerPct : number;
  daysTo25Pct : option number
}.
End BnSummary.

Module GroupSummary.
Record t : Type := mk {
  group : GroupKey;
  onHand : number;
  remaining : number;
  destroyed : number;
  combatPowerPct : number;
  daysTo25Pct : option number
}.
End GroupSummary.

Module Opts.
Record t : Type := mk {
  day : JsVal;
  useAttrition : option bool;
  manualWins : option bool
}.
End Opts.

Module Result.
Record t : Type := mk {
  computedRows : list ComputedRow.t;
  bnSummaries : list BnSummary.t;
  groupSummaries : list GroupSummary.t;
  day : number
}.
End Result.

(** [const day = clamp(Math.floor(safeNum(opts?.day ?? 1)), 1, 5)] *)
Definition selectedDay (opts : option Opts.t) : number :=
  let raw := match opts with Some o => Opts.day o | None => JUndefined end in
  let dayRaw := Math_floor (safeNum (nullish raw (JNum (Fin 1)))) in
  clamp dayRaw (Fin 1) (Fin 5).

Definition opt_flag (opts : option Opts.t) (field : Opts.t -> option bool) : bool :=
  match opts with
  | Some o => match field o with Some b => b | None => true end
  | None => true
  end.

(** The two running sums [(destroyedManualActive, destroyedManualTotal)] of a
    row, before they are clamped to the on-hand count. *)
Definition manualDestroyed (row : TrackerRow.t) (day : number) : number * number :=
  if Array_isArray (TrackerRow.destroyedByDay row) then
    let byDay := normalizeDestroyedByDay (TrackerRow.destroyedByDay row) in
    let destroyedManualTotal := reduce_add byDay in
    let destroyedManualActive := reduce_add (slice0 byDay day) in
    (destroyedManualActive, destroyedManualTotal)
  else
    (* Legacy single manual destroyed value *)
    let destroyedManualTotal :=
      Math_max (Fin 0)
        (Math_floor (safeNum (nullish (TrackerRow.destroyedManual row) (JNum (Fin 0))))) in
    (destroyedManualTotal, destroyedManualTotal).

(** The callback of [rows.map] in [computeRows]. *)
Definition computeRow (day : number) (useAttrition manualWins : bool)
    (row : TrackerRow.t) : ComputedRow.t :=
  let onHand := Math_max (Fin 0) (Math_floor (safeNum (TrackerRow.onHand row))) in
  let '(destroyedManualActive, destroyedManualTotal) := manualDestroyed row day in
  let manual := clamp destroyedManualActive (Fin 0) onHand in
  let destroyedAttrition :=
    if useAttrition then
      let rem := remainingAfterDays onHand (TrackerRow.dailyAttritionPct row) (JNum day) in
      clamp (Math_round (n_sub onHand rem)) (Fin 0) onHand
    else Fin 0 in
  let destroyed :=
    if useAttrition
    then (if manualWins then Math_max manual destroyedAttrition else destroyedAttrition)
    else manual in
  let remaining := Math_max (Fin 0) (n_sub onHand destroyed) in
  let combatPowerPct :=
    if n_gt onHand (Fin 0) then n_mul (n_div remaining onHand) (Fin 100) else Fin 0 in
  let daysTo25Pct :=
    if n_gt onHand (Fin 0)
    then daysToReachFraction (TrackerRow.dailyAttritionPct row) (Fin 0.25)
    else None in
  {| ComputedRow.id := TrackerRow.id row;
     ComputedRow.bn := normalizeBn (TrackerRow.bn row);
     ComputedRow.equipmentType := TrackerRow.equipmentType row;
     ComputedRow.onHand := onHand;
     ComputedRow.dailyAttritionPct := TrackerRow.dailyAttritionPct row;
     ComputedRow.destroyedManual := manual;
     ComputedRow.destroyedByDay := TrackerRow.destroyedByDay row;
     ComputedRow.destroyedAttrition := destroyedAttrition;
     ComputedRow.destroyed := destroyed;
     ComputedRow.remaining := remaining;
     ComputedRow.combatPowerPct := combatPowerPct;
     ComputedRow.daysTo25Pct := daysTo25Pct;
     ComputedRow.destroyedManualActive := manual;
     ComputedRow.destroyedManualTotal := clamp destroyedManualTotal (Fin 0) onHand |}.

(** *** Maps in insertion order *)

Section InsertionOrderMap.
Context {K V : Type} (eqb : K -> K -> bool).

Fixpoint map_get (k : K) (m : list (K * V)) : option V :=
  match m with
  | [] => None
  | (k', v) :: m' => if eqb k k' then Some v else map_get k m'
  end.

(** A new key goes last; a known key keeps its place. *)
Fixpoint map_set (k : K) (v : V) (m : list (K * V)) : list (K * V) :=
  match m with
  | [] => [(k, v)]
  | (k', v') :: m' => if eqb k k' then (k, v) :: m' else (k', v') :: map_set k v m'
  end.

Definition map_values (m : list (K * V)) : list V := map snd m.
End InsertionOrderMap.

(** [sum + r.onHand], [sum + safeNum(r.dailyAttritionPct) * r.onHand] folded
    from 0 *)
Definition totalWeight (rows : list ComputedRow.t) : number :=
  fold_left (fun sum r => n_add sum (ComputedRow.onHand r)) rows (Fin 0).

Definition weightedAttrition (rows : list ComputedRow.t) : number :=
  if n_gt (totalWeight rows) (Fin 0)
  then n_div
         (fold_left
            (fun sum r =>
               n_add sum (n_mul (safeNum (ComputedRow.dailyAttritionPct r))
                                (ComputedRow.onHand r)))
            rows (Fin 0))
         (totalWeight rows)
  else Fin 0.

(** One turn of the BN rollup loop. *)
Definition bnRollupStep (bnMap : list (string * BnSummary.t)) (r : ComputedRow.t)
  : list (string * BnSummary.t) :=
  let bn := normalizeBn (ComputedRow.bn r) in
  if String.eqb bn EmptyString then bnMap
  else
    let existing :=
      match map_get String.eqb bn bnMap with
      | Some s => s
      | None => BnSummary.mk bn (Fin 0) (Fin 0) (Fin 0) (Fin 0) None
      end in
    let existing :=
      BnSummary.mk (BnSummary.bn existing)
        (n_add (BnSummary.onHand existing) (ComputedRow.onHand r))
        (n_add (BnSummary.remaining existing) (ComputedRow.remaining r))
        (n_add (BnSummary.destroyed existing) (ComputedRow.destroyed r))
        (BnSummary.combatPowerPct existing)
        (BnSummary.daysTo25Pct existing) in
    map_set String.eqb bn existing bnMap.

Definition bnFinish (computedRows : list ComputedRow.t) (s : BnSummary.t) : BnSummary.t :=
  let combatPowerPct :=
    if n_gt (BnSummary.onHand s) (Fin 0)
    then n_mul (n_div (BnSummary.remaining s) (BnSummary.onHand s)) (Fin 100)
    else Fin 0 in
  let bnRows :=
    filter (fun r => String.eqb (normalizeBn (ComputedRow.bn r)) (BnSummary.bn s))
           computedRows in
  let daysTo25Pct :=
    if n_gt (BnSummary.onHand s) (Fin 0)
    then daysToReachFraction (JNum (weightedAttrition bnRows)) (Fin 0.25)
    else None in
  BnSummary.mk (BnSummary.bn s) (BnSummary.onHand s) (BnSummary.remaining s)
    (BnSummary.destroyed s) combatPowerPct daysTo25Pct.

Definition groupMap0 : list (GroupKey * GroupSummary.t) :=
  [ (BCG_165, GroupSummary.mk BCG_165 (Fin 0) (Fin 0) (Fin 0) (Fin 0) None);
    (OTHER, GroupSummary.mk OTHER (Fin 0) (Fin 0) (Fin 0) (Fin 0) None) ].

(** One turn of the group rollup loop: the summary object held by the map is
    updated in place. *)
Definition groupRollupStep (groupMap : list (GroupKey * GroupSummary.t))
    (r : ComputedRow.t) : list (GroupKey * GroupSummary.t) :=
  let g := groupForBn (ComputedRow.bn r) in
  match map_get GroupKey_eqb g groupMap with
  | Some existing =>
      map_set GroupKey_eqb g
        (GroupSummary.mk (GroupSummary.group existing)
           (n_add (GroupSummary.onHand existing) (ComputedRow.onHand r))
           (n_add (GroupSummary.remaining existing) (ComputedRow.remaining r))
           (n_add (GroupSummary.destroyed existing) (ComputedRow.destroyed r))
           (GroupSummary.combatPowerPct existing)
           (GroupSummary.daysTo25Pct existing))
        groupMap
  | None => groupMap
  end.

Definition groupFinish (computedRows : list ComputedRow.t) (g : GroupSummary.t)
  : GroupSummary.t :=
  let combatPowerPct :=
    if n_gt (GroupSummary.onHand g) (Fin 0)
    then n_mul (n_div (GroupSummary.remaining g) (GroupSummary.onHand g)) (Fin 100)
    else Fin 0 in
  let groupRows :=
    filter (fun r => GroupKey_eqb (groupForBn (ComputedRow.bn r)) (GroupSummary.group g))
           computedRows in
  let daysTo25Pct :=
    if n_gt (GroupSummary.onHand g) (Fin 0)
    then daysToReachFraction (JNum (weightedAttrition groupRows)) (Fin 0.25)
    else None in
  GroupSummary.mk (GroupSummary.group g) (GroupSummary.onHand g)
    (GroupSummary.remaining g) (GroupSummary.destroyed g) combatPowerPct daysTo25Pct.

Section ComputeRows.
(** [a.localeCompare(b)] depends on the host's collation; the engine is
    parametric in it. *)
Variable localeCompare : string -> string -> number.

(** [arr.sort((a, b) => key(a).localeCompare(key(b)))]: the sort is stable,
    so it is the insertion of each element after those not greater. *)
Fixpoint sort_insert {A : Type} (key : A -> string) (x : A) (sorted : list A) : list A :=
  match sorted with
  | [] => [x]
  | y :: rest =>
      if n_gt (localeCompare (key y) (key x)) (Fin 0)
      then x :: sorted
      else y :: sort_insert key x rest
  end.

Definition sort_by {A : Type} (key : A -> string) (arr : list A) : list A :=
  fold_left (fun sorted x => sort_insert key x sorted) arr [].

Definition computeRows (rows : list TrackerRow.t) (opts : option Opts.t) : Result.t :=
  (* Day is 1..5 (no Day 0) *)
  let day := selectedDay opts in
  let useAttrition := opt_flag opts Opts.useAttrition in
  let manualWins := opt_flag opts Opts.manualWins in
  let computedRows := map (computeRow day useAttrition manualWins) rows in
  (* BN rollup (by exact canonical BN) *)
  let bnMap := fold_left bnRollupStep computedRows [] in
  let bnSummaries :=
    sort_by BnSummary.bn (map (bnFinish computedRows) (map_values bnMap)) in
  (* Group rollups (165_BCG vs OTHER) *)
  let groupMap := fold_left groupRollupStep computedRows groupMap0 in
  let groupSummaries :=
    sort_by (fun g => GroupKey_name (GroupSummary.group g))
            (map (groupFinish computedRows) (map_values groupMap)) in
  Result.mk computedRows bnSummaries groupSummaries day.
End ComputeRows.

(** ** page.tsx: units, top-bar totals, recalculation, sort modes, sheet cells *)

Module PageView.

Local Open Scope string_scope.

(** The identifier is a string, as [TrackerRow] declares it. *)
Definition normalizeBn (raw : string) : string :=
  let s := collapse_spaces false (toUpperCase (trim raw)) in
  (* Normalize common variants to OS/SS *)
  if (String.eqb s "OSSS" || String.eqb s "OS-SS" || String.eqb s "OS & SS"
      || String.eqb s "OS AND SS")%bool
  then "OS/SS" else s.

Definition BCG_165_BNS : list string :=
  ["1651"; "1652"; "1653"; "1654"; "1657"; "1658"; "1659"; "OS/SS"].

Definition is165BcgUnit (bn : string) : bool := has BCG_165_BNS (normalizeBn bn).

Local Close Scope string_scope.

(** [bcgComputedRows] and [bcgTotals]: the 165 totals of the top bar. *)
Record Totals : Type := mkTotals {
  onHand : number;
  remaining : number;
  destroyed : number;
  combatPowerPct : number
}.

Definition bcgComputedRows (computedRows : list ComputedRow.t) : list ComputedRow.t :=
  filter (fun r => is165BcgUnit (ComputedRow.bn r)) computedRows.

Definition bcgTotals (computedRows : list ComputedRow.t) : Totals :=
  let rows := bcgComputedRows computedRows in
  let onHand :=
    fold_left (fun s r => n_add s (or_zero (ComputedRow.onHand r))) rows (Fin 0) in
  let remaining :=
    fold_left (fun s r => n_add s (or_zero (ComputedRow.remaining r))) rows (Fin 0) in
  let destroyed :=
    fold_left (fun s r => n_add s (or_zero (ComputedRow.destroyed r))) rows (Fin 0) in
  let combatPowerPct :=
    if n_gt onHand (Fin 0) then n_mul (n_div remaining onHand) (Fin 100) else Fin 0 in
  mkTotals onHand remaining destroyed combatPowerPct.

(** The row update of [setDayAndRecalc] and [updateRow]: the daily losses
    are normalized and the rate is inferred again for the day. *)
Definition recalcRow (d : JsVal) (r : TrackerRow.t) : TrackerRow.t :=
  let byDay := Page.normalizeDestroyedByDay (TrackerRow.destroyedByDay r) in
  let pct :=
    Page.inferDailyAttritionPct (TrackerRow.onHand r) (JArr (map JNum byDay)) d in
  TrackerRow.mk (TrackerRow.id r) (TrackerRow.bn r) (TrackerRow.equipmentType r)
    (TrackerRow.onHand r) (JNum pct) (TrackerRow.destroyedManual r)
    (JArr (map JNum byDay)).

(** [setDayAndRecalc]: the new day and the new rows of the state. *)
Definition setDayAndRecalc (nextDay : JsVal) (prev : list TrackerRow.t)
  : number * list TrackerRow.t :=
  let d := Page.clampInt nextDay (Fin 1) (Fin 5) in
  (d, map (recalcRow (JNum d)) prev).

Inductive SortMode : Type := BN_ASC | BN_DESC | CP_ASC | CP_DESC.

Definition cycleSort (mode : SortMode) : SortMode :=
  match mode with
  | BN_ASC => BN_DESC
  | BN_DESC => CP_DESC
  | CP_DESC => CP_ASC
  | CP_ASC => BN_ASC
  end.

Definition lower_char (c : ascii) : ascii :=
  let n := N_of_ascii c in
  if (N.leb 65 n && N.leb n 90)%bool then ascii_of_N (n + 32) else c.

Fixpoint toLowerCase (s : string) : string :=
  match s with
  | EmptyString => EmptyString
  | String c s' => String (lower_char c) (toLowerCase s')
  end.

(** The last replacement of the source puts a percent sign for a percent
    sign. *)
Definition normalizeKey (s : string) : string :=
  collapse_spaces false (toLowerCase (trim s)).

(** A sheet row is an object: its own keys in the order [Object.keys] lists
    them, each with its value; a row that is null or undefined has none.
    Setting a key the map already holds replaces the value in place. *)
Fixpoint find_cell (map : list (string * JsVal)) (keys : list string) : JsVal :=
  match keys with
  | [] => JUndefined
  | want :: rest =>
      match map_get String.eqb (normalizeKey want) map with
      | Some JUndefined | None => find_cell map rest
      | Some v => v
      end
  end.

Definition getCell (row : list (string * JsVal)) (keys : list string) : JsVal :=
  let map :=
    fold_left (fun m kv => map_set String.eqb (normalizeKey (fst kv)) (snd kv) m) row [] in
  find_cell map keys.

End PageView.

(** * Vocabulary of the statements *)

(** The counts of the engine are finite numbers carrying an integer. *)
Definition of_Z (z : Z) : number := Fin (IZR z).

(** A non-negative integer count, and one bounded by [hi]. *)
Definition is_count (v : number) : Prop :=
  exists n : Z, (0 <= n)%Z /\ v = of_Z n.

Definition is_count_upto (hi : Z) (v : number) : Prop :=
  exists n : Z, (0 <= n <= hi)%Z /\ v = of_Z n.

(** Well-formed daily losses are given as integers. *)
Definition numbers (l : list Z) : JsVal := JArr (map (fun z => JNum (of_Z z)) l).

(** The cumulative destroyed count through a day. *)
Definition cumulative (destroyedByDay : list Z) (day : nat) : Z :=
  fold_left Z.add (firstn day destroyedByDay) 0%Z.

(** The canonical form before the aliases are folded. *)
Definition squeezed (raw : string) : string :=
  collapse_spaces false (toUpperCase (trim raw)).

(** No white space in front. *)
Definition no_lead (s : string) : Prop :=
  match s with
  | EmptyString => True
  | String c _ => is_space c = false
  end.

(** [rows.reduce((sum, r) => sum + f(r), 0)], as the engine itself sums the
    weights of the rows of a group. *)
Definition sum_over (f : ComputedRow.t -> number) (rows : list ComputedRow.t) : number :=
  fold_left (fun sum r => n_add sum (f r)) rows (Fin 0).

(** The rows of a unit and of a group, as the engine itself filters them. *)
Definition bnRows (bn : string) (rows : list ComputedRow.t) : list ComputedRow.t :=
  filter (fun r => String.eqb (normalizeBn (ComputedRow.bn r)) bn) rows.

Definition groupRows (g : GroupKey) (rows : list ComputedRow.t) : list ComputedRow.t :=
  filter (fun r => GroupKey_eqb (groupForBn (ComputedRow.bn r)) g) rows.

(** Integer accounting of an on-hand count, a destroyed count and a
    remaining count. *)
Definition accounting (onHand destroyed remaining : number) : Prop :=
  exists oh de re : Z,
    onHand = of_Z oh /\ destroyed = of_Z de /\ remaining = of_Z re /\
    (0 <= re <= oh)%Z /\ (de + re = oh)%Z.

Definition row_accounting (r : ComputedRow.t) : Prop :=
  accounting (ComputedRow.onHand r) (ComputedRow.destroyed r) (ComputedRow.remaining r).

(** A summary holds the sums of the rows of its unit, of its group. *)
Definition bn_summary_sums (rows : list ComputedRow.t) (s : BnSummary.t) : Prop :=
  BnSummary.onHand s = sum_over ComputedRow.onHand (bnRows (BnSummary.bn s) rows) /\
  BnSummary.remaining s = sum_over ComputedRow.remaining (bnRows (BnSummary.bn s) rows) /\
  BnSummary.destroyed s = sum_over ComputedRow.destroyed (bnRows (BnSummary.bn s) rows).

Definition group_summary_sums (rows : list ComputedRow.t) (g : GroupSummary.t) : Prop :=
  GroupSummary.onHand g = sum_over ComputedRow.onHand (groupRows (GroupSummary.group g) rows) /\
  GroupSummary.remaining g =
    sum_over ComputedRow.remaining (groupRows (GroupSummary.group g) rows) /\
  GroupSummary.destroyed g =
    sum_over ComputedRow.destroyed (groupRows (GroupSummary.group g) rows).

(** The state of the BN rollup loop after the rows [done]: the map holds one
    summary for each non-empty canonical identifier seen, under that
    identifier, with the sums of the rows of that identifier. *)
Definition bn_entry_ok (done : list ComputedRow.t) (e : string * BnSummary.t) : Prop :=
  BnSummary.bn (snd e) = fst e /\
  fst e <> EmptyString /\
  BnSummary.onHand (snd e) = sum_over ComputedRow.onHand (bnRows (fst e) done) /\
  BnSummary.remaining (snd e) = sum_over ComputedRow.remaining (bnRows (fst e) done) /\
  BnSummary.destroyed (snd e) = sum_over ComputedRow.destroyed (bnRows (fst e) done).

Definition bn_inv (m : list (string * BnSummary.t)) (done : list ComputedRow.t) : Prop :=
  NoDup (map fst m) /\
  Forall (bn_entry_ok done) m /\
  (forall r, In r done ->
             normalizeBn (ComputedRow.bn r) <> EmptyString ->
             In (normalizeBn (ComputedRow.bn r)) (map fst m)).

(** Example 4 of the specification: 100 on hand, 10 reported destroyed on
    day 1, a rate of 6% a day. *)
Definition example4_row : TrackerRow.t :=
  TrackerRow.mk "4" "1651" "Type 96 MBT" (JNum (Fin 100)) (JNum (Fin 6))
                JUndefined (numbers [10; 0; 0; 0; 0]%Z).

(** Rows in the legacy format: no daily losses, a scalar [destroyedManual];
    the second reports more destroyed than is on hand. *)
Definition legacy_row : TrackerRow.t :=
  TrackerRow.mk "1" "1651" "Type 96 MBT" (JNum (Fin 44)) (JNum (Fin 0))
                (JNum (Fin 7)) JUndefined.

Definition legacy_row_over : TrackerRow.t :=
  TrackerRow.mk "2" "1651" "Type 99 MBT" (JNum (Fin 5)) (JNum (Fin 0))
                (JNum (Fin 10)) JUndefined.

(** The combat power of an integer on-hand count and an integer remaining
    count: the remaining share in percent, 0 when nothing is on hand. *)
Definition combat_power (onHand remaining combatPowerPct : number) : Prop :=
  exists (oh re : Z) (c : R),
    onHand = of_Z oh /\ remaining = of_Z re /\ combatPowerPct = Fin c /\
    0 <= c <= 100 /\
    c = if (0 <? oh)%Z then IZR re / IZR oh * 100 else 0.

(** A rate that sanitizes to a value between two bounds. *)
Definition rate_within (lo hi : R) (dailyAttritionPct : JsVal) : Prop :=
  exists x : R, safeNum dailyAttritionPct = Fin x /\ lo <= x <= hi.

(** The value of the last cell of a sheet row whose header normalizes to
    [key]. *)
Definition last_cell (key : string) (row : list (string * JsVal)) : option JsVal :=
  fold_left
    (fun found kv =>
       if String.eqb (PageView.normalizeKey (fst kv)) key then Some (snd kv) else found)
    row None.

(** A row as the page keeps it, with everyday counts: a whole on-hand count
    and five whole daily losses, each at most 10^9.  On such counts the
    doubles of the sources resolve a loss of one through the root and the
    power of the inferred rate, as the exact numbers of the model do. *)
Definition well_formed_row (row : TrackerRow.t) : Prop :=
  exists (oh : Z) (l : list Z),
    (0 <= oh <= 1000000000)%Z /\ TrackerRow.onHand row = JNum (of_Z oh) /\
    TrackerRow.destroyedByDay row = numbers l /\
    List.length l = 5%nat /\
    Forall (fun z => 0 <= z <= 1000000000)%Z l.

(** Under the comparison [localeCompare], [a] does not sort after [b]. *)
Definition not_after (localeCompare : string -> string -> number) (a b : string) : Prop :=
  n_gt (localeCompare a b) (Fin 0) = false.

(** A comparison that orders: when [a] sorts after [b], [b] does not sort
    after [a]; and not sorting after is transitive. *)
Definition orders (localeCompare : string -> string -> number) : Prop :=
  (forall a b, n_gt (localeCompare a b) (Fin 0) = true -> not_after localeCompare b a) /\
  (forall a b c, not_after localeCompare a b -> not_after localeCompare b c ->
                 not_after localeCompare a c).

(** The sanitized on-hand count of an input row, [max(0, floor(safeNum
    (onHand)))], and the total over the input rows. *)
Definition onHandCount (row : TrackerRow.t) : Z :=
  Z.max 0 (Zfloor (match safeNum (TrackerRow.onHand row) with Fin x => x | _ => 0 end)).

Definition totalOnHand (rows : list TrackerRow.t) : Z :=
  fold_left (fun total row => (total + onHandCount row)%Z) rows 0%Z.

(** The sources add counts as IEEE doubles, which carry every integer up to
    [Number.MAX_SAFE_INTEGER] exactly; the model adds exactly.  While the
    total on hand stays within that range, no sum of counts the engine forms
    is rounded, and the two agree. *)
Definition safe_counts (rows : list TrackerRow.t) : Prop :=
  (totalOnHand rows <= 9007199254740991)%Z.

(** Strings of ASCII characters: on these the case mappings and the white
    space of JavaScript are those of the model. *)
Fixpoint ascii_only (s : string) : bool :=
  match s with
  | EmptyString => true
  | String c s' => (N.ltb (N_of_ascii c) 128 && ascii_only s')%bool
  end.

(** A row that loses everything in a day. *)
Definition total_loss_row : TrackerRow.t :=
  TrackerRow.mk "3" "1652" "Type 96 MBT" (JNum (Fin 20)) (JNum (Fin 100))
                JUndefined (numbers [0; 0; 0; 0; 0]%Z).

(** * Properties *)

(** ** Finite arithmetic *)

Ltac rdec :=
  unfold R_leb, R_ltb, R_eqb in *;
  repeat match goal with
    | |- context [Rle_dec ?a ?b] => destruct (Rle_dec a b)
    | |- context [Rlt_dec ?a ?b] => destruct (Rlt_dec a b)
    | |- context [Req_dec_T ?a ?b] => destruct (Req_dec_T a b)
    end;
  try reflexivity; try lra.

Lemma R_leb_true x y : x <= y -> R_leb x y = true.
Proof. intros; rdec. Qed.

Lemma R_leb_false x y : y < x -> R_leb x y = false.
Proof. intros; rdec. Qed.

Lemma R_ltb_true x y : x < y -> R_ltb x y = true.
Proof. intros; rdec. Qed.

Lemma R_ltb_false x y : y <= x -> R_ltb x y = false.
Proof. intros; rdec. Qed.

Lemma R_eqb_refl x : R_eqb x x = true.
Proof. rdec. Qed.

Lemma R_eqb_false x y : x <> y -> R_eqb x y = false.
Proof. intros; rdec. Qed.

Lemma Math_max_fin x y : Math_max (Fin x) (Fin y) = Fin (Rmax x y).
Proof. unfold Math_max, n_le, Rmax, R_leb. destruct (Rle_dec x y); reflexivity. Qed.

Lemma Math_min_fin x y : Math_min (Fin x) (Fin y) = Fin (Rmin x y).
Proof. unfold Math_min, n_le, Rmin, R_leb. destruct (Rle_dec x y); reflexivity. Qed.

Lemma n_sub_fin x y : n_sub (Fin x) (Fin y) = Fin (x - y).
Proof. reflexivity. Qed.

Lemma n_div_fin x y : y <> 0 -> n_div (Fin x) (Fin y) = Fin (x / y).
Proof. intros H. unfold n_div. now rewrite R_eqb_false. Qed.

Lemma Rmax_IZR a b : Rmax (IZR a) (IZR b) = IZR (Z.max a b).
Proof.
  unfold Rmax. destruct (Rle_dec (IZR a) (IZR b)) as [H | H].
  - apply le_IZR in H. now rewrite Z.max_r.
  - rewrite Z.max_l; [reflexivity |].
    destruct (Z.le_ge_cases b a) as [L | L]; [exact L |].
    exfalso. apply H. now apply IZR_le.
Qed.

Lemma Rmin_IZR a b : Rmin (IZR a) (IZR b) = IZR (Z.min a b).
Proof.
  unfold Rmin. destruct (Rle_dec (IZR a) (IZR b)) as [H | H].
  - apply le_IZR in H. now rewrite Z.min_l.
  - rewrite Z.min_r; [reflexivity |].
    destruct (Z.le_ge_cases b a) as [L | L]; [exact L |].
    exfalso. apply H. now apply IZR_le.
Qed.

Lemma safeNum_finite v : exists x, safeNum v = Fin x.
Proof. unfold safeNum. destruct (Number v); simpl; eauto. Qed.

Lemma safeNum_number x : safeNum (JNum (Fin x)) = Fin x.
Proof. reflexivity. Qed.

(** On a positive base and a natural exponent [Math.pow] is the iterated
    product. *)
Lemma Math_pow_nat b (k : nat) :
  0 < b -> Math_pow (Fin b) (Fin (INR k)) = Fin (b ^ k).
Proof.
  intros Hb. unfold Math_pow.
  destruct k as [| k].
  - simpl. now rewrite R_eqb_refl.
  - rewrite R_eqb_false by (apply not_0_INR; discriminate).
    rewrite R_ltb_true by exact Hb.
    now rewrite Rpower_pow.
Qed.

(** The floored day count [d] of the decay model, for a finite day. *)
Lemma day_count x :
  Math_max (Fin 0) (Math_floor (Fin x)) = Fin (INR (Z.to_nat (Zfloor x))).
Proof.
  simpl Math_floor. rewrite Math_max_fin, Rmax_IZR. f_equal.
  rewrite INR_IZR_INZ. f_equal. lia.
Qed.

(** ** Decay model *)

(** The branches of [remainingAfterDays] on a finite start, in terms of the
    sanitized rate and day. *)
Lemma remainingAfterDays_safe (start : R) (dailyPct day : JsVal) (rate dy : R) :
  safeNum dailyPct = Fin rate ->
  safeNum day = Fin dy ->
  remainingAfterDays (Fin start) dailyPct day =
  Fin (if Rle_dec start 0 then 0
       else if Rle_dec (rate / 100) 0 then start
       else if Rle_dec 1 (rate / 100) then 0
       else start * (1 - rate / 100) ^ Z.to_nat (Zfloor dy)).
Proof.
  intros Hr Hd. unfold remainingAfterDays. rewrite Hr, Hd, day_count.
  rewrite n_div_fin by lra.
  unfold n_le, n_ge, n_le, R_leb.
  destruct (Rle_dec start 0); [reflexivity |].
  destruct (Rle_dec (rate / 100) 0); [reflexivity |].
  destruct (Rle_dec 1 (rate / 100)); [reflexivity |].
  rewrite n_sub_fin, Math_pow_nat by lra. reflexivity.
Qed.

Lemma remainingAfterDays_fin (start rate day : R) :
  remainingAfterDays (Fin start) (JNum (Fin rate)) (JNum (Fin day)) =
  Fin (if Rle_dec start 0 then 0
       else if Rle_dec (rate / 100) 0 then start
       else if Rle_dec 1 (rate / 100) then 0
       else start * (1 - rate / 100) ^ Z.to_nat (Zfloor day)).
Proof. now apply remainingAfterDays_safe. Qed.

(** C3. The decay model: on finite [start], [rate_pct] and a non-negative
    [day], [remaining] is 0 when [start <= 0]; otherwise it is [start] when
    the rate fraction [p = rate_pct / 100] is [<= 0], it is 0 when [p >= 1],
    and it is [start * (1 - p) ^ floor day] when [0 < p < 1]. *)
Theorem remainingAfterDays_model (start rate_pct day : R) :
  0 <= day ->
  let p := rate_pct / 100 in
  let remaining := remainingAfterDays (Fin start) (JNum (Fin rate_pct)) (JNum (Fin day)) in
  (start <= 0 -> remaining = Fin 0) /\
  (0 < start -> p <= 0 -> remaining = Fin start) /\
  (0 < start -> 1 <= p -> remaining = Fin 0) /\
  (0 < start -> 0 < p < 1 ->
   remaining = Fin (start * (1 - p) ^ Z.to_nat (Zfloor day))).
Proof.
  intros Hday p remaining. subst p remaining.
  rewrite remainingAfterDays_fin.
  repeat split; intros;
    repeat match goal with
      | |- context [Rle_dec ?a ?b] => destruct (Rle_dec a b)
      end; try reflexivity; try lra.
Qed.

(** Example 2 of the specification: 100 on hand at 50% a day leaves 25 after
    two days. *)
Lemma remainingAfterDays_model_witness :
  0 <= 2 /\
  remainingAfterDays (Fin 100) (JNum (Fin 50)) (JNum (Fin 2)) = Fin 25.
Proof.
  split; [lra |].
  destruct (remainingAfterDays_model 100 50 2 ltac:(lra)) as (_ & _ & _ & H).
  rewrite H by lra.
  rewrite (ZfloorZ 2). simpl. f_equal. lra.
Defined.

Lemma pow_antitone (b : R) (m n : nat) :
  0 <= b <= 1 -> (m <= n)%nat -> b ^ n <= b ^ m.
Proof.
  intros Hb Hmn. replace n with (m + (n - m))%nat by lia.
  rewrite pow_add.
  assert (0 <= b ^ m) by (apply pow_le; lra).
  assert (b ^ (n - m) <= 1).
  { rewrite <- (pow1 (n - m)). apply pow_incr. lra. }
  nra.
Qed.

Lemma Zfloor_INR (k : nat) : Z.to_nat (Zfloor (INR k)) = k.
Proof. rewrite INR_IZR_INZ, ZfloorZ. lia. Qed.

(** C8. Monotonicity of the decay model: for a fixed on-hand count and a fixed
    rate (any value; it is sanitized), the remaining count does not increase
    when the day goes from [d1] to a later [d2]. *)
Theorem remainingAfterDays_monotone (onHand : R) (rate : JsVal) (d1 d2 : nat) :
  (d1 <= d2)%nat ->
  n_le (remainingAfterDays (Fin onHand) rate (JNum (Fin (INR d2))))
       (remainingAfterDays (Fin onHand) rate (JNum (Fin (INR d1)))) = true.
Proof.
  intros Hd. destruct (safeNum_finite rate) as [r Hr].
  rewrite !(remainingAfterDays_safe onHand rate _ r _ Hr (safeNum_number _)).
  rewrite !Zfloor_INR. unfold n_le. apply R_leb_true.
  destruct (Rle_dec onHand 0); [lra |].
  destruct (Rle_dec (r / 100) 0); [lra |].
  destruct (Rle_dec 1 (r / 100)); [lra |].
  apply Rmult_le_compat_l; [lra |].
  apply pow_antitone; [lra | exact Hd].
Qed.

Lemma remainingAfterDays_monotone_witness :
  (1 <= 2)%nat /\
  n_le (remainingAfterDays (Fin 100) (JNum (Fin 50)) (JNum (Fin (INR 2))))
       (remainingAfterDays (Fin 100) (JNum (Fin 50)) (JNum (Fin (INR 1)))) = true.
Proof.
  split; [lia |].
  apply (remainingAfterDays_monotone 100 (JNum (Fin 50)) 1 2). lia.
Defined.

(** ** Threshold projector *)

Lemma ln_neg (x : R) : 0 < x < 1 -> ln x < 0.
Proof. intros [H0 H1]. rewrite <- ln_1. now apply ln_increasing. Qed.

(** The computed branch: with a target and a rate fraction strictly between
    0 and 1 the day count is [ln target / ln (1 - p)] rounded up. *)
Lemma daysToReachFraction_computed (dailyPct : JsVal) (rate target : R) :
  safeNum dailyPct = Fin rate ->
  0 < target < 1 ->
  0 < rate / 100 < 1 ->
  daysToReachFraction dailyPct (Fin target) =
  Some (Fin (IZR (Zceil (ln target / ln (1 - rate / 100))))).
Proof.
  intros Hr Ht Hp. unfold daysToReachFraction.
  rewrite Hr, n_div_fin by lra.
  unfold n_ge, n_le.
  rewrite (R_leb_false target 0), (R_leb_false 1 target) by lra.
  rewrite (R_leb_false (rate / 100) 0), (R_leb_false 1 (rate / 100)) by lra.
  rewrite n_sub_fin. unfold Math_log.
  rewrite !R_ltb_true by lra.
  assert (Lt : ln target < 0) by (apply ln_neg; lra).
  assert (Lp : ln (1 - rate / 100) < 0) by (apply ln_neg; lra).
  rewrite n_div_fin by lra. simpl.
  rewrite R_ltb_false; [reflexivity |].
  apply Rlt_le. now apply Rdiv_neg_neg.
Qed.

(** A power of a base in (0, 1) is at most the target exactly from the day
    count [ln target / ln base] on. *)
Lemma pow_le_target (q t : R) (m : nat) :
  0 < q < 1 -> 0 < t ->
  (q ^ m <= t <-> ln t / ln q <= INR m).
Proof.
  intros Hq Ht.
  assert (Lq : ln q < 0) by now apply ln_neg.
  assert (Em : q ^ m = exp (INR m * ln q)).
  { rewrite <- Rpower_pow by lra. reflexivity. }
  assert (Et : exp (ln t) = t) by now apply exp_ln.
  set (d := ln t / ln q).
  assert (Ed : ln t = d * ln q) by (subst d; field; lra).
  split; intros H.
  - destruct (Rle_lt_dec d (INR m)) as [L | L]; [exact L |].
    exfalso. assert (Hlt : ln t < INR m * ln q) by (rewrite Ed; nra).
    apply exp_increasing in Hlt. rewrite Et, <- Em in Hlt. lra.
  - rewrite Em, <- Et. destruct H as [H | H].
    + apply Rlt_le, exp_increasing. rewrite Ed. nra.
    + rewrite <- H, <- Ed. lra.
Qed.


(** C7. Boundary behaviour of the threshold projector, in the order the
    branches are tried: a target of 0 gives 0 for every rate; a rate of 0
    gives unreachable ([None]) for every target strictly between 0 and 1; a
    target of 1 or more gives unreachable; with the target strictly between
    0 and 1, a rate fraction [p >= 1] gives 0; and once the day count [d] is
    computed, a [d] that is not finite or is negative gives unreachable. *)
Theorem daysToReachFraction_boundaries :
  (forall rate : JsVal, daysToReachFraction rate (Fin 0) = Some (Fin 0)) /\
  (forall f : R, 0 < f < 1 -> daysToReachFraction (JNum (Fin 0)) (Fin f) = None) /\
  (forall (rate : JsVal) (target : R),
      1 <= target -> daysToReachFraction rate (Fin target) = None) /\
  (forall rate : JsVal, daysToReachFraction rate PosInf = None) /\
  (forall (rate : JsVal) (r target : R),
      safeNum rate = Fin r -> 0 < target < 1 -> 1 <= r / 100 ->
      daysToReachFraction rate (Fin target) = Some (Fin 0)) /\
  (forall (rate : JsVal) (target : number),
      let p := n_div (safeNum rate) (Fin 100) in
      let d := n_div (Math_log target) (Math_log (n_sub (Fin 1) p)) in
      n_le target (Fin 0) = false -> n_ge target (Fin 1) = false ->
      n_le p (Fin 0) = false -> n_ge p (Fin 1) = false ->
      Number_isFinite d = false \/ n_lt d (Fin 0) = true ->
      daysToReachFraction rate target = None).
Proof.
  refine (conj _ (conj _ (conj _ (conj _ (conj _ _))))).
  - intros rate. unfold daysToReachFraction, n_le.
    now rewrite R_leb_true by lra.
  - intros f Hf. unfold daysToReachFraction.
    rewrite safeNum_number, n_div_fin by lra.
    unfold n_ge, n_le.
    rewrite (R_leb_false f 0), (R_leb_false 1 f) by lra.
    now rewrite R_leb_true by lra.
  - intros rate target Ht. unfold daysToReachFraction, n_ge, n_le.
    rewrite (R_leb_false target 0) by lra.
    now rewrite R_leb_true by lra.
  - intros rate. reflexivity.
  - intros rate r target Hr Ht Hp. unfold daysToReachFraction.
    rewrite Hr, n_div_fin by lra.
    unfold n_ge, n_le.
    rewrite (R_leb_false target 0), (R_leb_false 1 target) by lra.
    rewrite (R_leb_false (r / 100) 0) by lra.
    now rewrite R_leb_true by lra.
  - intros rate target p d H1 H2 H3 H4 Hd. unfold daysToReachFraction.
    fold p. rewrite H1, H2, H3, H4. fold d.
    destruct Hd as [Hd | Hd]; rewrite Hd; [reflexivity |].
    now rewrite orb_true_r.
Qed.

(** The projector at work on the spec's boundary inputs and on the engine's
    own target of 0.25. *)
Lemma daysToReachFraction_boundaries_witness :
  daysToReachFraction (JNum (Fin 50)) (Fin 0) = Some (Fin 0) /\
  daysToReachFraction (JNum (Fin 0)) (Fin 0.25) = None /\
  daysToReachFraction (JNum (Fin 50)) (Fin 1) = None /\
  daysToReachFraction (JNum (Fin 100)) (Fin 0.25) = Some (Fin 0) /\
  daysToReachFraction (JNum (Fin 50)) NaN = None.
Proof.
  destruct daysToReachFraction_boundaries as (B0 & B1 & B2 & _ & B4 & B5).
  refine (conj _ (conj _ (conj _ (conj _ _)))).
  - apply B0.
  - apply B1. lra.
  - apply B2. lra.
  - apply (B4 _ 100); [reflexivity | lra | lra].
  - apply B5.
    + reflexivity.
    + reflexivity.
    + rewrite safeNum_number, n_div_fin by lra. apply R_leb_false. lra.
    + rewrite safeNum_number, n_div_fin by lra. apply R_leb_false. lra.
    + left. rewrite safeNum_number, n_div_fin by lra. reflexivity.
Defined.

(** ** Integer-valued numbers

    The counts of the engine are finite numbers carrying an integer; on them
    the operations of the engine are those of [Z]. *)

Lemma Zfloor_round (z : Z) : Zfloor (IZR z + / 2) = z.
Proof. apply Zfloor_eq. lra. Qed.

Lemma Math_floor_Z z : Math_floor (of_Z z) = of_Z z.
Proof. unfold of_Z. simpl. now rewrite ZfloorZ. Qed.

Lemma Math_round_Z z : Math_round (of_Z z) = of_Z z.
Proof. unfold of_Z. simpl. now rewrite Zfloor_round. Qed.

Lemma Math_max_Z a b : Math_max (of_Z a) (of_Z b) = of_Z (Z.max a b).
Proof. unfold of_Z. now rewrite Math_max_fin, Rmax_IZR. Qed.

Lemma Math_min_Z a b : Math_min (of_Z a) (of_Z b) = of_Z (Z.min a b).
Proof. unfold of_Z. now rewrite Math_min_fin, Rmin_IZR. Qed.

Lemma clamp_Z n lo hi : clamp (of_Z n) (of_Z lo) (of_Z hi) = of_Z (Z.max lo (Z.min hi n)).
Proof. unfold clamp. now rewrite Math_min_Z, Math_max_Z. Qed.

Lemma n_add_Z a b : n_add (of_Z a) (of_Z b) = of_Z (a + b).
Proof. unfold of_Z. simpl. now rewrite plus_IZR. Qed.

Lemma n_sub_Z a b : n_sub (of_Z a) (of_Z b) = of_Z (a - b).
Proof. unfold of_Z. rewrite n_sub_fin. now rewrite minus_IZR. Qed.

Lemma n_le_Z a b : n_le (of_Z a) (of_Z b) = (a <=? b)%Z.
Proof.
  unfold of_Z, n_le, R_leb. destruct (Rle_dec (IZR a) (IZR b)) as [H | H].
  - apply le_IZR in H. symmetry. now apply Z.leb_le.
  - symmetry. apply Z.leb_gt. apply Z.nle_gt. intros L. apply H. now apply IZR_le.
Qed.

Lemma of_Z_inj a b : of_Z a = of_Z b -> a = b.
Proof. unfold of_Z. intros H. injection H as H. now apply eq_IZR. Qed.

Lemma or_zero_Z z : or_zero (of_Z z) = of_Z z.
Proof.
  unfold of_Z, or_zero, R_eqb. destruct (Req_dec_T (IZR z) 0) as [H | H]; [| reflexivity].
  now rewrite H.
Qed.

Lemma reduce_add_Z_from (l : list Z) (acc : Z) :
  fold_left n_add (map of_Z l) (of_Z acc) = of_Z (fold_left Z.add l acc).
Proof.
  revert acc. induction l as [| z l IH]; intros acc; cbn [fold_left map]; [reflexivity |].
  now rewrite n_add_Z, IH.
Qed.

Lemma reduce_add_Z (l : list Z) : reduce_add (map of_Z l) = of_Z (fold_left Z.add l 0%Z).
Proof. unfold reduce_add. apply (reduce_add_Z_from l 0). Qed.

Lemma fold_add_nonneg (l : list Z) (acc : Z) :
  Forall (fun z => 0 <= z)%Z l -> (acc <= fold_left Z.add l acc)%Z.
Proof.
  revert acc. induction l as [| z l IH]; intros acc H; simpl; [lia |].
  inversion H; subst. specialize (IH (acc + z)%Z ltac:(assumption)). lia.
Qed.

(** A list of counts is the image of a list of non-negative integers. *)
Lemma counts_of_Z (l : list number) :
  Forall is_count l ->
  exists zs : list Z, l = map of_Z zs /\ Forall (fun z => 0 <= z)%Z zs.
Proof.
  induction 1 as [| v l (n & Hn & ->) _ (zs & -> & Hzs)].
  - exists []. split; [reflexivity | constructor].
  - exists (n :: zs). split; [reflexivity | now constructor].
Qed.

Lemma reduce_add_count (l : list number) : Forall is_count l -> is_count (reduce_add l).
Proof.
  intros H. destruct (counts_of_Z l H) as (zs & -> & Hzs).
  rewrite reduce_add_Z. eexists; split; [| reflexivity].
  now apply (fold_add_nonneg zs 0).
Qed.

Lemma firstn_Forall {A : Type} (P : A -> Prop) (n : nat) (l : list A) :
  Forall P l -> Forall P (firstn n l).
Proof.
  intros H. revert n. induction H as [| x l Hx _ IH]; intros [| n]; simpl;
    constructor; auto.
Qed.

Lemma slice0_Forall {A : Type} (P : A -> Prop) (arr : list A) (end_ : number) :
  Forall P arr -> Forall P (slice0 arr end_).
Proof.
  intros H. unfold slice0. destruct end_; try constructor; try assumption.
  - destruct (Ztrunc x <? 0)%Z; now apply firstn_Forall.
Qed.

(** ** Normalizer of the engine *)

Lemma Fin_0 : Fin 0 = of_Z 0.
Proof. reflexivity. Qed.

Lemma normalized_entry (v : JsVal) :
  clamp (Math_round (safeNum v)) (Fin 0) Number_MAX_SAFE_INTEGER =
  of_Z (Z.max 0 (Z.min 9007199254740991
                       (Zfloor (match safeNum v with Fin x => x | _ => 0 end + / 2)))).
Proof.
  destruct (safeNum_finite v) as [x ->].
  change (Math_round (Fin x)) with (of_Z (Zfloor (x + / 2))).
  change Number_MAX_SAFE_INTEGER with (of_Z 9007199254740991).
  rewrite Fin_0. apply clamp_Z.
Qed.

Lemma normalized_entry_count (v : JsVal) :
  is_count_upto 9007199254740991
    (clamp (Math_round (safeNum v)) (Fin 0) Number_MAX_SAFE_INTEGER).
Proof. rewrite normalized_entry. eexists; split; [| reflexivity]. lia. Qed.

Lemma normalizeDestroyedByDay_entries (arr : JsVal) :
  normalizeDestroyedByDay arr =
  map (fun i =>
         clamp (Math_round (safeNum (index (elements arr) i))) (Fin 0) Number_MAX_SAFE_INTEGER)
      (seq 0 5).
Proof. unfold normalizeDestroyedByDay. destruct arr; reflexivity. Qed.

(** The normalizer of the engine is total: whatever the input, it returns
    exactly five integers between 0 and [Number.MAX_SAFE_INTEGER]; an entry
    that is absent, or whose conversion is not a finite number, or that is
    negative, becomes 0; an entry that is already such an integer is kept. *)
Theorem normalizeDestroyedByDay_total (arr : JsVal) :
  List.length (normalizeDestroyedByDay arr) = 5%nat /\
  Forall (is_count_upto 9007199254740991) (normalizeDestroyedByDay arr) /\
  (forall i : nat, (i < 5)%nat ->
     let entry := index (elements arr) i in
     let out := nth i (normalizeDestroyedByDay arr) NaN in
     (entry = JUndefined -> out = Fin 0) /\
     (Number_isFinite (Number entry) = false -> out = Fin 0) /\
     (forall x : R, Number entry = Fin x -> x < 0 -> out = Fin 0) /\
     (forall n : Z, Number entry = of_Z n -> (0 <= n <= 9007199254740991)%Z ->
                    out = of_Z n)).
Proof.
  rewrite normalizeDestroyedByDay_entries. split; [reflexivity |]. split.
  - apply Forall_map. apply Forall_forall. intros i _. apply normalized_entry_count.
  - intros i Hi entry out.
    assert (E : out = clamp (Math_round (safeNum entry)) (Fin 0) Number_MAX_SAFE_INTEGER).
    { subst out entry.
      do 5 (destruct i as [| i]; [reflexivity |]). lia. }
    rewrite E, normalized_entry. clear E out.
    refine (conj _ (conj _ (conj _ _))).
    + intros ->. unfold safeNum. simpl.
      replace (0 + / 2) with (IZR 0 + / 2) by reflexivity. now rewrite Zfloor_round.
    + intros H. unfold safeNum. rewrite H.
      replace (0 + / 2) with (IZR 0 + / 2) by reflexivity. now rewrite Zfloor_round.
    + intros x H Hx. unfold safeNum. rewrite H. simpl.
      assert (Zfloor (x + / 2) <= 0)%Z.
      { assert (B := Zfloor_bound (x + / 2)).
        apply Z.lt_succ_r. apply lt_IZR. rewrite succ_IZR. lra. }
      rewrite Fin_0. f_equal. lia.
    + intros n H Hn. unfold safeNum. rewrite H. unfold of_Z at 1. simpl.
      rewrite Zfloor_round. unfold of_Z. do 2 f_equal. lia.
Qed.

(** C9, at the input where it fails.  The copy of the normalizer in page.tsx
    converts with [Number] alone, without the finiteness test of [safeNum]:
    a NaN entry (the number NaN, or a string that is not numeric, which
    [Number] converts to NaN) comes out as NaN, which is not a non-negative
    integer; the normalizer of the engine maps the same entries to 0. *)
Theorem page_normalizeDestroyedByDay_NaN :
  let zero := JNum (Fin 0) in
  Page.normalizeDestroyedByDay (JArr [JNum NaN; zero; zero; zero; zero]) =
    [NaN; Fin 0; Fin 0; Fin 0; Fin 0] /\
  Page.normalizeDestroyedByDay (JArr [JOther NaN; zero; zero; zero; zero]) =
    [NaN; Fin 0; Fin 0; Fin 0; Fin 0] /\
  normalizeDestroyedByDay (JArr [JNum NaN; zero; zero; zero; zero]) =
    [Fin 0; Fin 0; Fin 0; Fin 0; Fin 0] /\
  normalizeDestroyedByDay (JArr [JOther NaN; zero; zero; zero; zero]) =
    [Fin 0; Fin 0; Fin 0; Fin 0; Fin 0].
Proof.
  cbv zeta.
  assert (P0 : Math_max (Fin 0) (Math_floor (Fin 0)) = Fin 0).
  { change (Fin 0) with (of_Z 0). now rewrite Math_floor_Z, Math_max_Z. }
  assert (E0 : forall v, safeNum v = Fin 0 ->
                         clamp (Math_round (safeNum v)) (Fin 0) Number_MAX_SAFE_INTEGER
                         = Fin 0).
  { intros v Hv. rewrite normalized_entry, Hv.
    replace (0 + / 2) with (IZR 0 + / 2) by reflexivity. now rewrite Zfloor_round. }
  refine (conj _ (conj _ (conj _ _))).
  - unfold Page.normalizeDestroyedByDay.
    cbn [Array_isArray elements seq map index nth nullish Number].
    now rewrite P0.
  - unfold Page.normalizeDestroyedByDay.
    cbn [Array_isArray elements seq map index nth nullish Number].
    now rewrite P0.
  - rewrite normalizeDestroyedByDay_entries. cbn [elements seq map index nth].
    now rewrite !E0.
  - rewrite normalizeDestroyedByDay_entries. cbn [elements seq map index nth].
    now rewrite !E0.
Qed.

(** ** Rows *)

Lemma floor_count (v : JsVal) : is_count (Math_max (Fin 0) (Math_floor (safeNum v))).
Proof.
  destruct (safeNum_finite v) as [x ->].
  change (Math_floor (Fin x)) with (of_Z (Zfloor x)).
  rewrite Fin_0, Math_max_Z. eexists; split; [| reflexivity]. lia.
Qed.

Lemma is_count_upto_count hi v : is_count_upto hi v -> is_count v.
Proof. intros (n & Hn & ->). exists n. split; [lia | reflexivity]. Qed.

Lemma normalizeDestroyedByDay_counts (arr : JsVal) :
  Forall is_count (normalizeDestroyedByDay arr).
Proof.
  rewrite normalizeDestroyedByDay_entries. apply Forall_map, Forall_forall.
  intros i _. eapply is_count_upto_count, normalized_entry_count.
Qed.

Lemma manualDestroyed_counts (row : TrackerRow.t) (day : number) :
  is_count (fst (manualDestroyed row day)) /\ is_count (snd (manualDestroyed row day)).
Proof.
  unfold manualDestroyed.
  destruct (Array_isArray (TrackerRow.destroyedByDay row)); simpl; split.
  - apply reduce_add_count, slice0_Forall, normalizeDestroyedByDay_counts.
  - apply reduce_add_count, normalizeDestroyedByDay_counts.
  - apply floor_count.
  - apply floor_count.
Qed.

Lemma remainingAfterDays_finite (start : R) (dailyPct day : JsVal) :
  exists x, remainingAfterDays (Fin start) dailyPct day = Fin x.
Proof.
  destruct (safeNum_finite dailyPct) as [r Hr].
  destruct (safeNum_finite day) as [d Hd].
  rewrite (remainingAfterDays_safe start dailyPct day r d Hr Hd). eauto.
Qed.

Lemma modeled_count (oh : Z) (dailyPct day : JsVal) :
  (0 <= oh)%Z ->
  is_count_upto oh
    (clamp (Math_round (n_sub (of_Z oh) (remainingAfterDays (of_Z oh) dailyPct day)))
           (Fin 0) (of_Z oh)).
Proof.
  intros Hoh. unfold of_Z at 2.
  destruct (remainingAfterDays_finite (IZR oh) dailyPct day) as [x ->].
  unfold of_Z at 1. rewrite n_sub_fin.
  change (Math_round (Fin (IZR oh - x))) with (of_Z (Zfloor (IZR oh - x + / 2))).
  rewrite Fin_0, clamp_Z. eexists; split; [| reflexivity]. lia.
Qed.

(** The integer content of a computed row: the on-hand count [oh], the
    manual losses through the day [m] and in total [t], the modeled loss [a],
    each of the last three within [0, oh], and then the reconciled loss and
    what remains. *)
Lemma computeRow_shape (day : number) (useAttrition manualWins : bool) (row : TrackerRow.t) :
  exists oh m t a : Z,
    (0 <= oh)%Z /\ (0 <= m <= oh)%Z /\ (0 <= t <= oh)%Z /\ (0 <= a <= oh)%Z /\
    (useAttrition = false -> a = 0%Z) /\
    let r := computeRow day useAttrition manualWins row in
    let d := if useAttrition then (if manualWins then Z.max m a else a) else m in
    ComputedRow.onHand r = of_Z oh /\
    ComputedRow.destroyedManualActive r = of_Z m /\
    ComputedRow.destroyedManual r = of_Z m /\
    ComputedRow.destroyedManualTotal r = of_Z t /\
    ComputedRow.destroyedAttrition r = of_Z a /\
    ComputedRow.destroyed r = of_Z d /\
    ComputedRow.remaining r = of_Z (oh - d).
Proof.
  unfold computeRow.
  destruct (floor_count (TrackerRow.onHand row)) as (oh & Hoh & ->).
  destruct (manualDestroyed_counts row day) as [(m0 & Hm0 & Em) (t0 & Ht0 & Et)].
  destruct (manualDestroyed row day) as [active total]. simpl in Em, Et. subst active total.
  rewrite !Fin_0, !clamp_Z.
  set (modeled :=
         if useAttrition
         then clamp (Math_round
                       (n_sub (of_Z oh)
                          (remainingAfterDays (of_Z oh) (TrackerRow.dailyAttritionPct row)
                             (JNum day))))
                    (of_Z 0) (of_Z oh)
         else of_Z 0).
  assert (Ha : exists a, (0 <= a <= oh)%Z /\ (useAttrition = false -> a = 0%Z) /\
                         modeled = of_Z a).
  { subst modeled. destruct useAttrition.
    - destruct (modeled_count oh (TrackerRow.dailyAttritionPct row) (JNum day) Hoh)
        as (a & Ha & Ea).
      exists a. rewrite Fin_0 in Ea. repeat split; [lia | lia | discriminate | exact Ea].
    - exists 0%Z. repeat split; [lia | lia]. }
  destruct Ha as (a & Ha & Ha0 & Ea). rewrite Ea.
  exists oh, (Z.max 0 (Z.min oh m0)), (Z.max 0 (Z.min oh t0)), a.
  repeat split; try lia; try exact Ha0; cbn [ComputedRow.onHand ComputedRow.destroyedManualActive
    ComputedRow.destroyedManual ComputedRow.destroyedManualTotal ComputedRow.destroyedAttrition
    ComputedRow.destroyed ComputedRow.remaining]; try reflexivity.
  - destruct useAttrition; [destruct manualWins |]; try reflexivity. apply Math_max_Z.
  - set (m := Z.max 0 (Z.min oh m0)).
    assert (Hm : (0 <= m <= oh)%Z) by (subst m; lia).
    destruct useAttrition; [destruct manualWins |];
      rewrite ?Math_max_Z, n_sub_Z, Math_max_Z; f_equal; lia.
Qed.

(** ** Canonical identifiers

    [normalizeBn] is idempotent, so the identifier a computed row carries is
    its own canonical form. *)

Lemma upper_char_space (c : ascii) : is_space (upper_char c) = is_space c.
Proof.
  destruct c as [b0 b1 b2 b3 b4 b5 b6 b7];
    destruct b0, b1, b2, b3, b4, b5, b6, b7; reflexivity.
Qed.

Lemma upper_char_idem (c : ascii) : upper_char (upper_char c) = upper_char c.
Proof.
  destruct c as [b0 b1 b2 b3 b4 b5 b6 b7];
    destruct b0, b1, b2, b3, b4, b5, b6, b7; reflexivity.
Qed.

Lemma toUpperCase_idem (s : string) : toUpperCase (toUpperCase s) = toUpperCase s.
Proof.
  induction s as [| c s IH]; simpl; [reflexivity |].
  now rewrite upper_char_idem, IH.
Qed.

Lemma toUpperCase_collapse (b : bool) (s : string) :
  toUpperCase (collapse_spaces b s) = collapse_spaces b (toUpperCase s).
Proof.
  revert b. induction s as [| c s IH]; intros b; cbn [collapse_spaces toUpperCase];
    [reflexivity |].
  rewrite upper_char_space. destruct (is_space c).
  - destruct b; cbn [toUpperCase]; now rewrite IH.
  - cbn [toUpperCase]. now rewrite IH.
Qed.

Lemma collapse_spaces_idem (b : bool) (s : string) :
  collapse_spaces b (collapse_spaces b s) = collapse_spaces b s.
Proof.
  revert b. induction s as [| c s IH]; intros b; cbn [collapse_spaces]; [reflexivity |].
  destruct (is_space c) eqn:E.
  - destruct b; [apply IH |].
    cbn [collapse_spaces]. change (is_space " "%char) with true. cbv iota.
    now rewrite IH.
  - cbn [collapse_spaces]. rewrite E. now rewrite IH.
Qed.

Lemma trimStart_no_lead (s : string) : no_lead (trimStart s).
Proof.
  induction s as [| c s IH]; simpl; [exact I |].
  destruct (is_space c) eqn:E; [exact IH | exact E].
Qed.

Lemma no_lead_trimStart (s : string) : no_lead s -> trimStart s = s.
Proof. destruct s as [| c s]; simpl; [reflexivity |]. now intros ->. Qed.

Lemma trimEnd_no_lead (s : string) : no_lead s -> no_lead (trimEnd s).
Proof.
  destruct s as [| c s]; simpl; [trivial |]. intros E. now rewrite E.
Qed.

Lemma toUpperCase_no_lead (s : string) : no_lead s -> no_lead (toUpperCase s).
Proof. destruct s as [| c s]; simpl; [trivial |]. now rewrite upper_char_space. Qed.

Lemma collapse_no_lead (s : string) : no_lead s -> no_lead (collapse_spaces false s).
Proof.
  destruct s as [| c s]; cbn [collapse_spaces no_lead]; [trivial |].
  intros E. rewrite E. exact E.
Qed.

Lemma trimEnd_idem (s : string) : trimEnd (trimEnd s) = trimEnd s.
Proof.
  induction s as [| c s IH]; cbn [trimEnd]; [reflexivity |].
  destruct (is_space c && String.eqb (trimEnd s) EmptyString)%bool eqn:E; [reflexivity |].
  cbn [trimEnd]. rewrite IH, E. reflexivity.
Qed.

Lemma toUpperCase_empty (s : string) :
  String.eqb (toUpperCase s) EmptyString = String.eqb s EmptyString.
Proof. destruct s; reflexivity. Qed.

Lemma trimEnd_toUpperCase (s : string) :
  trimEnd (toUpperCase s) = toUpperCase (trimEnd s).
Proof.
  induction s as [| c s IH]; cbn [trimEnd toUpperCase]; [reflexivity |].
  rewrite IH, upper_char_space, toUpperCase_empty.
  destruct (is_space c && String.eqb (trimEnd s) EmptyString)%bool; reflexivity.
Qed.

(** A string collapses to nothing only if it is all white space. *)
Lemma collapse_empty (b : bool) (s : string) :
  collapse_spaces b s = EmptyString -> trimEnd s = EmptyString.
Proof.
  revert b. induction s as [| c s IH]; intros b; cbn [collapse_spaces trimEnd];
    [reflexivity |].
  destruct (is_space c); [| discriminate].
  destruct b; [| discriminate].
  intros H. now rewrite (IH true H).
Qed.

Lemma trimEnd_collapse (b : bool) (s : string) :
  trimEnd s = s -> trimEnd (collapse_spaces b s) = collapse_spaces b s.
Proof.
  revert b. induction s as [| c s IH]; intros b; cbn [collapse_spaces trimEnd];
    [reflexivity |].
  destruct (is_space c) eqn:E; cbn [andb].
  - destruct (String.eqb_spec (trimEnd s) EmptyString) as [Z | NZ]; [discriminate |].
    intros [= Hs].
    destruct b; [now apply IH |].
    cbn [trimEnd]. rewrite (IH true Hs). change (is_space " "%char) with true.
    destruct (String.eqb_spec (collapse_spaces true s) EmptyString) as [C | _];
      [| reflexivity].
    exfalso. apply NZ. exact (collapse_empty true s C).
  - intros [= Hs]. cbn [trimEnd]. rewrite E, (IH false Hs). reflexivity.
Qed.

Lemma squeezed_idem (raw : string) : squeezed (squeezed raw) = squeezed raw.
Proof.
  unfold squeezed at 1.
  assert (Hl : no_lead (squeezed raw)).
  { unfold squeezed, trim.
    apply collapse_no_lead, toUpperCase_no_lead, trimEnd_no_lead, trimStart_no_lead. }
  assert (Ht : trimEnd (squeezed raw) = squeezed raw).
  { unfold squeezed, trim. apply trimEnd_collapse.
    rewrite trimEnd_toUpperCase. now rewrite trimEnd_idem. }
  unfold trim at 1. rewrite (no_lead_trimStart _ Hl), Ht.
  unfold squeezed. rewrite toUpperCase_collapse, toUpperCase_idem.
  apply collapse_spaces_idem.
Qed.

Lemma normalizeBn_idem (raw : string) : normalizeBn (normalizeBn raw) = normalizeBn raw.
Proof.
  assert (H : forall s, normalizeBn s =
                        if has OS_SS_ALIASES (squeezed s) then "OS/SS"%string else squeezed s)
    by reflexivity.
  rewrite (H raw). destruct (has OS_SS_ALIASES (squeezed raw)) eqn:E; [reflexivity |].
  now rewrite H, squeezed_idem, E.
Qed.

Lemma computeRow_canonical day useAttrition manualWins row :
  let r := computeRow day useAttrition manualWins row in
  normalizeBn (ComputedRow.bn r) = ComputedRow.bn r.
Proof.
  cbv zeta. unfold computeRow. destruct (manualDestroyed row day).
  cbn [ComputedRow.bn]. apply normalizeBn_idem.
Qed.

(** ** Rollups *)

Lemma sum_over_snoc f rows r :
  sum_over f (rows ++ [r]) = n_add (sum_over f rows) (f r).
Proof. unfold sum_over. now rewrite fold_left_app. Qed.

Lemma bnRows_snoc bn rows r :
  bnRows bn (rows ++ [r]) =
  if String.eqb (normalizeBn (ComputedRow.bn r)) bn then bnRows bn rows ++ [r]
  else bnRows bn rows.
Proof.
  unfold bnRows. rewrite filter_app. simpl.
  destruct (String.eqb (normalizeBn (ComputedRow.bn r)) bn); [reflexivity |].
  apply app_nil_r.
Qed.

Lemma bnRows_none bn rows :
  (forall r, In r rows -> normalizeBn (ComputedRow.bn r) <> bn) -> bnRows bn rows = [].
Proof.
  induction rows as [| r rows IH]; intros H; [reflexivity |].
  unfold bnRows in *. simpl.
  destruct (String.eqb_spec (normalizeBn (ComputedRow.bn r)) bn) as [E | _].
  - exfalso. apply (H r); [now left | exact E].
  - apply IH. intros r' Hr'. apply H. now right.
Qed.

Section MapFacts.
Context {K V : Type} (eqb : K -> K -> bool).
Hypothesis eqb_eq : forall a b, eqb a b = true <-> a = b.

Lemma map_get_In k (m : list (K * V)) v : map_get eqb k m = Some v -> In (k, v) m.
Proof.
  induction m as [| [k' v'] m IH]; simpl; [discriminate |].
  destruct (eqb k k') eqn:E.
  - apply eqb_eq in E. subst k'. intros [= ->]. now left.
  - intros H. right. now apply IH.
Qed.

Lemma map_get_None k (m : list (K * V)) :
  map_get eqb k m = None -> forall e, In e m -> fst e <> k.
Proof.
  induction m as [| [k' v'] m IH]; simpl; [intros _ e [] |].
  destruct (eqb k k') eqn:E; [discriminate |].
  intros H e [<- | He].
  - simpl. intros ->. assert (T : eqb k k = true) by now apply eqb_eq. congruence.
  - now apply IH.
Qed.

Lemma map_set_keys k v (m : list (K * V)) :
  map fst (map_set eqb k v m) =
  if existsb (eqb k) (map fst m) then map fst m else map fst m ++ [k].
Proof.
  induction m as [| [k0 v0] m IH]; simpl; [reflexivity |].
  destruct (eqb k k0) eqn:E; simpl.
  - apply eqb_eq in E. now subst k0.
  - rewrite IH. now destruct (existsb (eqb k) (map fst m)).
Qed.

Lemma map_set_NoDup k v (m : list (K * V)) :
  NoDup (map fst m) -> NoDup (map fst (map_set eqb k v m)).
Proof.
  intros H. rewrite map_set_keys.
  destruct (existsb (eqb k) (map fst m)) eqn:E; [exact H |].
  apply NoDup_app; [exact H | repeat constructor; intros [] |].
  intros x Hx [Ex | []]. subst x.
  assert (T : existsb (eqb k) (map fst m) = true).
  { apply existsb_exists. exists k. split; [exact Hx | now apply eqb_eq]. }
  congruence.
Qed.

(** After [map_set] every binding is the new one or an old one of another
    key. *)
Lemma map_set_Forall (P : K * V -> Prop) k v (m : list (K * V)) :
  NoDup (map fst m) ->
  P (k, v) ->
  (forall e, In e m -> fst e <> k -> P e) ->
  Forall P (map_set eqb k v m).
Proof.
  intros Hnd Hkv. induction m as [| [k0 v0] m IH]; intros H; simpl.
  - now constructor.
  - inversion Hnd as [| ? ? Hk0 Hm]; subst.
    destruct (eqb k k0) eqn:E.
    + apply eqb_eq in E. subst k0. constructor; [exact Hkv |].
      apply Forall_forall. intros e He. apply H; [now right |].
      intros <-. apply Hk0. now apply in_map.
    + constructor.
      * apply H; [now left |]. simpl. intros ->.
        assert (T : eqb k k = true) by now apply eqb_eq. congruence.
      * apply IH; [exact Hm |]. intros e He. apply H. now right.
Qed.
End MapFacts.

(** *** The BN rollup loop

    After the rows [done] the map holds one summary for each non-empty
    canonical identifier seen, under that identifier, with the sums of the
    rows of that identifier. *)

Lemma bn_entry_ok_other done r e :
  normalizeBn (ComputedRow.bn r) <> fst e ->
  bn_entry_ok done e -> bn_entry_ok (done ++ [r]) e.
Proof.
  intros Hne (Hb & Hk & H1 & H2 & H3). unfold bn_entry_ok.
  rewrite bnRows_snoc.
  destruct (String.eqb_spec (normalizeBn (ComputedRow.bn r)) (fst e)); [contradiction |].
  auto.
Qed.

Lemma bnRollupStep_inv m done r :
  bn_inv m done -> bn_inv (bnRollupStep m r) (done ++ [r]).
Proof.
  intros (Hnd & Hok & Hcov). unfold bnRollupStep.
  set (k := normalizeBn (ComputedRow.bn r)).
  destruct (String.eqb_spec k EmptyString) as [E | NE].
  - (* a row without identifier is skipped *)
    split; [exact Hnd |]. split.
    + eapply Forall_impl; [| exact Hok]. intros e He.
      apply bn_entry_ok_other; [| exact He].
      fold k. rewrite E. destruct He as (_ & Hk & _). congruence.
    + intros r' Hr' Hkey. apply in_app_or in Hr' as [Hr' | [<- | []]].
      * now apply Hcov.
      * contradiction.
  - set (existing := match map_get String.eqb k m with
                     | Some s => s
                     | None => BnSummary.mk k (Fin 0) (Fin 0) (Fin 0) (Fin 0) None
                     end).
    assert (Hex : bn_entry_ok done (k, existing)).
    { subst existing. destruct (map_get String.eqb k m) as [s |] eqn:G.
      - apply (map_get_In _ String.eqb_eq) in G.
        rewrite Forall_forall in Hok. exact (Hok _ G).
      - unfold bn_entry_ok. simpl. rewrite bnRows_none; [now repeat split |].
        intros r' Hr' Ekey.
        assert (Hin : In k (map fst m)).
        { rewrite <- Ekey. apply Hcov; [exact Hr' |]. now rewrite Ekey. }
        apply in_map_iff in Hin as (e & He & Hem).
        exact (map_get_None _ String.eqb_eq k m G e Hem He). }
    destruct Hex as (Hb & _ & H1 & H2 & H3). simpl in Hb, H1, H2, H3.
    split; [now apply (map_set_NoDup _ String.eqb_eq) |]. split.
    + apply (map_set_Forall _ String.eqb_eq); [exact Hnd | |].
      * unfold bn_entry_ok. simpl. rewrite bnRows_snoc. fold k.
        rewrite String.eqb_refl, !sum_over_snoc, H1, H2, H3. now repeat split.
      * intros e He Hne. apply bn_entry_ok_other.
        -- fold k. congruence.
        -- rewrite Forall_forall in Hok. now apply Hok.
    + intros r' Hr' Hkey. rewrite (map_set_keys _ String.eqb_eq).
      apply in_app_or in Hr' as [Hr' | [<- | []]].
      * specialize (Hcov r' Hr' Hkey).
        destruct (existsb (String.eqb k) (map fst m)); [exact Hcov |].
        apply in_or_app. now left.
      * fold k. destruct (existsb (String.eqb k) (map fst m)) eqn:Ex.
        -- apply existsb_exists in Ex as (x & Hx & Exk).
           apply String.eqb_eq in Exk. now subst x.
        -- apply in_or_app. right. now left.
Qed.

Lemma bnRollup_inv rows :
  forall m done, bn_inv m done -> bn_inv (fold_left bnRollupStep rows m) (done ++ rows).
Proof.
  induction rows as [| r rows IH]; intros m done H; simpl.
  - now rewrite app_nil_r.
  - replace (done ++ r :: rows) with ((done ++ [r]) ++ rows)
      by (rewrite <- app_assoc; reflexivity).
    apply IH. now apply bnRollupStep_inv.
Qed.

Lemma bnRollup_all rows : bn_inv (fold_left bnRollupStep rows []) rows.
Proof.
  apply (bnRollup_inv rows [] []).
  split; [constructor |]. split; [constructor |]. intros r [].
Qed.

(** *** The group rollup loop *)

Lemma groupRollup_from rows :
  forall a1 b1 c1 p1 d1 a2 b2 c2 p2 d2,
    fold_left groupRollupStep rows
      [ (BCG_165, GroupSummary.mk BCG_165 a1 b1 c1 p1 d1);
        (OTHER, GroupSummary.mk OTHER a2 b2 c2 p2 d2) ] =
    [ (BCG_165,
       GroupSummary.mk BCG_165
         (fold_left (fun s r => n_add s (ComputedRow.onHand r)) (groupRows BCG_165 rows) a1)
         (fold_left (fun s r => n_add s (ComputedRow.remaining r)) (groupRows BCG_165 rows) b1)
         (fold_left (fun s r => n_add s (ComputedRow.destroyed r)) (groupRows BCG_165 rows) c1)
         p1 d1);
      (OTHER,
       GroupSummary.mk OTHER
         (fold_left (fun s r => n_add s (ComputedRow.onHand r)) (groupRows OTHER rows) a2)
         (fold_left (fun s r => n_add s (ComputedRow.remaining r)) (groupRows OTHER rows) b2)
         (fold_left (fun s r => n_add s (ComputedRow.destroyed r)) (groupRows OTHER rows) c2)
         p2 d2) ].
Proof.
  induction rows as [| r rows IH]; intros; [reflexivity |].
  cbn [fold_left]. unfold groupRollupStep at 2. unfold groupRows. cbn [filter].
  destruct (groupForBn (ComputedRow.bn r)); cbn -[groupRollupStep groupForBn n_add];
    rewrite IH; reflexivity.
Qed.

Lemma groupRollup_all rows :
  map_values (fold_left groupRollupStep rows groupMap0) =
  [ GroupSummary.mk BCG_165
      (sum_over ComputedRow.onHand (groupRows BCG_165 rows))
      (sum_over ComputedRow.remaining (groupRows BCG_165 rows))
      (sum_over ComputedRow.destroyed (groupRows BCG_165 rows))
      (Fin 0) None;
    GroupSummary.mk OTHER
      (sum_over ComputedRow.onHand (groupRows OTHER rows))
      (sum_over ComputedRow.remaining (groupRows OTHER rows))
      (sum_over ComputedRow.destroyed (groupRows OTHER rows))
      (Fin 0) None ].
Proof. unfold groupMap0. rewrite groupRollup_from. reflexivity. Qed.

(** *** Sorting keeps the elements *)

Section SortFacts.
Variable localeCompare : string -> string -> number.
Context {A : Type} (key : A -> string).

Lemma sort_insert_In (x y : A) (sorted : list A) :
  In y (sort_insert localeCompare key x sorted) <-> y = x \/ In y sorted.
Proof.
  induction sorted as [| z rest IH]; cbn [sort_insert In].
  - split; intros [E | []]; left; congruence.
  - destruct (n_gt (localeCompare (key z) (key x)) (Fin 0)); cbn [In].
    + split; (intros [E | H]; [left; congruence | right; exact H]).
    + rewrite IH. split; intros [H | [H | H]]; auto.
Qed.

Lemma sort_from_In (y : A) (arr : list A) :
  forall sorted,
    In y (fold_left (fun sorted x => sort_insert localeCompare key x sorted) arr sorted)
    <-> In y sorted \/ In y arr.
Proof.
  induction arr as [| x arr IH]; intros sorted; simpl.
  - split; [now left | intros [H | []]; exact H].
  - rewrite IH, sort_insert_In.
    split; [intros [[E | H] | H] | intros [H | [E | H]]]; auto.
Qed.

Lemma sort_by_In (y : A) (arr : list A) :
  In y (sort_by localeCompare key arr) <-> In y arr.
Proof.
  unfold sort_by. rewrite sort_from_In. simpl.
  split; [intros [[] | H]; exact H | now right].
Qed.

Lemma sort_by_Forall (P : A -> Prop) (arr : list A) :
  Forall P arr -> Forall P (sort_by localeCompare key arr).
Proof.
  rewrite !Forall_forall. intros H y Hy. apply H. now apply sort_by_In.
Qed.

Lemma sort_insert_length (x : A) (sorted : list A) :
  List.length (sort_insert localeCompare key x sorted) = S (List.length sorted).
Proof.
  induction sorted as [| z rest IH]; cbn [sort_insert List.length]; [reflexivity |].
  destruct (n_gt (localeCompare (key z) (key x)) (Fin 0)); cbn [List.length];
    [reflexivity |].
  now rewrite IH.
Qed.

Lemma sort_by_length (arr : list A) :
  List.length (sort_by localeCompare key arr) = List.length arr.
Proof.
  unfold sort_by.
  assert (G : forall sorted,
             List.length
               (fold_left (fun sorted x => sort_insert localeCompare key x sorted) arr sorted)
             = (List.length sorted + List.length arr)%nat).
  { induction arr as [| x arr IH]; intros sorted; simpl; [lia |].
    rewrite IH, sort_insert_length. lia. }
  now rewrite G.
Qed.
End SortFacts.

(** ** The outputs of [computeRows] *)

Lemma computeRow_accounting day useAttrition manualWins row :
  row_accounting (computeRow day useAttrition manualWins row).
Proof.
  destruct (computeRow_shape day useAttrition manualWins row)
    as (oh & m & t & a & Hoh & Hm & Ht & Ha & _ & H).
  cbv zeta in H. destruct H as (Eo & _ & _ & _ & _ & Ed & Er).
  unfold row_accounting, accounting. rewrite Eo, Ed, Er.
  set (d := if useAttrition then (if manualWins then Z.max m a else a) else m).
  assert (Hd : (0 <= d <= oh)%Z).
  { subst d. destruct useAttrition; [destruct manualWins |]; lia. }
  exists oh, d, (oh - d)%Z. repeat split; lia.
Qed.

Lemma accounting_sum (rows : list ComputedRow.t) :
  Forall row_accounting rows ->
  accounting (sum_over ComputedRow.onHand rows) (sum_over ComputedRow.destroyed rows)
             (sum_over ComputedRow.remaining rows).
Proof.
  induction rows as [| r rows IH] using rev_ind; intros H.
  - exists 0%Z, 0%Z, 0%Z. repeat split; reflexivity || lia.
  - apply Forall_app in H as [Hrows Hr]. inversion Hr as [| ? ? Hacc _]; subst.
    destruct (IH Hrows) as (oh & de & re & Eo & Ed & Er & B & S).
    destruct Hacc as (oh' & de' & re' & Eo' & Ed' & Er' & B' & S').
    rewrite !sum_over_snoc, Eo, Ed, Er, Eo', Ed', Er', !n_add_Z.
    do 3 eexists. repeat split; try reflexivity; lia.
Qed.

Lemma filter_Forall {A : Type} (P : A -> Prop) (f : A -> bool) (l : list A) :
  Forall P l -> Forall P (filter f l).
Proof.
  rewrite !Forall_forall. intros H x Hx. apply H. now apply filter_In in Hx.
Qed.

Section Outputs.
Variable localeCompare : string -> string -> number.
Variables (rows : list TrackerRow.t) (opts : option Opts.t).

Local Abbreviation res := (computeRows localeCompare rows opts).
Local Abbreviation computed := (Result.computedRows res).

(** The day and the flags of [computeRows] are those of its options, the
    flags being on when they are not given. *)
Lemma computedRows_map :
  computed =
  map (computeRow (selectedDay opts) (opt_flag opts Opts.useAttrition)
                  (opt_flag opts Opts.manualWins)) rows.
Proof. reflexivity. Qed.

Lemma bnSummaries_unfold :
  Result.bnSummaries res =
  sort_by localeCompare BnSummary.bn
    (map (bnFinish computed) (map_values (fold_left bnRollupStep computed []))).
Proof. reflexivity. Qed.

Lemma groupSummaries_unfold :
  Result.groupSummaries res =
  sort_by localeCompare (fun g => GroupKey_name (GroupSummary.group g))
    (map (groupFinish computed) (map_values (fold_left groupRollupStep computed groupMap0))).
Proof. reflexivity. Qed.

Lemma computedRows_accounting : Forall row_accounting computed.
Proof.
  rewrite computedRows_map. apply Forall_map, Forall_forall.
  intros row _. apply computeRow_accounting.
Qed.

Lemma computedRows_canonical :
  Forall (fun r => normalizeBn (ComputedRow.bn r) = ComputedRow.bn r) computed.
Proof.
  rewrite computedRows_map. apply Forall_map, Forall_forall.
  intros row _. apply computeRow_canonical.
Qed.

Lemma bnSummaries_sums :
  Forall (fun s => BnSummary.bn s <> EmptyString /\ bn_summary_sums computed s)
         (Result.bnSummaries res).
Proof.
  rewrite bnSummaries_unfold.
  apply sort_by_Forall, Forall_map. unfold map_values. apply Forall_map.
  destruct (bnRollup_all computed) as (_ & Hok & _).
  eapply Forall_impl; [| exact Hok].
  intros [k s] (Hb & Hk & H1 & H2 & H3). simpl in Hb, Hk, H1, H2, H3. subst k.
  unfold bn_summary_sums.
  cbn [snd bnFinish BnSummary.bn BnSummary.onHand BnSummary.remaining BnSummary.destroyed].
  auto.
Qed.

Lemma bnSummaries_cover :
  Forall (fun r => normalizeBn (ComputedRow.bn r) = EmptyString \/
                   Exists (fun s => BnSummary.bn s = normalizeBn (ComputedRow.bn r))
                          (Result.bnSummaries res))
         computed.
Proof.
  apply Forall_forall. intros r Hr.
  destruct (string_dec (normalizeBn (ComputedRow.bn r)) EmptyString) as [E | NE];
    [now left | right].
  destruct (bnRollup_all computed) as (_ & Hok & Hcov).
  specialize (Hcov r Hr NE). apply in_map_iff in Hcov as ([k s] & Hk & Hin).
  simpl in Hk. subst k.
  rewrite Forall_forall in Hok. destruct (Hok _ Hin) as (Hb & _). simpl in Hb.
  apply Exists_exists. exists (bnFinish computed s). split; [| exact Hb].
  rewrite bnSummaries_unfold. apply sort_by_In.
  apply in_map. unfold map_values. apply in_map_iff.
  exists (normalizeBn (ComputedRow.bn r), s). split; [reflexivity | exact Hin].
Qed.

Lemma groupSummaries_sums :
  Forall (group_summary_sums computed) (Result.groupSummaries res).
Proof.
  rewrite groupSummaries_unfold. apply sort_by_Forall.
  rewrite groupRollup_all. repeat constructor.
Qed.

Lemma groupSummaries_two :
  List.length (Result.groupSummaries res) = 2%nat /\
  Exists (fun g => GroupSummary.group g = BCG_165) (Result.groupSummaries res) /\
  Exists (fun g => GroupSummary.group g = OTHER) (Result.groupSummaries res).
Proof.
  rewrite groupSummaries_unfold, groupRollup_all.
  split; [now rewrite sort_by_length |].
  split; apply Exists_exists; eexists; (split; [apply sort_by_In |]).
  - left. reflexivity.
  - reflexivity.
  - right. left. reflexivity.
  - reflexivity.
Qed.
End Outputs.

(** ** Rate inference *)

Lemma Rpower_unit_interval (x y : R) : 0 < x < 1 -> 0 < y -> 0 < Rpower x y < 1.
Proof.
  intros Hx Hy. unfold Rpower. split; [apply exp_pos |].
  rewrite <- exp_0. apply exp_increasing.
  assert (L : ln x < 0) by now apply ln_neg.
  nra.
Qed.

(** The root taken by the inference is undone by the power of the decay
    model. *)
Lemma root_power (x : R) (n : nat) :
  0 < x -> (0 < n)%nat -> Rpower x (1 / INR n) ^ n = x.
Proof.
  intros Hx Hn.
  assert (Hn' : 0 < INR n) by now apply lt_0_INR.
  rewrite <- Rpower_pow by apply exp_pos.
  rewrite Rpower_mult.
  replace (1 / INR n * INR n) with 1 by (field; lra).
  now apply Rpower_1.
Qed.

Lemma Ztrunc_Z (z : Z) : Ztrunc (IZR z) = z.
Proof.
  unfold Ztrunc. destruct (R_leb 0 (IZR z)).
  - apply ZfloorZ.
  - unfold Zceil. rewrite <- opp_IZR, ZfloorZ. lia.
Qed.

Lemma slice0_Z (l : list Z) (n : nat) :
  slice0 (map of_Z l) (of_Z (Z.of_nat n)) = map of_Z (firstn n l).
Proof.
  unfold slice0. change (of_Z (Z.of_nat n)) with (Fin (IZR (Z.of_nat n))).
  cbv iota zeta. rewrite Ztrunc_Z.
  destruct (Z.ltb_spec (Z.of_nat n) 0); [lia |].
  now rewrite Nat2Z.id, firstn_map.
Qed.

Lemma cumulative_nonneg l day : Forall (fun z => 0 <= z)%Z l -> (0 <= cumulative l day)%Z.
Proof.
  intros H. unfold cumulative. apply (fold_add_nonneg (firstn day l) 0).
  now apply firstn_Forall.
Qed.

Lemma page_normalize_Z (l : list Z) :
  List.length l = 5%nat -> Forall (fun z => 0 <= z)%Z l ->
  Page.normalizeDestroyedByDay (numbers l) = map of_Z l.
Proof.
  intros Hlen Hpos.
  do 5 (destruct l as [| ? l]; [discriminate |]). destruct l; [| discriminate].
  repeat match goal with H : Forall _ (_ :: _) |- _ => inversion H; clear H; subst end.
  unfold Page.normalizeDestroyedByDay, numbers.
  cbn [Array_isArray elements seq map index nth nullish Number].
  rewrite !Math_floor_Z, !Fin_0, !Math_max_Z.
  rewrite !Z.max_r by assumption. reflexivity.
Qed.

Lemma page_clampInt_day (day : nat) :
  (1 <= day <= 5)%nat ->
  Page.clampInt (JNum (of_Z (Z.of_nat day))) (Fin 1) (Fin 5) = of_Z (Z.of_nat day).
Proof.
  intros Hd. unfold Page.clampInt. cbn [Number].
  rewrite or_zero_Z, Math_floor_Z.
  change (Fin 1) with (of_Z 1). change (Fin 5) with (of_Z 5).
  rewrite Math_min_Z, Math_max_Z. f_equal. lia.
Qed.

Lemma floor_or_zero (x : R) : Math_floor (or_zero (Fin x)) = of_Z (Zfloor x).
Proof.
  unfold or_zero, R_eqb. destruct (Req_dec_T x 0) as [-> | _]; reflexivity.
Qed.

(** The inference on a finite on-hand count, five non-negative integer daily
    losses and a day from 1 to 5; [oh] is the floored on-hand count. *)
Lemma inferDailyAttritionPct_counts (onHand : R) (destroyedByDay : list Z) (day : nat) :
  List.length destroyedByDay = 5%nat ->
  Forall (fun z => 0 <= z)%Z destroyedByDay ->
  (1 <= day <= 5)%nat ->
  let oh := Z.max 0 (Zfloor onHand) in
  let cum := cumulative destroyedByDay day in
  Page.inferDailyAttritionPct (JNum (Fin onHand)) (numbers destroyedByDay)
    (JNum (of_Z (Z.of_nat day))) =
  if (oh <=? 0)%Z then Fin 0
  else if (oh <=? cum)%Z then Fin 100
  else if (cum <=? 0)%Z then Fin 0
  else Fin ((1 - Rpower (IZR (oh - cum) / IZR oh) (1 / INR day)) * 100).
Proof.
  intros Hlen Hpos Hday oh cum.
  assert (Hcum : (0 <= cum)%Z) by now apply cumulative_nonneg.
  unfold Page.inferDailyAttritionPct.
  rewrite page_clampInt_day by exact Hday.
  rewrite page_normalize_Z by assumption.
  cbn [Number]. rewrite floor_or_zero, !Fin_0, Math_max_Z. fold oh.
  rewrite n_le_Z.
  destruct (Z.leb_spec oh 0) as [L0 | L0]; [reflexivity |].
  rewrite slice0_Z, reduce_add_Z. fold (cumulative destroyedByDay day). fold cum.
  rewrite n_sub_Z, Math_max_Z.
  assert (Hoh' : 0 < IZR oh) by now apply IZR_lt.
  unfold of_Z. rewrite !(n_div_fin _ (IZR oh)) by lra.
  unfold n_ge, n_le.
  destruct (Z.leb_spec oh cum) as [L1 | L1].
  { rewrite Z.max_l by lia. rewrite R_leb_true; [reflexivity |].
    unfold Rdiv. rewrite Rmult_0_l. lra. }
  rewrite Z.max_r by lia.
  assert (Hrem : 0 < IZR (oh - cum)) by (apply IZR_lt; lia).
  assert (Hfrac : 0 < IZR (oh - cum) / IZR oh) by now apply Rdiv_pos_pos.
  rewrite R_leb_false by exact Hfrac.
  destruct (Z.leb_spec cum 0) as [L2 | L2].
  { replace cum with 0%Z by lia. rewrite Z.sub_0_r.
    rewrite R_leb_true; [reflexivity |].
    unfold Rdiv. rewrite Rinv_r by lra. lra. }
  assert (Hlt : IZR (oh - cum) / IZR oh < 1).
  { apply Rmult_lt_reg_r with (IZR oh); [exact Hoh' |].
    unfold Rdiv. rewrite Rmult_assoc, Rinv_l by lra.
    rewrite Rmult_1_r, Rmult_1_l. apply IZR_lt. lia. }
  rewrite R_leb_false by exact Hlt.
  assert (Hd : 0 < INR day) by (apply lt_0_INR; lia).
  rewrite <- INR_IZR_INZ. rewrite n_div_fin by lra.
  unfold Math_pow.
  rewrite R_eqb_false.
  2:{ unfold Rdiv. rewrite Rmult_1_l. apply Rinv_neq_0_compat. lra. }
  rewrite R_ltb_true by exact Hfrac.
  assert (Hy : 0 < 1 / INR day).
  { unfold Rdiv. rewrite Rmult_1_l. now apply Rinv_0_lt_compat. }
  destruct (Rpower_unit_interval _ _ (conj Hfrac Hlt) Hy) as [P0 P1].
  rewrite n_sub_fin. cbn [n_mul]. rewrite Math_min_fin, Math_max_fin.
  f_equal. rewrite Rmin_right by lra. rewrite Rmax_right by lra. reflexivity.
Qed.

(** ** Round trip of the inference through the decay model *)

Lemma Math_round_eq (x : R) (z : Z) : x = IZR z -> Math_round (Fin x) = of_Z z.
Proof. intros ->. apply (Math_round_Z z). Qed.

Lemma round_between (x : R) (lo hi : Z) :
  IZR lo <= x + / 2 -> x + / 2 < IZR hi + 1 -> (lo <= Zfloor (x + / 2) <= hi)%Z.
Proof.
  intros Hlo Hhi. split; [now apply Zfloor_lub |].
  assert (B := Zfloor_bound (x + / 2)).
  apply Z.lt_succ_r, lt_IZR. rewrite succ_IZR. lra.
Qed.

(** What the decay model gives back on the inferred rate: the share
    [(oh - cum) / oh] of the on-hand count, and nothing once the cumulative
    loss reaches the floored count [oh]. *)
Lemma remaining_of_inferred (onHand : R) (destroyedByDay : list Z) (day : nat) :
  List.length destroyedByDay = 5%nat ->
  Forall (fun z => 0 <= z)%Z destroyedByDay ->
  (1 <= day <= 5)%nat ->
  let oh := Z.max 0 (Zfloor onHand) in
  let cum := cumulative destroyedByDay day in
  remainingAfterDays (Fin onHand)
    (JNum (Page.inferDailyAttritionPct (JNum (Fin onHand)) (numbers destroyedByDay)
             (JNum (of_Z (Z.of_nat day)))))
    (JNum (of_Z (Z.of_nat day))) =
  Fin (if Rle_dec onHand 0 then 0
       else if (oh <=? 0)%Z then onHand
       else if (oh <=? cum)%Z then 0
       else if (cum <=? 0)%Z then onHand
       else onHand * (IZR (oh - cum) / IZR oh)).
Proof.
  intros Hlen Hpos Hday oh cum.
  assert (Hcum : (0 <= cum)%Z) by now apply cumulative_nonneg.
  rewrite inferDailyAttritionPct_counts by assumption. cbv zeta. fold oh. fold cum.
  destruct (Z.leb_spec oh 0) as [L0 | L0];
    [| destruct (Z.leb_spec oh cum) as [L1 | L1];
       [| destruct (Z.leb_spec cum 0) as [L2 | L2]]];
    unfold of_Z; rewrite remainingAfterDays_fin; f_equal;
    (destruct (Rle_dec onHand 0) as [N | P]; [reflexivity |]).
  - destruct (Rle_dec (0 / 100) 0); [reflexivity | lra].
  - destruct (Rle_dec (100 / 100) 0); [lra |].
    destruct (Rle_dec 1 (100 / 100)); [reflexivity | lra].
  - destruct (Rle_dec (0 / 100) 0); [reflexivity | lra].
  - assert (Hoh' : 0 < IZR oh) by now apply IZR_lt.
    assert (Hrem : 0 < IZR (oh - cum)) by (apply IZR_lt; lia).
    assert (Hfrac : 0 < IZR (oh - cum) / IZR oh) by now apply Rdiv_pos_pos.
    assert (Hlt : IZR (oh - cum) / IZR oh < 1).
    { apply Rmult_lt_reg_r with (IZR oh); [exact Hoh' |].
      unfold Rdiv. rewrite Rmult_assoc, Rinv_l by lra.
      rewrite Rmult_1_r, Rmult_1_l. apply IZR_lt. lia. }
    assert (Hy : 0 < 1 / INR day).
    { unfold Rdiv. rewrite Rmult_1_l. apply Rinv_0_lt_compat, lt_0_INR. lia. }
    set (root := Rpower (IZR (oh - cum) / IZR oh) (1 / INR day)).
    destruct (Rpower_unit_interval _ _ (conj Hfrac Hlt) Hy) as [P0 P1]. fold root in P0, P1.
    rewrite ZfloorZ, Nat2Z.id.
    destruct (Rle_dec ((1 - root) * 100 / 100) 0); [lra |].
    destruct (Rle_dec 1 ((1 - root) * 100 / 100)); [lra |].
    replace (1 - (1 - root) * 100 / 100) with root by lra.
    subst root. rewrite root_power by (exact Hfrac || lia). reflexivity.
Qed.

(** C1, as amended.  For every finite on-hand count of at most 10^9, five
    integer daily losses between 0 and 10^9 and a day from 1 to 5, the
    rounded difference [k] between the on-hand count and what the decay model
    leaves at the inferred rate is within 1 of the cumulative destroyed count
    through the day capped at the on-hand count; when the on-hand count is an
    integer the two are equal.  The bound 10^9 keeps the counts where the
    doubles of the sources, which the model replaces by exact numbers, still
    resolve a loss of one: near 2^53 the root of the inferred rate rounds to 1
    and the sources return rate 0. *)
Theorem roundtrip_capped (onHand : R) (destroyedByDay : list Z) (day : nat) :
  onHand <= 1000000000 ->
  List.length destroyedByDay = 5%nat ->
  Forall (fun z => 0 <= z <= 1000000000)%Z destroyedByDay ->
  (1 <= day <= 5)%nat ->
  let d := JNum (of_Z (Z.of_nat day)) in
  let r := Page.inferDailyAttritionPct (JNum (Fin onHand)) (numbers destroyedByDay) d in
  let cum := cumulative destroyedByDay day in
  exists k : Z,
    Math_round (n_sub (Fin onHand) (remainingAfterDays (Fin onHand) (JNum r) d)) = of_Z k /\
    Rabs (IZR k - Rmin (IZR cum) onHand) <= 1 /\
    (forall z : Z, onHand = IZR z -> k = Z.min cum z).
Proof.
  intros _ Hlen Hbounded Hday d r cum. subst d r.
  assert (Hpos : Forall (fun z => 0 <= z)%Z destroyedByDay).
  { eapply Forall_impl; [| exact Hbounded]. cbv beta. intros; lia. }
  assert (Hcum : (0 <= cum)%Z) by now apply cumulative_nonneg.
  assert (Hcum' : 0 <= IZR cum) by now apply IZR_le.
  rewrite remaining_of_inferred by assumption. cbv zeta. fold cum.
  set (oh := Z.max 0 (Zfloor onHand)).
  assert (Hfl := Zfloor_bound onHand).
  rewrite n_sub_fin.
  match goal with
  | |- context [Math_round (Fin ?x)] =>
      set (diff := x); exists (Zfloor (diff + / 2));
      split; [reflexivity |]
  end.
  assert (B := Zfloor_bound (diff + / 2)).
  destruct (Rle_dec onHand 0) as [N | P].
  { (* nothing on hand: the difference is the on-hand count itself *)
    subst diff. rewrite Rminus_0_r in *. rewrite Rmin_right by lra. split.
    - apply Rabs_le. lra.
    - intros z ->. rewrite Zfloor_round. apply le_IZR in N. lia. }
  apply Rnot_le_lt in P.
  assert (Hoh : (0 <= oh)%Z) by (subst oh; lia).
  assert (Hohle : IZR oh <= onHand).
  { subst oh. rewrite <- Rmax_IZR. apply Rmax_lub; lra. }
  assert (Hohlt : onHand < IZR oh + 1).
  { subst oh. rewrite <- Rmax_IZR. unfold Rmax.
    destruct (Rle_dec 0 (IZR (Zfloor onHand))); lra. }
  destruct (Z.leb_spec oh 0) as [L0 | L0].
  { (* less than one on hand: the inferred rate is 0 *)
    assert (oh = 0%Z) by lia. replace (IZR oh) with 0 in * by (subst oh; now rewrite H).
    subst diff. rewrite Rminus_diag in *.
    replace (Zfloor (0 + / 2)) with 0%Z by (symmetry; apply Zfloor_eq; lra). split.
    - apply Rabs_le. unfold Rmin. destruct (Rle_dec (IZR cum) onHand); lra.
    - intros z E. rewrite E in P, Hohlt. apply lt_IZR in P.
      replace (0 + 1) with (IZR 1) in Hohlt by lra. apply lt_IZR in Hohlt. lia. }
  assert (Hoh1 : 1 <= IZR oh) by (apply IZR_le; lia).
  destruct (Z.leb_spec oh cum) as [L1 | L1].
  { (* the loss reaches the count: rate 100, nothing remains *)
    subst diff. rewrite Rminus_0_r in *.
    assert (Hc : IZR oh <= IZR cum) by now apply IZR_le.
    destruct (round_between onHand oh (oh + 1)) as [K1 K2];
      [lra | rewrite plus_IZR; lra |].
    split.
    - apply Rabs_le. unfold Rmin. destruct (Rle_dec (IZR cum) onHand) as [C | C].
      + assert (cum = oh).
        { apply Z.le_antisymm; [| exact L1].
          apply Z.lt_succ_r, lt_IZR. rewrite succ_IZR. lra. }
        subst cum. apply IZR_le in K1, K2. rewrite plus_IZR in K2. lra.
      + lra.
    - intros z E. rewrite E in *. rewrite Zfloor_round.
      assert (z = oh).
      { apply le_IZR in Hohle. replace (IZR oh + 1) with (IZR (oh + 1)) in Hohlt
          by (rewrite plus_IZR; reflexivity).
        apply lt_IZR in Hohlt. lia. }
      lia. }
  destruct (Z.leb_spec cum 0) as [L2 | L2].
  { (* no loss: rate 0, everything remains *)
    assert (cum = 0%Z) by lia. subst diff. rewrite Rminus_diag in *.
    replace (Zfloor (0 + / 2)) with 0%Z by (symmetry; apply Zfloor_eq; lra).
    replace (IZR cum) with 0 by (now rewrite H). split.
    - apply Rabs_le. rewrite Rmin_left by lra. lra.
    - intros z E. rewrite E in P. apply lt_IZR in P. lia. }
  (* the loss is a proper part of the count *)
  assert (Hc0 : 0 < IZR cum) by now apply IZR_lt.
  assert (Hc1 : IZR cum < IZR oh) by now apply IZR_lt.
  assert (Ediff : diff = IZR cum + (onHand - IZR oh) * (IZR cum / IZR oh)).
  { subst diff. rewrite minus_IZR. field. lra. }
  assert (Hq : 0 < IZR cum / IZR oh < 1).
  { split; [apply Rdiv_pos_pos; lra |].
    apply Rmult_lt_reg_r with (IZR oh); [lra |].
    unfold Rdiv. rewrite Rmult_assoc, Rinv_l by lra. lra. }
  assert (Hd : IZR cum <= diff < IZR cum + 1) by (rewrite Ediff; nra).
  destruct (round_between diff cum (cum + 1)) as [K1 K2];
    [lra | rewrite plus_IZR; lra |].
  split.
  - apply Rabs_le. rewrite Rmin_left by lra.
    apply IZR_le in K1, K2. rewrite plus_IZR in K2. lra.
  - intros z E.
    assert (z = oh).
    { rewrite E in Hohle, Hohlt. apply le_IZR in Hohle.
      replace (IZR oh + 1) with (IZR (oh + 1)) in Hohlt by (rewrite plus_IZR; reflexivity).
      apply lt_IZR in Hohlt. lia. }
    assert (Ed : diff = IZR cum).
    { rewrite Ediff, E, H. lra. }
    rewrite Ed, Zfloor_round. lia.
Qed.

Lemma roundtrip_capped_witness :
  exists k : Z,
    Math_round
      (n_sub (Fin 44)
         (remainingAfterDays (Fin 44)
            (JNum (Page.inferDailyAttritionPct (JNum (Fin 44)) (numbers [0; 1; 0; 0; 0]%Z)
                     (JNum (of_Z (Z.of_nat 2)))))
            (JNum (of_Z (Z.of_nat 2))))) = of_Z k /\
    k = 1%Z.
Proof.
  destruct (roundtrip_capped 44 [0; 1; 0; 0; 0]%Z 2) as (k & Hk & _ & Hz).
  - lra.
  - reflexivity.
  - repeat constructor; lia.
  - lia.
  - exists k. split; [exact Hk |]. exact (Hz 44%Z eq_refl).
Defined.

(** C1 fails as stated when more is destroyed than is on hand: with 5 on hand
    and 10 destroyed on day 1 the inferred rate is 100, the decay model leaves
    0, and the round trip gives 5, which is 5 away from the cumulative 10. *)
Lemma roundtrip_counterexample :
  Page.inferDailyAttritionPct (JNum (Fin 5)) (numbers [10; 0; 0; 0; 0]%Z) (JNum (Fin 1))
  = Fin 100 /\
  Math_round (n_sub (Fin 5) (remainingAfterDays (Fin 5) (JNum (Fin 100)) (JNum (Fin 1))))
  = Fin 5 /\
  cumulative [10; 0; 0; 0; 0]%Z 1 = 10%Z /\
  1 < Rabs (5 - IZR (cumulative [10; 0; 0; 0; 0]%Z 1)).
Proof.
  refine (conj _ (conj _ (conj _ _))).
  - change (Fin 1) with (of_Z (Z.of_nat 1)).
    rewrite inferDailyAttritionPct_counts; [| reflexivity | repeat constructor; lia | lia].
    rewrite (ZfloorZ 5). reflexivity.
  - rewrite remainingAfterDays_fin.
    destruct (Rle_dec 5 0); [lra |].
    destruct (Rle_dec (100 / 100) 0); [lra |].
    destruct (Rle_dec 1 (100 / 100)); [| lra].
    rewrite n_sub_fin. apply Math_round_eq. lra.
  - reflexivity.
  - change (cumulative [10; 0; 0; 0; 0]%Z 1) with 10%Z.
    rewrite Rabs_left by lra. lra.
Qed.

(** ** The worked example of the inference *)

Lemma infer_44_day1_loss_on_day1 :
  Page.inferDailyAttritionPct (JNum (Fin 44)) (numbers [1; 0; 0; 0; 0]%Z) (JNum (Fin 1))
  = Fin (100 / 44).
Proof.
  change (Fin 1) with (of_Z (Z.of_nat 1)).
  rewrite inferDailyAttritionPct_counts; [| reflexivity | repeat constructor; lia | lia].
  rewrite (ZfloorZ 44).
  change (cumulative [1; 0; 0; 0; 0]%Z 1) with 1%Z. cbv zeta.
  change (Z.max 0 44) with 44%Z.
  change (44 <=? 0)%Z with false. change (44 <=? 1)%Z with false.
  change (1 <=? 0)%Z with false. cbv iota.
  change (44 - 1)%Z with 43%Z. change (INR 1) with 1.
  replace (1 / 1) with 1 by lra.
  rewrite Rpower_1 by lra. f_equal. lra.
Qed.

Lemma infer_44_day1_loss_on_day2 :
  Page.inferDailyAttritionPct (JNum (Fin 44)) (numbers [0; 1; 0; 0; 0]%Z) (JNum (Fin 1))
  = Fin 0.
Proof.
  change (Fin 1) with (of_Z (Z.of_nat 1)).
  rewrite inferDailyAttritionPct_counts; [| reflexivity | repeat constructor; lia | lia].
  rewrite (ZfloorZ 44). reflexivity.
Qed.

Lemma remaining_44_at (rate : R) :
  0 <= rate < 100 ->
  remainingAfterDays (Fin 44) (JNum (Fin rate)) (JNum (Fin 1)) = Fin (44 * (1 - rate / 100)).
Proof.
  intros Hr. rewrite remainingAfterDays_fin. f_equal.
  destruct (Rle_dec 44 0); [lra |].
  destruct (Rle_dec (rate / 100) 0); [lra |].
  destruct (Rle_dec 1 (rate / 100)); [lra |].
  rewrite (ZfloorZ 1). simpl. lra.
Qed.

(** C5 fails as stated: the array [0,1,0,0,0] records its loss on day 2, so
    through day 1 nothing is destroyed; the inferred rate is 0 and the decay
    model leaves all 44. *)
Lemma worked_example_counterexample :
  Page.inferDailyAttritionPct (JNum (Fin 44)) (numbers [0; 1; 0; 0; 0]%Z) (JNum (Fin 1))
  = Fin 0 /\
  remainingAfterDays (Fin 44) (JNum (Fin 0)) (JNum (Fin 1)) = Fin 44 /\
  2 < Rabs (0 - 2.2727) /\
  44 <> 43.
Proof.
  refine (conj infer_44_day1_loss_on_day2 (conj _ (conj _ _))).
  - rewrite remaining_44_at by lra. f_equal. lra.
  - rewrite Rabs_left by lra. lra.
  - lra.
Qed.

(** C5, as amended.  With 44 on hand and day 1 selected: for the losses
    [0,1,0,0,0] the inferred rate is 0 and the decay model leaves 44; the
    rate 100/44 = 2.2727...% and the remaining count 43 are those of the
    losses [1,0,0,0,0], whose loss falls on day 1. *)
Theorem worked_example :
  Page.inferDailyAttritionPct (JNum (Fin 44)) (numbers [0; 1; 0; 0; 0]%Z) (JNum (Fin 1))
  = Fin 0 /\
  remainingAfterDays (Fin 44) (JNum (Fin 0)) (JNum (Fin 1)) = Fin 44 /\
  Page.inferDailyAttritionPct (JNum (Fin 44)) (numbers [1; 0; 0; 0; 0]%Z) (JNum (Fin 1))
  = Fin (100 / 44) /\
  2.2727 < 100 / 44 < 2.2728 /\
  remainingAfterDays (Fin 44) (JNum (Fin (100 / 44))) (JNum (Fin 1)) = Fin 43.
Proof.
  refine (conj infer_44_day1_loss_on_day2
            (conj _ (conj infer_44_day1_loss_on_day1 (conj _ _)))).
  - rewrite remaining_44_at by lra. f_equal. lra.
  - lra.
  - rewrite remaining_44_at by lra. f_equal. lra.
Qed.

(** ** The input rows behind the computed rows *)

Lemma computeRow_onHand (day : number) (useAttrition manualWins : bool)
    (row : TrackerRow.t) :
  ComputedRow.onHand (computeRow day useAttrition manualWins row) =
  Math_max (Fin 0) (Math_floor (safeNum (TrackerRow.onHand row))) /\
  ComputedRow.onHand (computeRow day useAttrition manualWins row) = of_Z (onHandCount row).
Proof.
  unfold computeRow, onHandCount. destruct (manualDestroyed row day).
  cbn [ComputedRow.onHand]. split; [reflexivity |].
  destruct (safeNum_finite (TrackerRow.onHand row)) as [x ->].
  change (Math_floor (Fin x)) with (of_Z (Zfloor x)).
  now rewrite Fin_0, Math_max_Z.
Qed.

Lemma computeRow_bn (day : number) (useAttrition manualWins : bool) (row : TrackerRow.t) :
  ComputedRow.bn (computeRow day useAttrition manualWins row) =
  normalizeBn (TrackerRow.bn row).
Proof. unfold computeRow. destruct (manualDestroyed row day). reflexivity. Qed.

Lemma onHandCount_nonneg (row : TrackerRow.t) : (0 <= onHandCount row)%Z.
Proof. unfold onHandCount. lia. Qed.

Lemma totalOnHand_snoc (rows : list TrackerRow.t) (row : TrackerRow.t) :
  totalOnHand (rows ++ [row]) = (totalOnHand rows + onHandCount row)%Z.
Proof. unfold totalOnHand. now rewrite fold_left_app. Qed.

Lemma totalOnHand_nonneg (rows : list TrackerRow.t) : (0 <= totalOnHand rows)%Z.
Proof.
  induction rows as [| row rows IH] using rev_ind; [reflexivity |].
  rewrite totalOnHand_snoc. pose proof (onHandCount_nonneg row). lia.
Qed.

Lemma totalOnHand_In (rows : list TrackerRow.t) (row : TrackerRow.t) :
  In row rows -> (onHandCount row <= totalOnHand rows)%Z.
Proof.
  induction rows as [| row' rows IH] using rev_ind; [intros [] |].
  rewrite totalOnHand_snoc. intros H. apply in_app_or in H as [H | [-> | []]].
  - specialize (IH H). pose proof (onHandCount_nonneg row'). lia.
  - pose proof (totalOnHand_nonneg rows). lia.
Qed.

(** The on-hand total of any selection of the computed rows is a count of at
    most the total on hand of the input rows. *)
Lemma selected_onHand (f : ComputedRow.t -> bool) (day : number)
    (useAttrition manualWins : bool) (rows : list TrackerRow.t) :
  is_count_upto (totalOnHand rows)
    (sum_over ComputedRow.onHand
       (filter f (map (computeRow day useAttrition manualWins) rows))).
Proof.
  induction rows as [| row rows IH] using rev_ind.
  - exists 0%Z. split; [cbn; lia | reflexivity].
  - destruct IH as (n & Hn & En).
    rewrite map_app, filter_app, totalOnHand_snoc. cbn [map filter].
    pose proof (onHandCount_nonneg row) as Hrow.
    destruct (f (computeRow day useAttrition manualWins row)).
    + rewrite sum_over_snoc, En.
      destruct (computeRow_onHand day useAttrition manualWins row) as [_ ->].
      rewrite n_add_Z. eexists. split; [| reflexivity]. lia.
    + rewrite app_nil_r, En. exists n. split; [lia | reflexivity].
Qed.

Lemma is_count_upto_le (lo hi : Z) (v : number) :
  (lo <= hi)%Z -> is_count_upto lo v -> is_count_upto hi v.
Proof. intros H (n & Hn & ->). exists n. split; [lia | reflexivity]. Qed.

(** ** Claims on [computeRows] *)

(** C2. Accounting invariant: while the total on hand of the input rows is
    at most [Number.MAX_SAFE_INTEGER] (the range in which the numbers of the
    sources are exact integers), in every computed row, every unit summary
    and every group summary that [computeRows] returns, the on-hand,
    destroyed and remaining counts are integers with
    [0 <= remaining <= onHand] and [destroyed + remaining = onHand], and the
    on-hand count is itself at most [Number.MAX_SAFE_INTEGER]. *)
Theorem accounting_invariant
    (localeCompare : string -> string -> number)
    (rows : list TrackerRow.t) (opts : option Opts.t) :
  safe_counts rows ->
  let res := computeRows localeCompare rows opts in
  Forall (fun r => accounting (ComputedRow.onHand r) (ComputedRow.destroyed r)
                              (ComputedRow.remaining r) /\
                   is_count_upto 9007199254740991 (ComputedRow.onHand r))
         (Result.computedRows res) /\
  Forall (fun s => accounting (BnSummary.onHand s) (BnSummary.destroyed s)
                              (BnSummary.remaining s) /\
                   is_count_upto 9007199254740991 (BnSummary.onHand s))
         (Result.bnSummaries res) /\
  Forall (fun g => accounting (GroupSummary.onHand g) (GroupSummary.destroyed g)
                              (GroupSummary.remaining g) /\
                   is_count_upto 9007199254740991 (GroupSummary.onHand g))
         (Result.groupSummaries res).
Proof.
  intros Hsafe res.
  assert (Hrows := computedRows_accounting localeCompare rows opts).
  refine (conj _ (conj _ _)).
  - unfold res. rewrite computedRows_map. apply Forall_map, Forall_forall.
    intros row Hin. split; [apply computeRow_accounting |].
    destruct (computeRow_onHand (selectedDay opts) (opt_flag opts Opts.useAttrition)
                (opt_flag opts Opts.manualWins) row) as [_ ->].
    exists (onHandCount row). split; [| reflexivity].
    pose proof (onHandCount_nonneg row). pose proof (totalOnHand_In rows row Hin).
    unfold safe_counts in Hsafe. lia.
  - eapply Forall_impl; [| apply bnSummaries_sums].
    intros s (_ & H1 & H2 & H3). cbv beta. rewrite H1, H2, H3. split.
    + apply accounting_sum. now apply filter_Forall.
    + apply (is_count_upto_le (totalOnHand rows)); [exact Hsafe |].
      unfold bnRows. rewrite computedRows_map. apply selected_onHand.
  - eapply Forall_impl; [| apply groupSummaries_sums].
    intros g (H1 & H2 & H3). cbv beta. rewrite H1, H2, H3. split.
    + apply accounting_sum. now apply filter_Forall.
    + apply (is_count_upto_le (totalOnHand rows)); [exact Hsafe |].
      unfold groupRows. rewrite computedRows_map. apply selected_onHand.
Qed.

Lemma accounting_invariant_witness :
  Forall (fun r => accounting (ComputedRow.onHand r) (ComputedRow.destroyed r)
                              (ComputedRow.remaining r) /\
                   is_count_upto 9007199254740991 (ComputedRow.onHand r))
         (Result.computedRows
            (computeRows (fun _ _ => Fin 0) [example4_row; legacy_row_over] None)) /\
  Forall (fun s => accounting (BnSummary.onHand s) (BnSummary.destroyed s)
                              (BnSummary.remaining s) /\
                   is_count_upto 9007199254740991 (BnSummary.onHand s))
         (Result.bnSummaries
            (computeRows (fun _ _ => Fin 0) [example4_row; legacy_row_over] None)) /\
  Forall (fun g => accounting (GroupSummary.onHand g) (GroupSummary.destroyed g)
                              (GroupSummary.remaining g) /\
                   is_count_upto 9007199254740991 (GroupSummary.onHand g))
         (Result.groupSummaries
            (computeRows (fun _ _ => Fin 0) [example4_row; legacy_row_over] None)).
Proof.
  apply (accounting_invariant (fun _ _ => Fin 0) [example4_row; legacy_row_over] None).
  unfold safe_counts, totalOnHand, onHandCount. cbn [fold_left example4_row legacy_row_over
    TrackerRow.onHand]. rewrite !safeNum_number, (ZfloorZ 100), (ZfloorZ 5). lia.
Defined.

(** C4. Summary sums equal member sums, while the total on hand of the input
    rows is at most [Number.MAX_SAFE_INTEGER] (so that no sum the sources
    form in doubles is rounded): the computed rows are the input rows, each
    passed through the row computation for the returned day, and carry
    canonical identifiers; every unit summary holds, for each of on-hand,
    remaining and destroyed, the sum over exactly the computed rows whose
    canonical identifier is the summary's, and every input row with a
    non-empty canonical identifier has the summary of that identifier; each
    of the two group summaries holds the sums over exactly the computed rows
    of its group. *)
Theorem summaries_are_member_sums
    (localeCompare : string -> string -> number)
    (rows : list TrackerRow.t) (opts : option Opts.t) :
  safe_counts rows ->
  let res := computeRows localeCompare rows opts in
  let computed := Result.computedRows res in
  computed =
    map (computeRow (Result.day res) (opt_flag opts Opts.useAttrition)
           (opt_flag opts Opts.manualWins)) rows /\
  Forall (fun r => normalizeBn (ComputedRow.bn r) = ComputedRow.bn r) computed /\
  Forall (fun s =>
            BnSummary.onHand s =
              sum_over ComputedRow.onHand (bnRows (BnSummary.bn s) computed) /\
            BnSummary.remaining s =
              sum_over ComputedRow.remaining (bnRows (BnSummary.bn s) computed) /\
            BnSummary.destroyed s =
              sum_over ComputedRow.destroyed (bnRows (BnSummary.bn s) computed))
         (Result.bnSummaries res) /\
  Forall (fun row =>
            normalizeBn (TrackerRow.bn row) = EmptyString \/
            Exists (fun s => BnSummary.bn s = normalizeBn (TrackerRow.bn row))
                   (Result.bnSummaries res))
         rows /\
  Forall (fun r =>
            normalizeBn (ComputedRow.bn r) = EmptyString \/
            Exists (fun s => BnSummary.bn s = normalizeBn (ComputedRow.bn r))
                   (Result.bnSummaries res))
         computed /\
  Forall (fun g =>
            GroupSummary.onHand g =
              sum_over ComputedRow.onHand (groupRows (GroupSummary.group g) computed) /\
            GroupSummary.remaining g =
              sum_over ComputedRow.remaining (groupRows (GroupSummary.group g) computed) /\
            GroupSummary.destroyed g =
              sum_over ComputedRow.destroyed (groupRows (GroupSummary.group g) computed))
         (Result.groupSummaries res) /\
  List.length (Result.groupSummaries res) = 2%nat /\
  Exists (fun g => GroupSummary.group g = BCG_165) (Result.groupSummaries res) /\
  Exists (fun g => GroupSummary.group g = OTHER) (Result.groupSummaries res).
Proof.
  intros _ res computed.
  pose proof (bnSummaries_cover localeCompare rows opts) as Hcover.
  refine (conj eq_refl (conj _ (conj _ (conj _ (conj Hcover (conj _ _)))))).
  - apply computedRows_canonical.
  - eapply Forall_impl; [| apply bnSummaries_sums]. intros s [_ H]. exact H.
  - rewrite computedRows_map, Forall_map in Hcover.
    eapply Forall_impl; [| exact Hcover]. intros row. cbv beta.
    now rewrite computeRow_bn, normalizeBn_idem.
  - apply groupSummaries_sums.
  - apply groupSummaries_two.
Qed.

Lemma summaries_are_member_sums_witness :
  Result.computedRows (computeRows (fun _ _ => Fin 0) [example4_row; legacy_row_over] None)
  = map (computeRow
           (Result.day
              (computeRows (fun _ _ => Fin 0) [example4_row; legacy_row_over] None))
           true true)
        [example4_row; legacy_row_over] /\
  Forall (fun s =>
            BnSummary.onHand s =
              sum_over ComputedRow.onHand
                (bnRows (BnSummary.bn s)
                   (Result.computedRows
                      (computeRows (fun _ _ => Fin 0) [example4_row; legacy_row_over]
                         None))))
         (Result.bnSummaries
            (computeRows (fun _ _ => Fin 0) [example4_row; legacy_row_over] None)) /\
  Exists (fun s => BnSummary.bn s = normalizeBn (TrackerRow.bn example4_row))
         (Result.bnSummaries
            (computeRows (fun _ _ => Fin 0) [example4_row; legacy_row_over] None)).
Proof.
  destruct (summaries_are_member_sums (fun _ _ => Fin 0) [example4_row; legacy_row_over]
              None) as (Hmap & _ & Hsums & Hrows & _).
  - unfold safe_counts, totalOnHand, onHandCount. cbn [fold_left example4_row
      legacy_row_over TrackerRow.onHand].
    rewrite !safeNum_number, (ZfloorZ 100), (ZfloorZ 5). lia.
  - refine (conj Hmap (conj _ _)).
    + eapply Forall_impl; [| exact Hsums]. intros s (H & _). exact H.
    + inversion Hrows as [| ? ? [E | E] _]; subst; [| exact E].
      vm_compute in E. discriminate E.
Defined.

(** C6. Reconciliation policy.  For every row whose sanitized on-hand count
    [onHand = max(0, floor(safeNum(row.onHand)))] is at most
    [Number.MAX_SAFE_INTEGER], the computed row carries that on-hand count;
    its manual loss is the cumulative manual destroyed clamped to
    [0, onHand]; its modeled loss is the rounded difference to the decay
    model clamped to [0, onHand], and 0 when modeling is disabled; both are
    integers within [0, onHand]; and the final destroyed count is their
    maximum when modeling is enabled under the manual-wins policy, the
    modeled loss when modeling is enabled under the alternate policy, and the
    manual loss when modeling is disabled. *)
Theorem reconciliation_policy
    (day : number) (useAttrition manualWins : bool) (row : TrackerRow.t) :
  (onHandCount row <= 9007199254740991)%Z ->
  let r := computeRow day useAttrition manualWins row in
  let onHand := Math_max (Fin 0) (Math_floor (safeNum (TrackerRow.onHand row))) in
  ComputedRow.onHand r = onHand /\
  onHand = of_Z (onHandCount row) /\
  ComputedRow.destroyedManualActive r =
    clamp (fst (manualDestroyed row day)) (Fin 0) onHand /\
  ComputedRow.destroyedAttrition r =
    (if useAttrition
     then clamp (Math_round
                   (n_sub onHand
                      (remainingAfterDays onHand (TrackerRow.dailyAttritionPct row)
                         (JNum day))))
                (Fin 0) onHand
     else Fin 0) /\
  exists manual modeled : Z,
    ComputedRow.destroyedManualActive r = of_Z manual /\
    ComputedRow.destroyedAttrition r = of_Z modeled /\
    (0 <= manual <= onHandCount row)%Z /\ (0 <= modeled <= onHandCount row)%Z /\
    ComputedRow.destroyed r =
      of_Z (if useAttrition
            then (if manualWins then Z.max manual modeled else modeled)
            else manual).
Proof.
  intros _ r onHand.
  destruct (computeRow_onHand day useAttrition manualWins row) as [Eon Ecount].
  fold r in Eon, Ecount. fold onHand in Eon.
  refine (conj Eon (conj _ (conj _ (conj _ _)))).
  - now rewrite <- Eon.
  - subst r onHand. unfold computeRow.
    destruct (manualDestroyed row day) as [active total]. reflexivity.
  - subst r onHand. unfold computeRow.
    destruct (manualDestroyed row day) as [active total]. reflexivity.
  - destruct (computeRow_shape day useAttrition manualWins row)
      as (oh & m & t & a & _ & Hm & _ & Ha & _ & H).
    cbv zeta in H. destruct H as (Eo & Em & _ & _ & Ea & Ed & _). fold r in Eo, Em, Ea, Ed.
    assert (oh = onHandCount row) by (apply of_Z_inj; congruence). subst oh.
    exists m, a. now repeat split.
Qed.


Lemma normalizeDestroyedByDay_Z (l : list Z) :
  List.length l = 5%nat ->
  Forall (fun z => 0 <= z <= 9007199254740991)%Z l ->
  normalizeDestroyedByDay (numbers l) = map of_Z l.
Proof.
  intros Hlen Hpos.
  do 5 (destruct l as [| ? l]; [discriminate |]). destruct l; [| discriminate].
  repeat match goal with H : Forall _ (_ :: _) |- _ => inversion H; clear H; subst end.
  rewrite normalizeDestroyedByDay_entries. unfold numbers.
  cbn [elements seq map index nth]. unfold of_Z at 1 2 3 4 5.
  rewrite !safeNum_number.
  repeat match goal with
    | |- context [Math_round (Fin (IZR ?z))] =>
        change (Math_round (Fin (IZR z))) with (Math_round (of_Z z))
    end.
  rewrite !Math_round_Z, !Fin_0.
  change Number_MAX_SAFE_INTEGER with (of_Z 9007199254740991).
  rewrite !clamp_Z.
  rewrite !Z.min_r, !Z.max_r by lia. reflexivity.
Qed.

(** Example 4 of the specification: under the manual-wins policy with
    modeling enabled, a manual loss of 10 and a modeled loss of 6 give a final
    destroyed count of 10 (and 90 remain). *)
Lemma reconciliation_example4 :
  let r := computeRow (Fin 1) true true example4_row in
  ComputedRow.destroyedManualActive r = Fin 10 /\
  ComputedRow.destroyedAttrition r = Fin 6 /\
  ComputedRow.destroyed r = Fin 10 /\
  ComputedRow.remaining r = Fin 90.
Proof.
  assert (Hm : manualDestroyed example4_row (Fin 1) = (of_Z 10, of_Z 10)).
  { unfold manualDestroyed, example4_row. cbn [TrackerRow.destroyedByDay numbers Array_isArray].
    change (JArr (map (fun z => JNum (of_Z z)) [10; 0; 0; 0; 0]%Z))
      with (numbers [10; 0; 0; 0; 0]%Z).
    rewrite normalizeDestroyedByDay_Z; [| reflexivity | repeat constructor; lia].
    change (Fin 1) with (of_Z (Z.of_nat 1)).
    now rewrite slice0_Z, !reduce_add_Z. }
  assert (Hrem : remainingAfterDays (of_Z 100) (JNum (Fin 6)) (JNum (Fin 1)) = Fin 94).
  { unfold of_Z. rewrite remainingAfterDays_fin. f_equal.
    destruct (Rle_dec 100 0); [lra |].
    destruct (Rle_dec (6 / 100) 0); [lra |].
    destruct (Rle_dec 1 (6 / 100)); [lra |].
    rewrite (ZfloorZ 1). simpl. lra. }
  assert (Hmod : Math_round (n_sub (of_Z 100) (Fin 94)) = of_Z 6).
  { unfold of_Z at 1. rewrite n_sub_fin. apply Math_round_eq. lra. }
  assert (Hoh : Math_max (Fin 0) (Math_floor (safeNum (JNum (Fin 100)))) = of_Z 100).
  { rewrite safeNum_number. change (Fin 100) with (of_Z 100).
    now rewrite Math_floor_Z, Fin_0, Math_max_Z. }
  cbv zeta. unfold computeRow. rewrite Hm.
  cbn [TrackerRow.onHand TrackerRow.dailyAttritionPct example4_row].
  rewrite Hoh, Hrem, Hmod, !Fin_0, !clamp_Z.
  cbn [ComputedRow.destroyedManualActive ComputedRow.destroyedAttrition
         ComputedRow.destroyed ComputedRow.remaining].
  rewrite !Math_max_Z, n_sub_Z, Math_max_Z. repeat split.
Qed.

(** Example 4 of the specification, read off the policy: 100 on hand, 10
    reported destroyed on day 1 and a rate of 6 percent give, at day 1 with
    modeling on and manual wins, a manual loss of 10, a modeled loss of 6 and
    10 destroyed. *)
Lemma reconciliation_policy_witness :
  ComputedRow.onHand (computeRow (Fin 1) true true example4_row) = of_Z 100 /\
  ComputedRow.destroyedManualActive (computeRow (Fin 1) true true example4_row) = of_Z 10 /\
  ComputedRow.destroyedAttrition (computeRow (Fin 1) true true example4_row) = of_Z 6 /\
  ComputedRow.destroyed (computeRow (Fin 1) true true example4_row) = of_Z 10.
Proof.
  assert (Hcount : onHandCount example4_row = 100%Z).
  { unfold onHandCount, example4_row. cbn [TrackerRow.onHand].
    rewrite safeNum_number, (ZfloorZ 100). reflexivity. }
  destruct (reconciliation_policy (Fin 1) true true example4_row)
    as (Eon & Eoh & Em & Ea & manual & modeled & Hm & Ha & _ & _ & Hd).
  { rewrite Hcount. lia. }
  rewrite Eoh, Hcount in Eon, Em, Ea.
  assert (Em' : ComputedRow.destroyedManualActive (computeRow (Fin 1) true true example4_row)
                = of_Z 10).
  { rewrite Em. unfold manualDestroyed, example4_row.
    cbn [TrackerRow.destroyedByDay numbers Array_isArray fst].
    change (JArr (map (fun z => JNum (of_Z z)) [10; 0; 0; 0; 0]%Z))
      with (numbers [10; 0; 0; 0; 0]%Z).
    rewrite normalizeDestroyedByDay_Z; [| reflexivity | repeat constructor; lia].
    change (Fin 1) with (of_Z (Z.of_nat 1)).
    rewrite slice0_Z, reduce_add_Z, Fin_0, clamp_Z. reflexivity. }
  assert (Ea' : ComputedRow.destroyedAttrition (computeRow (Fin 1) true true example4_row)
                = of_Z 6).
  { rewrite Ea. unfold of_Z at 1 2 3. cbn [TrackerRow.dailyAttritionPct example4_row].
    rewrite remainingAfterDays_fin.
    destruct (Rle_dec 100 0); [lra |].
    destruct (Rle_dec (6 / 100) 0); [lra |].
    destruct (Rle_dec 1 (6 / 100)); [lra |].
    rewrite (ZfloorZ 1), n_sub_fin.
    rewrite (Math_round_eq _ 6) by (simpl; lra).
    change (Fin (IZR 100)) with (of_Z 100).
    rewrite Fin_0, clamp_Z. reflexivity. }
  rewrite Em' in Hm. rewrite Ea' in Ha.
  apply of_Z_inj in Hm, Ha. subst manual modeled.
  refine (conj Eon (conj Em' (conj Ea' Hd))).
Defined.

(** C10, as amended.  Legacy fallback: for a row whose [destroyedByDay] is
    absent or is not an array, the two manual sums of [computeRows] are both
    [max(0, floor(destroyedManual))] (the scalar sanitized, 0 when absent)
    whatever the selected day; the computed row carries the row's sanitized
    on-hand count [max(0, floor(safeNum(row.onHand)))], and its fields
    [destroyedManualActive] and [destroyedManualTotal] both carry the legacy
    value clamped to [0, onHand] for that on-hand count, again whatever the
    day. *)
Theorem legacy_manual_fallback (row : TrackerRow.t) :
  Array_isArray (TrackerRow.destroyedByDay row) = false ->
  let legacy :=
    Math_max (Fin 0)
      (Math_floor (safeNum (nullish (TrackerRow.destroyedManual row) (JNum (Fin 0))))) in
  let onHand := Math_max (Fin 0) (Math_floor (safeNum (TrackerRow.onHand row))) in
  (forall day : number, manualDestroyed row day = (legacy, legacy)) /\
  (forall x : R, TrackerRow.destroyedManual row = JNum (Fin x) ->
                 legacy = of_Z (Z.max 0 (Zfloor x))) /\
  (forall (day : number) (useAttrition manualWins : bool),
      let r := computeRow day useAttrition manualWins row in
      ComputedRow.onHand r = onHand /\
      ComputedRow.destroyedManualActive r = clamp legacy (Fin 0) onHand /\
      ComputedRow.destroyedManualTotal r = clamp legacy (Fin 0) onHand) /\
  (forall (x y : R) (day : number) (useAttrition manualWins : bool),
      TrackerRow.destroyedManual row = JNum (Fin x) ->
      safeNum (TrackerRow.onHand row) = Fin y ->
      let r := computeRow day useAttrition manualWins row in
      let oh := Z.max 0 (Zfloor y) in
      ComputedRow.onHand r = of_Z oh /\
      ComputedRow.destroyedManualActive r = of_Z (Z.min oh (Z.max 0 (Zfloor x))) /\
      ComputedRow.destroyedManualTotal r = of_Z (Z.min oh (Z.max 0 (Zfloor x)))).
Proof.
  intros Hlegacy legacy onHand.
  assert (Hm : forall day, manualDestroyed row day = (legacy, legacy)).
  { intros day. unfold manualDestroyed. now rewrite Hlegacy. }
  assert (Hx : forall x, TrackerRow.destroyedManual row = JNum (Fin x) ->
                         legacy = of_Z (Z.max 0 (Zfloor x))).
  { intros x E. subst legacy. rewrite E. cbn [nullish]. rewrite safeNum_number.
    change (Math_floor (Fin x)) with (of_Z (Zfloor x)).
    now rewrite Fin_0, Math_max_Z. }
  assert (Hr : forall day useAttrition manualWins,
             let r := computeRow day useAttrition manualWins row in
             ComputedRow.onHand r = onHand /\
             ComputedRow.destroyedManualActive r = clamp legacy (Fin 0) onHand /\
             ComputedRow.destroyedManualTotal r = clamp legacy (Fin 0) onHand).
  { intros day useAttrition manualWins r. subst r onHand. unfold computeRow.
    rewrite Hm. repeat split. }
  refine (conj Hm (conj Hx (conj Hr _))).
  intros x y day useAttrition manualWins E Ey r oh.
  destruct (Hr day useAttrition manualWins) as (Eo & Ha & Ht). fold r in Eo, Ha, Ht.
  assert (Eoh : onHand = of_Z oh).
  { subst onHand oh. rewrite Ey. change (Math_floor (Fin y)) with (of_Z (Zfloor y)).
    now rewrite Fin_0, Math_max_Z. }
  rewrite Eo, Ha, Ht, Eoh, (Hx x E), Fin_0, clamp_Z.
  repeat split; f_equal; subst oh; lia.
Qed.

Lemma legacy_manual_fallback_witness :
  Array_isArray (TrackerRow.destroyedByDay legacy_row_over) = false /\
  manualDestroyed legacy_row_over (Fin 1) = (Fin 10, Fin 10) /\
  manualDestroyed legacy_row_over (Fin 5) = (Fin 10, Fin 10) /\
  ComputedRow.onHand (computeRow (Fin 3) true true legacy_row_over) = Fin 5 /\
  ComputedRow.destroyedManualActive (computeRow (Fin 3) true true legacy_row_over) = Fin 5 /\
  ComputedRow.destroyedManualTotal (computeRow (Fin 3) true true legacy_row_over) = Fin 5.
Proof.
  destruct (legacy_manual_fallback legacy_row_over eq_refl) as (Hm & Hx & _ & Hr).
  specialize (Hx 10 eq_refl). rewrite (ZfloorZ 10) in Hx.
  specialize (Hr 10 5 (Fin 3) true true eq_refl eq_refl). cbv zeta in Hr.
  rewrite (ZfloorZ 10), (ZfloorZ 5) in Hr. destruct Hr as (Ho & Ha & Ht).
  refine (conj eq_refl (conj _ (conj _ (conj Ho (conj Ha Ht))))); rewrite Hm, Hx; reflexivity.
Defined.

(** C10 fails as stated on the row returned: with 5 on hand and a legacy
    [destroyedManual] of 10, [max(0, floor(destroyedManual))] is 10 but the
    fields [destroyedManualActive] and [destroyedManualTotal] are 5, the
    on-hand count. *)
Lemma legacy_manual_counterexample :
  Array_isArray (TrackerRow.destroyedByDay legacy_row_over) = false /\
  TrackerRow.destroyedManual legacy_row_over = JNum (Fin 10) /\
  Math_max (Fin 0) (Math_floor (Fin 10)) = Fin 10 /\
  ComputedRow.destroyedManualActive (computeRow (Fin 1) true true legacy_row_over) = Fin 5 /\
  ComputedRow.destroyedManualTotal (computeRow (Fin 1) true true legacy_row_over) = Fin 5 /\
  Fin 5 <> Fin 10.
Proof.
  assert (L : Math_max (Fin 0) (Math_floor (Fin 10)) = of_Z 10).
  { change (Fin 10) with (of_Z 10). now rewrite Math_floor_Z, Fin_0, Math_max_Z. }
  assert (O : Math_max (Fin 0) (Math_floor (safeNum (JNum (Fin 5)))) = of_Z 5).
  { rewrite safeNum_number. change (Fin 5) with (of_Z 5).
    now rewrite Math_floor_Z, Fin_0, Math_max_Z. }
  refine (conj eq_refl (conj eq_refl (conj L _))).
  unfold computeRow, manualDestroyed, legacy_row_over.
  cbn [TrackerRow.destroyedByDay TrackerRow.destroyedManual TrackerRow.onHand
         Array_isArray nullish ComputedRow.destroyedManualActive
         ComputedRow.destroyedManualTotal].
  rewrite !safeNum_number in *. rewrite L, O, Fin_0, !clamp_Z.
  refine (conj eq_refl (conj eq_refl _)).
  intros E. injection E. lra.
Qed.

(** * Further properties of the engine *)

(** ** The selected day *)

Lemma selectedDay_floor (opts : option Opts.t) (x : R) :
  safeNum (nullish (match opts with Some o => Opts.day o | None => JUndefined end)
                   (JNum (Fin 1))) = Fin x ->
  selectedDay opts = of_Z (Z.max 1 (Z.min 5 (Zfloor x))).
Proof.
  intros H. unfold selectedDay. rewrite H.
  change (Math_floor (Fin x)) with (of_Z (Zfloor x)).
  change (Fin 1) with (of_Z 1). change (Fin 5) with (of_Z 5).
  apply clamp_Z.
Qed.

(** The day [computeRows] works with and returns is a whole day from 1 to 5
    whatever the options hold: the floor of the given day clamped to [1, 5],
    the given day itself when it is one of 1..5, and day 1 when the day is
    absent, null or does not convert to a finite number. *)
Theorem computeRows_day
    (localeCompare : string -> string -> number)
    (rows : list TrackerRow.t) (opts : option Opts.t) :
  let raw := match opts with Some o => Opts.day o | None => JUndefined end in
  let day := Result.day (computeRows localeCompare rows opts) in
  (exists d : Z, (1 <= d <= 5)%Z /\ day = of_Z d) /\
  (forall x : R, Number raw = Fin x -> day = of_Z (Z.max 1 (Z.min 5 (Zfloor x)))) /\
  (forall k : Z, (1 <= k <= 5)%Z -> raw = JNum (of_Z k) -> day = of_Z k) /\
  (raw = JUndefined \/ raw = JNull \/ Number_isFinite (Number raw) = false ->
   day = Fin 1).
Proof.
  intros raw day.
  assert (Hday : day = selectedDay opts) by reflexivity.
  assert (Hfin : forall x, Number raw = Fin x ->
                           day = of_Z (Z.max 1 (Z.min 5 (Zfloor x)))).
  { intros x Hx. rewrite Hday.
    destruct (safeNum_finite (nullish raw (JNum (Fin 1)))) as [y Hy].
    rewrite (selectedDay_floor opts y Hy).
    destruct raw eqn:Eraw; cbn [nullish] in Hy;
      try (unfold safeNum in Hy; rewrite Hx in Hy; cbn in Hy;
           now injection Hy as ->).
    - cbn [Number] in Hx. discriminate.
    - cbn [Number] in Hx. injection Hx as <-.
      unfold safeNum in Hy. cbn in Hy. injection Hy as <-.
      rewrite (ZfloorZ 1), (ZfloorZ 0). reflexivity. }
  refine (conj _ (conj Hfin (conj _ _))).
  - rewrite Hday.
    destruct (safeNum_finite (nullish raw (JNum (Fin 1)))) as [y Hy].
    rewrite (selectedDay_floor opts y Hy). eexists. split; [| reflexivity]. lia.
  - intros k Hk Hraw. rewrite (Hfin (IZR k)) by (rewrite Hraw; reflexivity).
    rewrite ZfloorZ. f_equal. lia.
  - intros H. rewrite Hday.
    assert (Hs : safeNum (nullish raw (JNum (Fin 1))) = Fin 1 \/
                 safeNum (nullish raw (JNum (Fin 1))) = Fin 0).
    { destruct H as [-> | [-> | H]]; [now left | now left |].
      destruct raw; [now left | now left | right ..];
        unfold safeNum; cbn [nullish]; now rewrite H. }
    destruct Hs as [Hs | Hs]; rewrite (selectedDay_floor opts _ Hs).
    + rewrite (ZfloorZ 1). reflexivity.
    + rewrite (ZfloorZ 0). reflexivity.
Qed.

(** ** More on the decay model *)

(** The remaining count lies between 0 and the starting count, whatever the
    rate and the day are. *)
Theorem remainingAfterDays_bounds (start : R) (dailyPct day : JsVal) :
  exists x : R,
    remainingAfterDays (Fin start) dailyPct day = Fin x /\ 0 <= x <= Rmax 0 start.
Proof.
  destruct (safeNum_finite dailyPct) as [r Hr].
  destruct (safeNum_finite day) as [d Hd].
  rewrite (remainingAfterDays_safe start dailyPct day r d Hr Hd).
  eexists. split; [reflexivity |].
  destruct (Rle_dec start 0); [rewrite Rmax_left by lra; lra |].
  rewrite Rmax_right by lra.
  destruct (Rle_dec (r / 100) 0); [lra |].
  destruct (Rle_dec 1 (r / 100)); [lra |].
  assert (P0 : 0 <= (1 - r / 100) ^ Z.to_nat (Zfloor d)) by (apply pow_le; lra).
  assert (P1 : (1 - r / 100) ^ Z.to_nat (Zfloor d) <= 1).
  { pose proof (pow_incr (1 - r / 100) 1 (Z.to_nat (Zfloor d))) as P.
    rewrite pow1 in P. apply P. lra. }
  nra.
Qed.

(** A higher daily rate never leaves more: for a fixed starting count and
    day, the remaining count does not increase with the rate. *)
Theorem remainingAfterDays_rate_antitone (start r1 r2 : R) (day : JsVal) :
  r1 <= r2 ->
  n_le (remainingAfterDays (Fin start) (JNum (Fin r2)) day)
       (remainingAfterDays (Fin start) (JNum (Fin r1)) day) = true.
Proof.
  intros Hr. destruct (safeNum_finite day) as [d Hd].
  rewrite !(remainingAfterDays_safe start _ day _ d (safeNum_number _) Hd).
  unfold n_le. apply R_leb_true.
  destruct (Rle_dec start 0); [lra |].
  set (k := Z.to_nat (Zfloor d)).
  destruct (Rle_dec (r1 / 100) 0), (Rle_dec (r2 / 100) 0),
           (Rle_dec 1 (r1 / 100)), (Rle_dec 1 (r2 / 100)); try lra.
  - assert (P1 : (1 - r2 / 100) ^ k <= 1).
    { pose proof (pow_incr (1 - r2 / 100) 1 k) as P.
      rewrite pow1 in P. apply P. lra. }
    nra.
  - assert (0 <= (1 - r1 / 100) ^ k) by (apply pow_le; lra). nra.
  - apply Rmult_le_compat_l; [lra |]. apply pow_incr. lra.
Qed.

Lemma remainingAfterDays_rate_antitone_witness :
  n_le (remainingAfterDays (Fin 100) (JNum (Fin 50)) (JNum (Fin 2)))
       (remainingAfterDays (Fin 100) (JNum (Fin 10)) (JNum (Fin 2))) = true.
Proof.
  apply (remainingAfterDays_rate_antitone 100 10 50 (JNum (Fin 2))). lra.
Defined.

(** ** More on the computed rows *)

Lemma n_lt_Z a b : n_lt (of_Z a) (of_Z b) = (a <? b)%Z.
Proof.
  unfold of_Z, n_lt, R_ltb. destruct (Rlt_dec (IZR a) (IZR b)) as [H | H].
  - apply lt_IZR in H. symmetry. now apply Z.ltb_lt.
  - symmetry. apply Z.ltb_ge. apply Z.nlt_ge. intros L. apply H. now apply IZR_lt.
Qed.

Lemma slice0_firstn {A : Type} (arr : list A) (end_ : number) :
  exists k : nat, slice0 arr end_ = firstn k arr.
Proof.
  unfold slice0. destruct end_.
  - destruct (Ztrunc x <? 0)%Z; eauto.
  - now exists 0%nat.
  - exists (List.length arr). now rewrite firstn_all.
  - now exists 0%nat.
Qed.

Lemma fold_add_firstn_le (k : nat) (l : list Z) (acc : Z) :
  Forall (fun z => 0 <= z)%Z l ->
  (acc <= fold_left Z.add (firstn k l) acc <= fold_left Z.add l acc)%Z.
Proof.
  intros H. revert k acc.
  induction H as [| z l Hz Hl IH]; intros [| k] acc; cbn [firstn fold_left]; try lia.
  - pose proof (fold_add_nonneg l (acc + z) Hl). lia.
  - specialize (IH k (acc + z)%Z). lia.
Qed.

(** The manual loss through the day never exceeds the manual loss in total. *)
Lemma manualDestroyed_le (row : TrackerRow.t) (day : number) :
  exists a b : Z,
    (0 <= a <= b)%Z /\ manualDestroyed row day = (of_Z a, of_Z b).
Proof.
  unfold manualDestroyed.
  destruct (Array_isArray (TrackerRow.destroyedByDay row)).
  - destruct (counts_of_Z _ (normalizeDestroyedByDay_counts (TrackerRow.destroyedByDay row)))
      as (zs & -> & Hzs).
    destruct (slice0_firstn (map of_Z zs) day) as [k ->].
    rewrite firstn_map, !reduce_add_Z.
    do 2 eexists. split; [| reflexivity].
    apply (fold_add_firstn_le k zs 0 Hzs).
  - destruct (floor_count (nullish (TrackerRow.destroyedManual row) (JNum (Fin 0))))
      as (n & Hn & ->).
    exists n, n. split; [lia | reflexivity].
Qed.

Lemma combat_power_of (oh re : Z) :
  (0 <= re <= oh)%Z ->
  combat_power (of_Z oh) (of_Z re)
    (if n_gt (of_Z oh) (Fin 0) then n_mul (n_div (of_Z re) (of_Z oh)) (Fin 100) else Fin 0).
Proof.
  intros H. unfold n_gt. rewrite Fin_0, n_lt_Z.
  exists oh, re. destruct (0 <? oh)%Z eqn:E.
  - apply Z.ltb_lt in E. assert (P : 0 < IZR oh) by now apply IZR_lt.
    unfold of_Z. rewrite n_div_fin by lra. cbn [n_mul].
    eexists. refine (conj eq_refl (conj eq_refl (conj eq_refl (conj _ eq_refl)))).
    assert (R0 : 0 <= IZR re) by (apply IZR_le; lia).
    assert (R1 : IZR re <= IZR oh) by (apply IZR_le; lia).
    assert (Q0 : 0 <= IZR re / IZR oh).
    { apply Rmult_le_pos; [lra |]. apply Rlt_le, Rinv_0_lt_compat, P. }
    assert (Q1 : IZR re / IZR oh <= 1).
    { apply (Rmult_le_reg_r (IZR oh)); [exact P |]. field_simplify; lra. }
    lra.
  - exists 0. refine (conj eq_refl (conj eq_refl (conj eq_refl (conj _ eq_refl)))). lra.
Qed.

Lemma accounting_combat_power (onHand destroyed remaining : number) :
  accounting onHand destroyed remaining ->
  combat_power onHand remaining
    (if n_gt onHand (Fin 0) then n_mul (n_div remaining onHand) (Fin 100) else Fin 0).
Proof.
  intros (oh & de & re & -> & _ & -> & B & _). now apply combat_power_of.
Qed.

Lemma computeRow_derived (day : number) (useAttrition manualWins : bool)
    (row : TrackerRow.t) :
  let r := computeRow day useAttrition manualWins row in
  ComputedRow.combatPowerPct r =
    (if n_gt (ComputedRow.onHand r) (Fin 0)
     then n_mul (n_div (ComputedRow.remaining r) (ComputedRow.onHand r)) (Fin 100)
     else Fin 0) /\
  ComputedRow.daysTo25Pct r =
    (if n_gt (ComputedRow.onHand r) (Fin 0)
     then daysToReachFraction (TrackerRow.dailyAttritionPct row) (Fin 0.25)
     else None) /\
  ComputedRow.dailyAttritionPct r = TrackerRow.dailyAttritionPct row.
Proof.
  unfold computeRow. destruct (manualDestroyed row day). repeat split.
Qed.

(** Every unit summary is a finished entry of the rollup, holding the sums of
    its rows; every group summary is a finished group entry. *)
Lemma bnSummaries_finished
    (localeCompare : string -> string -> number)
    (rows : list TrackerRow.t) (opts : option Opts.t) (P : BnSummary.t -> Prop) :
  let computed := Result.computedRows (computeRows localeCompare rows opts) in
  (forall s, BnSummary.bn s <> EmptyString -> bn_summary_sums computed s ->
             P (bnFinish computed s)) ->
  Forall P (Result.bnSummaries (computeRows localeCompare rows opts)).
Proof.
  intros computed HP. rewrite bnSummaries_unfold.
  apply sort_by_Forall, Forall_map. unfold map_values. apply Forall_map.
  destruct (bnRollup_all computed) as (_ & Hok & _).
  eapply Forall_impl; [| exact Hok].
  intros [k s] (Hb & Hk & H1 & H2 & H3). simpl in Hb, Hk, H1, H2, H3. subst k.
  cbn [snd]. apply HP; [exact Hk |]. unfold bn_summary_sums. auto.
Qed.

Lemma groupSummaries_finished
    (localeCompare : string -> string -> number)
    (rows : list TrackerRow.t) (opts : option Opts.t) (P : GroupSummary.t -> Prop) :
  let computed := Result.computedRows (computeRows localeCompare rows opts) in
  (forall k : GroupKey,
      P (groupFinish computed
           (GroupSummary.mk k
              (sum_over ComputedRow.onHand (groupRows k computed))
              (sum_over ComputedRow.remaining (groupRows k computed))
              (sum_over ComputedRow.destroyed (groupRows k computed))
              (Fin 0) None))) ->
  Forall P (Result.groupSummaries (computeRows localeCompare rows opts)).
Proof.
  intros computed HP. rewrite groupSummaries_unfold. apply sort_by_Forall.
  rewrite groupRollup_all. repeat constructor; apply HP.
Qed.

(** Combat power: while the total on hand of the input rows is at most
    [Number.MAX_SAFE_INTEGER] (so that the counts are exact in the doubles of
    the sources), in every computed row, unit summary and group summary the
    combat power is the remaining count over the on-hand count in percent,
    and 0 when nothing is on hand; it always lies between 0 and 100. *)
Theorem combatPowerPct_share
    (localeCompare : string -> string -> number)
    (rows : list TrackerRow.t) (opts : option Opts.t) :
  safe_counts rows ->
  let res := computeRows localeCompare rows opts in
  Forall (fun r => combat_power (ComputedRow.onHand r) (ComputedRow.remaining r)
                                (ComputedRow.combatPowerPct r))
         (Result.computedRows res) /\
  Forall (fun s => combat_power (BnSummary.onHand s) (BnSummary.remaining s)
                                (BnSummary.combatPowerPct s))
         (Result.bnSummaries res) /\
  Forall (fun g => combat_power (GroupSummary.onHand g) (GroupSummary.remaining g)
                                (GroupSummary.combatPowerPct g))
         (Result.groupSummaries res).
Proof.
  intros _ res. pose proof (computedRows_accounting localeCompare rows opts) as Hacc.
  refine (conj _ (conj _ _)).
  - unfold res. rewrite computedRows_map. apply Forall_map, Forall_forall.
    intros row _.
    destruct (computeRow_derived (selectedDay opts) (opt_flag opts Opts.useAttrition)
                (opt_flag opts Opts.manualWins) row) as (-> & _).
    apply (accounting_combat_power _ _ _ (computeRow_accounting _ _ _ row)).
  - apply bnSummaries_finished. intros s _ (H1 & H2 & H3).
    cbn [bnFinish BnSummary.onHand BnSummary.remaining BnSummary.combatPowerPct].
    apply (accounting_combat_power _ (BnSummary.destroyed s)).
    rewrite H1, H2, H3. apply accounting_sum. now apply filter_Forall.
  - apply groupSummaries_finished. intros k.
    cbn [groupFinish GroupSummary.onHand GroupSummary.remaining GroupSummary.combatPowerPct].
    eapply accounting_combat_power.
    apply accounting_sum. apply filter_Forall, Hacc.
Qed.

Lemma combatPowerPct_share_witness :
  Forall (fun r => combat_power (ComputedRow.onHand r) (ComputedRow.remaining r)
                                (ComputedRow.combatPowerPct r))
         (Result.computedRows
            (computeRows (fun _ _ => Fin 0) [example4_row; legacy_row_over] None)) /\
  Forall (fun s => combat_power (BnSummary.onHand s) (BnSummary.remaining s)
                                (BnSummary.combatPowerPct s))
         (Result.bnSummaries
            (computeRows (fun _ _ => Fin 0) [example4_row; legacy_row_over] None)) /\
  Forall (fun g => combat_power (GroupSummary.onHand g) (GroupSummary.remaining g)
                                (GroupSummary.combatPowerPct g))
         (Result.groupSummaries
            (computeRows (fun _ _ => Fin 0) [example4_row; legacy_row_over] None)).
Proof.
  apply (combatPowerPct_share (fun _ _ => Fin 0) [example4_row; legacy_row_over] None).
  unfold safe_counts, totalOnHand, onHandCount. cbn [fold_left example4_row legacy_row_over
    TrackerRow.onHand]. rewrite !safeNum_number, (ZfloorZ 100), (ZfloorZ 5). lia.
Defined.

(** The manual counts of a row are ordered: in every computed row the manual
    loss through the selected day is at most the manual loss over all five
    days, which is at most the on-hand count. *)
Theorem manual_active_le_total
    (localeCompare : string -> string -> number)
    (rows : list TrackerRow.t) (opts : option Opts.t) :
  Forall (fun r => exists active total oh : Z,
              ComputedRow.destroyedManualActive r = of_Z active /\
              ComputedRow.destroyedManualTotal r = of_Z total /\
              ComputedRow.onHand r = of_Z oh /\
              (0 <= active <= total)%Z /\ (total <= oh)%Z)
         (Result.computedRows (computeRows localeCompare rows opts)).
Proof.
  rewrite computedRows_map. apply Forall_map, Forall_forall. intros row _.
  unfold computeRow.
  destruct (floor_count (TrackerRow.onHand row)) as (oh & Hoh & ->).
  destruct (manualDestroyed_le row (selectedDay opts)) as (a & b & Hab & ->).
  cbn [ComputedRow.destroyedManualActive ComputedRow.destroyedManualTotal
         ComputedRow.onHand].
  rewrite !Fin_0, !clamp_Z. do 3 eexists.
  refine (conj eq_refl (conj eq_refl (conj eq_refl _))). lia.
Qed.

(** ** Nothing on hand, no rows *)

Lemma accounting_nothing (onHand destroyed remaining : number) :
  accounting onHand destroyed remaining ->
  onHand = Fin 0 -> destroyed = Fin 0 /\ remaining = Fin 0.
Proof.
  intros (oh & de & re & -> & -> & -> & B & S) H.
  rewrite Fin_0 in H. apply of_Z_inj in H. subst oh.
  split; rewrite Fin_0; f_equal; lia.
Qed.

(** Nothing on hand: a computed row whose on-hand count is 0 reports no
    manual loss, no modeled loss, nothing destroyed, nothing remaining, a
    combat power of 0 and no day of reaching 25 percent; a unit summary and a
    group summary whose on-hand total is 0 do the same. *)
Theorem nothing_on_hand
    (localeCompare : string -> string -> number)
    (rows : list TrackerRow.t) (opts : option Opts.t) :
  let res := computeRows localeCompare rows opts in
  Forall (fun r => ComputedRow.onHand r = Fin 0 ->
                   ComputedRow.destroyedManualActive r = Fin 0 /\
                   ComputedRow.destroyedManualTotal r = Fin 0 /\
                   ComputedRow.destroyedAttrition r = Fin 0 /\
                   ComputedRow.destroyed r = Fin 0 /\
                   ComputedRow.remaining r = Fin 0 /\
                   ComputedRow.combatPowerPct r = Fin 0 /\
                   ComputedRow.daysTo25Pct r = None)
         (Result.computedRows res) /\
  Forall (fun s => BnSummary.onHand s = Fin 0 ->
                   BnSummary.destroyed s = Fin 0 /\
                   BnSummary.remaining s = Fin 0 /\
                   BnSummary.combatPowerPct s = Fin 0 /\
                   BnSummary.daysTo25Pct s = None)
         (Result.bnSummaries res) /\
  Forall (fun g => GroupSummary.onHand g = Fin 0 ->
                   GroupSummary.destroyed g = Fin 0 /\
                   GroupSummary.remaining g = Fin 0 /\
                   GroupSummary.combatPowerPct g = Fin 0 /\
                   GroupSummary.daysTo25Pct g = None)
         (Result.groupSummaries res).
Proof.
  intros res. pose proof (computedRows_accounting localeCompare rows opts) as Hacc.
  assert (Z0 : n_gt (Fin 0) (Fin 0) = false).
  { unfold n_gt, n_lt. apply R_ltb_false. lra. }
  refine (conj _ (conj _ _)).
  - unfold res. rewrite computedRows_map. apply Forall_map, Forall_forall.
    intros row _ H0.
    destruct (computeRow_derived (selectedDay opts) (opt_flag opts Opts.useAttrition)
                (opt_flag opts Opts.manualWins) row) as (-> & -> & _).
    destruct (computeRow_shape (selectedDay opts) (opt_flag opts Opts.useAttrition)
                (opt_flag opts Opts.manualWins) row)
      as (oh & m & t & a & Hoh & Hm & Ht & Ha & _ & H).
    cbv zeta in H. destruct H as (Eo & Em & _ & Et & Ea & Ed & Er).
    rewrite H0, Z0. rewrite Eo, Fin_0 in H0. apply of_Z_inj in H0. subst oh.
    rewrite Em, Et, Ea, Ed, Er, Fin_0.
    assert (m = 0 /\ t = 0 /\ a = 0)%Z as (-> & -> & ->) by lia.
    repeat split.
    destruct (opt_flag opts Opts.useAttrition); [destruct (opt_flag opts Opts.manualWins) |];
      reflexivity.
    destruct (opt_flag opts Opts.useAttrition); [destruct (opt_flag opts Opts.manualWins) |];
      reflexivity.
  - apply bnSummaries_finished. intros s _ (H1 & H2 & H3).
    cbn [bnFinish BnSummary.onHand BnSummary.remaining BnSummary.destroyed
           BnSummary.combatPowerPct BnSummary.daysTo25Pct].
    intros H0. rewrite H0, Z0.
    assert (A : accounting (BnSummary.onHand s) (BnSummary.destroyed s)
                           (BnSummary.remaining s)).
    { rewrite H1, H2, H3. apply accounting_sum. now apply filter_Forall. }
    destruct (accounting_nothing _ _ _ A H0) as [-> ->]. repeat split.
  - apply groupSummaries_finished. intros k.
    cbn [groupFinish GroupSummary.onHand GroupSummary.remaining GroupSummary.destroyed
           GroupSummary.combatPowerPct GroupSummary.daysTo25Pct].
    intros H0. rewrite H0, Z0.
    pose proof (accounting_sum _
                  (filter_Forall _ (fun r => GroupKey_eqb (groupForBn (ComputedRow.bn r)) k)
                     _ Hacc)) as A.
    destruct (accounting_nothing _ _ _ A H0) as [E1 E2].
    refine (conj E1 (conj E2 (conj eq_refl eq_refl))).
Qed.

(** No rows: on an empty list of rows [computeRows] returns no computed row,
    no unit summary and the two group summaries, each with zero counts, a
    combat power of 0 and no day of reaching 25 percent. *)
Theorem computeRows_no_rows
    (localeCompare : string -> string -> number) (opts : option Opts.t) :
  let res := computeRows localeCompare [] opts in
  Result.computedRows res = [] /\
  Result.bnSummaries res = [] /\
  List.length (Result.groupSummaries res) = 2%nat /\
  (forall k : GroupKey,
      In (GroupSummary.mk k (Fin 0) (Fin 0) (Fin 0) (Fin 0) None)
         (Result.groupSummaries res)).
Proof.
  intros res. refine (conj eq_refl (conj eq_refl (conj _ _))).
  - unfold res. rewrite groupSummaries_unfold. now rewrite sort_by_length.
  - intros k. unfold res. rewrite groupSummaries_unfold. apply sort_by_In.
    assert (Z0 : n_gt (Fin 0) (Fin 0) = false).
    { unfold n_gt, n_lt. apply R_ltb_false. lra. }
    cbn [computeRows Result.computedRows map fold_left groupMap0 map_values snd
           groupFinish GroupSummary.onHand GroupSummary.remaining GroupSummary.destroyed
           GroupSummary.group].
    unfold groupFinish.
    cbn [GroupSummary.onHand GroupSummary.remaining GroupSummary.destroyed
           GroupSummary.group].
    rewrite Z0. destruct k; [left | right; left]; reflexivity.
Qed.

(** ** The two groups share out the rows *)

Lemma groupRows_snoc g rows r :
  groupRows g (rows ++ [r]) =
  if GroupKey_eqb (groupForBn (ComputedRow.bn r)) g then groupRows g rows ++ [r]
  else groupRows g rows.
Proof.
  unfold groupRows. rewrite filter_app. simpl.
  destruct (GroupKey_eqb (groupForBn (ComputedRow.bn r)) g); [reflexivity |].
  apply app_nil_r.
Qed.

Lemma group_partition (f : ComputedRow.t -> number) (rows : list ComputedRow.t) :
  Forall (fun r => exists z : Z, f r = of_Z z) rows ->
  exists a b : Z,
    sum_over f (groupRows BCG_165 rows) = of_Z a /\
    sum_over f (groupRows OTHER rows) = of_Z b /\
    sum_over f rows = of_Z (a + b).
Proof.
  induction rows as [| r rows IH] using rev_ind; intros H.
  - exists 0%Z, 0%Z. repeat split.
  - apply Forall_app in H as [Hrows Hr]. inversion Hr as [| ? ? [z Ez] _]; subst.
    destruct (IH Hrows) as (a & b & Ea & Eb & Et).
    rewrite !groupRows_snoc, sum_over_snoc, Et, Ez, n_add_Z.
    destruct (groupForBn (ComputedRow.bn r)); cbn [GroupKey_eqb];
      rewrite sum_over_snoc, ?Ea, ?Eb, Ez, n_add_Z.
    + exists (a + z)%Z, b. repeat split; try assumption. f_equal. lia.
    + exists a, (b + z)%Z. repeat split; try assumption. f_equal. lia.
Qed.

(** Every row is counted in exactly one of the two groups: while the total
    on hand of the input rows is at most [Number.MAX_SAFE_INTEGER] (so that
    no sum is rounded in the doubles of the sources), the on-hand, remaining
    and destroyed totals of the 165_BCG summary and of the OTHER summary add
    up to the totals over all computed rows. *)
Theorem groups_share_out_rows
    (localeCompare : string -> string -> number)
    (rows : list TrackerRow.t) (opts : option Opts.t) :
  safe_counts rows ->
  let res := computeRows localeCompare rows opts in
  let computed := Result.computedRows res in
  exists bcg other : GroupSummary.t,
    In bcg (Result.groupSummaries res) /\ GroupSummary.group bcg = BCG_165 /\
    In other (Result.groupSummaries res) /\ GroupSummary.group other = OTHER /\
    n_add (GroupSummary.onHand bcg) (GroupSummary.onHand other) =
      sum_over ComputedRow.onHand computed /\
    n_add (GroupSummary.remaining bcg) (GroupSummary.remaining other) =
      sum_over ComputedRow.remaining computed /\
    n_add (GroupSummary.destroyed bcg) (GroupSummary.destroyed other) =
      sum_over ComputedRow.destroyed computed.
Proof.
  intros _ res computed.
  pose proof (computedRows_accounting localeCompare rows opts) as Hacc.
  fold res in Hacc. fold computed in Hacc.
  assert (Ho : Forall (fun r => exists z, ComputedRow.onHand r = of_Z z) computed).
  { eapply Forall_impl; [| exact Hacc]. intros r (oh & de & re & H & _). eauto. }
  assert (Hr : Forall (fun r => exists z, ComputedRow.remaining r = of_Z z) computed).
  { eapply Forall_impl; [| exact Hacc]. intros r (oh & de & re & _ & _ & H & _). eauto. }
  assert (Hd : Forall (fun r => exists z, ComputedRow.destroyed r = of_Z z) computed).
  { eapply Forall_impl; [| exact Hacc]. intros r (oh & de & re & _ & H & _). eauto. }
  destruct (group_partition _ _ Ho) as (a1 & b1 & Ea1 & Eb1 & Et1).
  destruct (group_partition _ _ Hr) as (a2 & b2 & Ea2 & Eb2 & Et2).
  destruct (group_partition _ _ Hd) as (a3 & b3 & Ea3 & Eb3 & Et3).
  pose (unfinished := fun k =>
          GroupSummary.mk k
            (sum_over ComputedRow.onHand (groupRows k computed))
            (sum_over ComputedRow.remaining (groupRows k computed))
            (sum_over ComputedRow.destroyed (groupRows k computed))
            (Fin 0) None).
  exists (groupFinish computed (unfinished BCG_165)),
         (groupFinish computed (unfinished OTHER)).
  assert (Hin : forall k, In (groupFinish computed (unfinished k))
                             (Result.groupSummaries res)).
  { intros k. unfold res. rewrite groupSummaries_unfold. apply sort_by_In.
    rewrite groupRollup_all. destruct k; [left | right; left]; reflexivity. }
  refine (conj (Hin _) (conj eq_refl (conj (Hin _) (conj eq_refl _)))).
  cbn [groupFinish unfinished GroupSummary.onHand GroupSummary.remaining
         GroupSummary.destroyed].
  rewrite Ea1, Eb1, Et1, Ea2, Eb2, Et2, Ea3, Eb3, Et3, !n_add_Z. repeat split.
Qed.

Lemma groups_share_out_rows_witness :
  exists bcg other : GroupSummary.t,
    In bcg (Result.groupSummaries
              (computeRows (fun _ _ => Fin 0) [example4_row; legacy_row_over] None)) /\
    GroupSummary.group bcg = BCG_165 /\
    In other (Result.groupSummaries
                (computeRows (fun _ _ => Fin 0) [example4_row; legacy_row_over] None)) /\
    GroupSummary.group other = OTHER /\
    n_add (GroupSummary.onHand bcg) (GroupSummary.onHand other) =
      sum_over ComputedRow.onHand
        (Result.computedRows
           (computeRows (fun _ _ => Fin 0) [example4_row; legacy_row_over] None)) /\
    n_add (GroupSummary.remaining bcg) (GroupSummary.remaining other) =
      sum_over ComputedRow.remaining
        (Result.computedRows
           (computeRows (fun _ _ => Fin 0) [example4_row; legacy_row_over] None)) /\
    n_add (GroupSummary.destroyed bcg) (GroupSummary.destroyed other) =
      sum_over ComputedRow.destroyed
        (Result.computedRows
           (computeRows (fun _ _ => Fin 0) [example4_row; legacy_row_over] None)).
Proof.
  apply (groups_share_out_rows (fun _ _ => Fin 0) [example4_row; legacy_row_over] None).
  unfold safe_counts, totalOnHand, onHandCount. cbn [fold_left example4_row legacy_row_over
    TrackerRow.onHand]. rewrite !safeNum_number, (ZfloorZ 100), (ZfloorZ 5). lia.
Defined.

(** ** The rate of a summary *)

Lemma weighted_sums (lo hi : R) (rows : list ComputedRow.t) :
  Forall (fun r => is_count (ComputedRow.onHand r) /\
                   rate_within lo hi (ComputedRow.dailyAttritionPct r)) rows ->
  exists (w : Z) (s : R),
    (0 <= w)%Z /\ totalWeight rows = of_Z w /\
    fold_left (fun sum r =>
                 n_add sum (n_mul (safeNum (ComputedRow.dailyAttritionPct r))
                                  (ComputedRow.onHand r)))
              rows (Fin 0) = Fin s /\
    lo * IZR w <= s <= hi * IZR w.
Proof.
  unfold totalWeight.
  induction rows as [| r rows IH] using rev_ind; intros H.
  - exists 0%Z, 0. cbn [fold_left]. repeat split; try reflexivity; lra || lia.
  - apply Forall_app in H as [Hrows Hr].
    inversion Hr as [| ? ? [(n & Hn & En) (x & Ex & Bx)] _]; subst.
    destruct (IH Hrows) as (w & s & Hw & Ew & Es & Bs).
    rewrite !fold_left_app. cbn [fold_left]. rewrite Ew, Es, Ex, En, n_add_Z.
    exists (w + n)%Z, (s + x * IZR n). unfold of_Z. cbn [n_mul n_add].
    refine (conj _ (conj eq_refl (conj eq_refl _))); [lia |].
    rewrite plus_IZR. assert (0 <= IZR n) by (apply IZR_le; lia). nra.
Qed.

(** The weighted rate of rows lies between the bounds of their rates, and is
    0 when the rows have nothing on hand. *)
Lemma weightedAttrition_between (lo hi : R) (rows : list ComputedRow.t) :
  Forall (fun r => is_count (ComputedRow.onHand r) /\
                   rate_within lo hi (ComputedRow.dailyAttritionPct r)) rows ->
  exists w : R,
    weightedAttrition rows = Fin w /\
    (n_gt (totalWeight rows) (Fin 0) = true -> lo <= w <= hi) /\
    (n_gt (totalWeight rows) (Fin 0) = false -> w = 0).
Proof.
  intros H. destruct (weighted_sums lo hi rows H) as (w & s & Hw & Ew & Es & Bs).
  unfold weightedAttrition. rewrite Es, Ew. unfold n_gt. rewrite Fin_0, n_lt_Z.
  destruct (0 <? w)%Z eqn:E.
  - apply Z.ltb_lt in E. assert (P : 0 < IZR w) by now apply IZR_lt.
    unfold of_Z. rewrite n_div_fin by lra.
    eexists. split; [reflexivity |]. split; [intros _ | discriminate].
    split.
    + apply (Rmult_le_reg_r (IZR w)); [exact P |]. field_simplify; lra.
    + apply (Rmult_le_reg_r (IZR w)); [exact P |]. field_simplify; lra.
  - exists 0. split; [reflexivity |]. split; [discriminate | reflexivity].
Qed.

Lemma computed_rates (lo hi : R) (day : number) (useAttrition manualWins : bool)
    (rows : list TrackerRow.t) (f : ComputedRow.t -> bool) :
  Forall (fun row => rate_within lo hi (TrackerRow.dailyAttritionPct row)) rows ->
  Forall (fun r => is_count (ComputedRow.onHand r) /\
                   rate_within lo hi (ComputedRow.dailyAttritionPct r))
         (filter f (map (computeRow day useAttrition manualWins) rows)).
Proof.
  intros H. apply filter_Forall, Forall_map.
  eapply Forall_impl; [| exact H]. intros row Hrow.
  destruct (computeRow_derived day useAttrition manualWins row) as (_ & _ & ->).
  split; [| exact Hrow].
  destruct (computeRow_shape day useAttrition manualWins row)
    as (oh & m & t & a & Hoh & _ & _ & _ & _ & Hr).
  cbv zeta in Hr. destruct Hr as (-> & _). now exists oh.
Qed.

Lemma daysToReachFraction_no_rate (w : R) :
  w <= 0 -> daysToReachFraction (JNum (Fin w)) (Fin 0.25) = None.
Proof.
  intros H. unfold daysToReachFraction. rewrite safeNum_number, n_div_fin by lra.
  unfold n_ge, n_le.
  rewrite (R_leb_false 0.25 0), (R_leb_false 1 0.25) by lra.
  rewrite (R_leb_true (w / 100) 0) by lra. reflexivity.
Qed.

Lemma daysToReachFraction_full_rate (w : R) :
  100 <= w -> daysToReachFraction (JNum (Fin w)) (Fin 0.25) = Some (Fin 0).
Proof.
  intros H. unfold daysToReachFraction. rewrite safeNum_number, n_div_fin by lra.
  unfold n_ge, n_le.
  rewrite (R_leb_false 0.25 0), (R_leb_false 1 0.25) by lra.
  rewrite (R_leb_false (w / 100) 0), (R_leb_true 1 (w / 100)) by lra. reflexivity.
Qed.

(** The projection of a summary when the rates of the rows lie between two
    bounds, at the two ends of the scale. *)
Lemma summary_projection_bounds
    (localeCompare : string -> string -> number)
    (rows : list TrackerRow.t) (opts : option Opts.t) (lo hi : R) :
  Forall (fun row => rate_within lo hi (TrackerRow.dailyAttritionPct row)) rows ->
  let res := computeRows localeCompare rows opts in
  (hi <= 0 ->
   Forall (fun s => BnSummary.daysTo25Pct s = None) (Result.bnSummaries res) /\
   Forall (fun g => GroupSummary.daysTo25Pct g = None) (Result.groupSummaries res)) /\
  (100 <= lo ->
   Forall (fun s => n_gt (BnSummary.onHand s) (Fin 0) = true ->
                    BnSummary.daysTo25Pct s = Some (Fin 0))
          (Result.bnSummaries res) /\
   Forall (fun g => n_gt (GroupSummary.onHand g) (Fin 0) = true ->
                    GroupSummary.daysTo25Pct g = Some (Fin 0))
          (Result.groupSummaries res)).
Proof.
  intros H res.
  assert (Hbn : forall s,
             exists w : R,
               weightedAttrition
                 (filter (fun r => String.eqb (normalizeBn (ComputedRow.bn r)) (BnSummary.bn s))
                         (Result.computedRows res)) = Fin w /\
               (n_gt (sum_over ComputedRow.onHand
                        (bnRows (BnSummary.bn s) (Result.computedRows res))) (Fin 0) = true ->
                lo <= w <= hi) /\
               (n_gt (sum_over ComputedRow.onHand
                        (bnRows (BnSummary.bn s) (Result.computedRows res))) (Fin 0) = false ->
                w = 0)).
  { intros s. unfold res. rewrite computedRows_map.
    apply (weightedAttrition_between lo hi), computed_rates, H. }
  assert (Hgr : forall k,
             exists w : R,
               weightedAttrition
                 (filter (fun r => GroupKey_eqb (groupForBn (ComputedRow.bn r)) k)
                         (Result.computedRows res)) = Fin w /\
               (n_gt (sum_over ComputedRow.onHand (groupRows k (Result.computedRows res)))
                     (Fin 0) = true -> lo <= w <= hi) /\
               (n_gt (sum_over ComputedRow.onHand (groupRows k (Result.computedRows res)))
                     (Fin 0) = false -> w = 0)).
  { intros k. unfold res. rewrite computedRows_map.
    apply (weightedAttrition_between lo hi), computed_rates, H. }
  split.
  - intros Hhi. split.
    + apply bnSummaries_finished. intros s _ (H1 & _).
      cbn [bnFinish BnSummary.onHand BnSummary.daysTo25Pct].
      destruct (n_gt (BnSummary.onHand s) (Fin 0)) eqn:E; [| reflexivity].
      destruct (Hbn s) as (w & Ew & Bw & _). fold res. rewrite Ew.
      apply daysToReachFraction_no_rate. rewrite H1 in E. specialize (Bw E). lra.
    + apply groupSummaries_finished. intros k.
      cbn [groupFinish GroupSummary.onHand GroupSummary.daysTo25Pct GroupSummary.group].
      fold res.
      destruct (n_gt (sum_over ComputedRow.onHand (groupRows k (Result.computedRows res)))
                     (Fin 0)) eqn:E; [| reflexivity].
      destruct (Hgr k) as (w & Ew & Bw & _). rewrite Ew.
      apply daysToReachFraction_no_rate. specialize (Bw E). lra.
  - intros Hlo. split.
    + apply bnSummaries_finished. intros s _ (H1 & _).
      cbn [bnFinish BnSummary.onHand BnSummary.daysTo25Pct]. intros E. rewrite E.
      destruct (Hbn s) as (w & Ew & Bw & _). fold res. rewrite Ew.
      apply daysToReachFraction_full_rate. rewrite H1 in E. specialize (Bw E). lra.
    + apply groupSummaries_finished. intros k.
      cbn [groupFinish GroupSummary.onHand GroupSummary.daysTo25Pct GroupSummary.group].
      fold res. intros E. rewrite E.
      destruct (Hgr k) as (w & Ew & Bw & _). rewrite Ew.
      apply daysToReachFraction_full_rate. specialize (Bw E). lra.
Qed.

Lemma rates_bounded_below (rows : list TrackerRow.t) (hi : R) :
  Forall (fun row => n_le (safeNum (TrackerRow.dailyAttritionPct row)) (Fin hi) = true) rows ->
  exists lo : R,
    Forall (fun row => rate_within lo hi (TrackerRow.dailyAttritionPct row)) rows.
Proof.
  induction 1 as [| row rows Hrow _ (lo & IH)].
  - exists 0. constructor.
  - destruct (safeNum_finite (TrackerRow.dailyAttritionPct row)) as [x Ex].
    rewrite Ex in Hrow. unfold n_le, R_leb in Hrow.
    destruct (Rle_dec x hi) as [Hx |]; [| discriminate].
    exists (Rmin x lo). constructor.
    + exists x. split; [exact Ex |]. split; [apply Rmin_l | exact Hx].
    + eapply Forall_impl; [| exact IH]. intros r (y & Ey & Hy).
      exists y. split; [exact Ey |]. pose proof (Rmin_r x lo). lra.
Qed.

(** No attrition, no projection: when the sanitized daily rate of every row
    is at most 0, no unit summary and no group summary that [computeRows]
    returns has a day of reaching 25 percent. *)
Theorem summary_no_attrition
    (localeCompare : string -> string -> number)
    (rows : list TrackerRow.t) (opts : option Opts.t) :
  Forall (fun row => n_le (safeNum (TrackerRow.dailyAttritionPct row)) (Fin 0) = true) rows ->
  let res := computeRows localeCompare rows opts in
  Forall (fun s => BnSummary.daysTo25Pct s = None) (Result.bnSummaries res) /\
  Forall (fun g => GroupSummary.daysTo25Pct g = None) (Result.groupSummaries res).
Proof.
  intros H res. destruct (rates_bounded_below rows 0 H) as (lo & Hlo).
  apply (summary_projection_bounds localeCompare rows opts lo 0 Hlo). lra.
Qed.

Lemma summary_no_attrition_witness :
  Forall (fun s => BnSummary.daysTo25Pct s = None)
         (Result.bnSummaries
            (computeRows (fun _ _ => Fin 0) [legacy_row; legacy_row_over] None)) /\
  Forall (fun g => GroupSummary.daysTo25Pct g = None)
         (Result.groupSummaries
            (computeRows (fun _ _ => Fin 0) [legacy_row; legacy_row_over] None)).
Proof.
  apply (summary_no_attrition (fun _ _ => Fin 0) [legacy_row; legacy_row_over] None).
  repeat constructor; apply R_leb_true; lra.
Defined.

(** Total attrition, immediate crossing: when the sanitized daily rate of
    every row is at least 100 (and at most 10^6) and the total on hand is at
    most 2^53 / 100, so that the weighted sums the sources form in doubles
    cannot fall below 100 times the weights, every unit summary and every
    group summary with something on hand reaches 25 percent at day 0. *)
Theorem summary_total_attrition
    (localeCompare : string -> string -> number)
    (rows : list TrackerRow.t) (opts : option Opts.t) :
  Forall (fun row =>
            n_ge (safeNum (TrackerRow.dailyAttritionPct row)) (Fin 100) = true /\
            n_le (safeNum (TrackerRow.dailyAttritionPct row)) (Fin 1000000) = true) rows ->
  (totalOnHand rows <= 90071992547409)%Z ->
  let res := computeRows localeCompare rows opts in
  Forall (fun s => n_gt (BnSummary.onHand s) (Fin 0) = true ->
                   BnSummary.daysTo25Pct s = Some (Fin 0))
         (Result.bnSummaries res) /\
  Forall (fun g => n_gt (GroupSummary.onHand g) (Fin 0) = true ->
                   GroupSummary.daysTo25Pct g = Some (Fin 0))
         (Result.groupSummaries res).
Proof.
  intros H _ res.
  assert (Hlo : Forall (fun row => rate_within 100 1000000 (TrackerRow.dailyAttritionPct row))
                       rows).
  { eapply Forall_impl; [| exact H]. intros row [H1 H2].
    destruct (safeNum_finite (TrackerRow.dailyAttritionPct row)) as [x Ex].
    rewrite Ex in H1, H2. unfold n_ge, n_le, R_leb in H1, H2.
    destruct (Rle_dec 100 x); [| discriminate].
    destruct (Rle_dec x 1000000); [| discriminate].
    exists x. split; [exact Ex | lra]. }
  apply (summary_projection_bounds localeCompare rows opts 100 1000000 Hlo). lra.
Qed.

Lemma summary_total_attrition_witness :
  Forall (fun s => n_gt (BnSummary.onHand s) (Fin 0) = true ->
                   BnSummary.daysTo25Pct s = Some (Fin 0))
         (Result.bnSummaries (computeRows (fun _ _ => Fin 0) [total_loss_row] None)) /\
  Forall (fun g => n_gt (GroupSummary.onHand g) (Fin 0) = true ->
                   GroupSummary.daysTo25Pct g = Some (Fin 0))
         (Result.groupSummaries (computeRows (fun _ _ => Fin 0) [total_loss_row] None)).
Proof.
  apply (summary_total_attrition (fun _ _ => Fin 0) [total_loss_row] None).
  - repeat constructor; apply R_leb_true; lra.
  - unfold totalOnHand, onHandCount. cbn [fold_left total_loss_row TrackerRow.onHand].
    rewrite safeNum_number, (ZfloorZ 20). lia.
Defined.

(** ** The identifiers of the unit summaries *)

Lemma bnRollup_keys (rows : list ComputedRow.t) :
  forall (m : list (string * BnSummary.t)) (k : string),
    In k (map fst (fold_left bnRollupStep rows m)) ->
    In k (map fst m) \/
    exists r, In r rows /\ normalizeBn (ComputedRow.bn r) = k.
Proof.
  induction rows as [| r rows IH]; intros m k H; cbn [fold_left] in H; [now left |].
  destruct (IH _ _ H) as [Hk | (r' & Hr' & E)].
  - unfold bnRollupStep in Hk.
    destruct (String.eqb (normalizeBn (ComputedRow.bn r)) EmptyString); [now left |].
    rewrite (map_set_keys _ String.eqb_eq) in Hk.
    destruct (existsb _ (map fst m)); [now left |].
    apply in_app_or in Hk as [Hk | [<- | []]]; [now left |].
    right. exists r. split; [now left | reflexivity].
  - right. exists r'. split; [now right | exact E].
Qed.

Section SortPermutation.
Variable localeCompare : string -> string -> number.
Context {A : Type} (key : A -> string).

Lemma sort_insert_Permutation (x : A) (sorted : list A) :
  Permutation (sort_insert localeCompare key x sorted) (x :: sorted).
Proof.
  induction sorted as [| y rest IH]; cbn [sort_insert]; [reflexivity |].
  destruct (n_gt (localeCompare (key y) (key x)) (Fin 0)); [reflexivity |].
  rewrite IH. apply perm_swap.
Qed.

Lemma sort_by_Permutation (arr : list A) :
  Permutation (sort_by localeCompare key arr) arr.
Proof.
  unfold sort_by.
  assert (G : forall acc,
             Permutation (fold_left (fun sorted x => sort_insert localeCompare key x sorted)
                                    arr acc)
                         (acc ++ arr)).
  { induction arr as [| x arr IH]; intros acc; cbn [fold_left].
    - now rewrite app_nil_r.
    - rewrite IH, sort_insert_Permutation. apply Permutation_middle. }
  apply (G []).
Qed.
End SortPermutation.

(** The unit summaries carry distinct identifiers, one for each unit: no two
    summaries share an identifier, every identifier is non-empty, canonical
    and that of some computed row, and there are at most as many summaries
    as rows. *)
Theorem bnSummaries_identifiers
    (localeCompare : string -> string -> number)
    (rows : list TrackerRow.t) (opts : option Opts.t) :
  let res := computeRows localeCompare rows opts in
  NoDup (map BnSummary.bn (Result.bnSummaries res)) /\
  Forall (fun s => BnSummary.bn s <> EmptyString /\
                   normalizeBn (BnSummary.bn s) = BnSummary.bn s /\
                   Exists (fun r => ComputedRow.bn r = BnSummary.bn s)
                          (Result.computedRows res))
         (Result.bnSummaries res) /\
  (List.length (Result.bnSummaries res) <= List.length rows)%nat.
Proof.
  intros res. set (computed := Result.computedRows res).
  set (m := fold_left bnRollupStep computed []).
  assert (Eres : Result.bnSummaries res =
                 sort_by localeCompare BnSummary.bn
                   (map (bnFinish computed) (map_values m))) by reflexivity.
  destruct (bnRollup_all computed) as (Hnd & Hok & _). fold m in Hnd, Hok.
  assert (Ekeys : map BnSummary.bn (map (bnFinish computed) (map_values m)) = map fst m).
  { unfold map_values. rewrite !map_map. apply map_ext_in. intros e He.
    rewrite Forall_forall in Hok. now destruct (Hok e He) as (Hb & _). }
  assert (Hsrc : forall k, In k (map fst m) ->
                           exists r, In r computed /\ ComputedRow.bn r = k).
  { intros k Hk. destruct (bnRollup_keys computed [] k Hk) as [[] | (r & Hr & E)].
    exists r. split; [exact Hr |]. rewrite <- E. symmetry.
    pose proof (computedRows_canonical localeCompare rows opts) as Hc.
    rewrite Forall_forall in Hc. now apply Hc. }
  refine (conj _ (conj _ _)).
  - rewrite Eres.
    eapply Permutation_NoDup;
      [apply Permutation_map, Permutation_sym, sort_by_Permutation |].
    now rewrite Ekeys.
  - rewrite Eres. apply sort_by_Forall, Forall_map. unfold map_values. apply Forall_map.
    apply Forall_forall. intros [k s] He.
    rewrite Forall_forall in Hok. destruct (Hok _ He) as (Hb & Hk & _).
    cbn [fst snd] in Hb, Hk. cbn [snd bnFinish BnSummary.bn]. rewrite Hb.
    destruct (Hsrc k) as (r & Hr & E).
    { apply in_map_iff. exists (k, s). split; [reflexivity | exact He]. }
    refine (conj Hk (conj _ _)).
    + rewrite <- E.
      pose proof (computedRows_canonical localeCompare rows opts) as Hc.
      rewrite Forall_forall in Hc. now apply Hc.
    + apply Exists_exists. exists r. split; [exact Hr | exact E].
  - rewrite Eres, sort_by_length. unfold map_values. rewrite !length_map.
    rewrite <- (length_map fst m).
    replace (List.length rows) with (List.length (map ComputedRow.bn computed)).
    + apply NoDup_incl_length; [exact Hnd |].
      intros k Hk. destruct (Hsrc k Hk) as (r & Hr & <-). now apply in_map.
    + rewrite length_map. unfold computed, res. rewrite computedRows_map.
      apply length_map.
Qed.

(** * Properties of the page *)

(** ** Units and groups *)

Lemma page_normalizeBn_engine (raw : string) : PageView.normalizeBn raw = normalizeBn raw.
Proof.
  unfold PageView.normalizeBn, normalizeBn, has, OS_SS_ALIASES. cbn [existsb].
  set (s := collapse_spaces false (toUpperCase (trim raw))).
  destruct (String.eqb_spec s "OS/SS") as [-> | _]; [reflexivity |].
  destruct (String.eqb s "OSSS"), (String.eqb s "OS-SS"), (String.eqb s "OS & SS"),
           (String.eqb s "OS AND SS"); reflexivity.
Qed.

Lemma is165BcgUnit_group (raw : string) :
  PageView.is165BcgUnit raw = GroupKey_eqb (groupForBn raw) BCG_165.
Proof.
  unfold PageView.is165BcgUnit, groupForBn. rewrite page_normalizeBn_engine.
  set (bn := normalizeBn raw).
  unfold has, PageView.BCG_165_BNS, BCG_165_BNS. cbn [existsb].
  destruct (String.eqb bn "OS/SS").
  - rewrite !orb_true_r. reflexivity.
  - destruct (String.eqb bn "1651"), (String.eqb bn "1652"), (String.eqb bn "1653"),
             (String.eqb bn "1654"), (String.eqb bn "1657"), (String.eqb bn "1658"),
             (String.eqb bn "1659"); reflexivity.
Qed.

(** The page and the engine agree on units: the page's own [normalizeBn]
    returns what the engine's does on every identifier, the page's test
    [is165BcgUnit] holds exactly when the engine puts the identifier in the
    group 165_BCG, and the group of an identifier is that of its canonical
    form. *)
Theorem page_units_agree (raw : string) :
  PageView.normalizeBn raw = normalizeBn raw /\
  (PageView.is165BcgUnit raw = true <-> groupForBn raw = BCG_165) /\
  groupForBn (normalizeBn raw) = groupForBn raw.
Proof.
  refine (conj (page_normalizeBn_engine raw) (conj _ _)).
  - rewrite is165BcgUnit_group. destruct (groupForBn raw); cbn [GroupKey_eqb];
      split; intros H; reflexivity || discriminate.
  - unfold groupForBn. now rewrite normalizeBn_idem.
Qed.

(** ** The totals of the top bar *)

Lemma fold_or_zero (f : ComputedRow.t -> number) (rows : list ComputedRow.t) :
  Forall (fun r => exists z : Z, f r = of_Z z) rows ->
  forall acc : number,
    fold_left (fun s r => n_add s (or_zero (f r))) rows acc =
    fold_left (fun s r => n_add s (f r)) rows acc.
Proof.
  induction 1 as [| r rows [z Ez] _ IH]; intros acc; cbn [fold_left]; [reflexivity |].
  now rewrite IH, Ez, or_zero_Z.
Qed.

Lemma bcgComputedRows_group (rows : list ComputedRow.t) :
  PageView.bcgComputedRows rows = groupRows BCG_165 rows.
Proof.
  unfold PageView.bcgComputedRows, groupRows. apply filter_ext.
  intros r. apply is165BcgUnit_group.
Qed.

(** The top bar shows the engine's group: the 165 totals the page adds up
    from the computed rows (on hand, remaining, destroyed, combat power) are
    those of the 165_BCG group summary that [computeRows] returns. *)
Theorem bcgTotals_group_summary
    (localeCompare : string -> string -> number)
    (rows : list TrackerRow.t) (opts : option Opts.t) :
  let res := computeRows localeCompare rows opts in
  let totals := PageView.bcgTotals (Result.computedRows res) in
  exists g : GroupSummary.t,
    In g (Result.groupSummaries res) /\ GroupSummary.group g = BCG_165 /\
    PageView.onHand totals = GroupSummary.onHand g /\
    PageView.remaining totals = GroupSummary.remaining g /\
    PageView.destroyed totals = GroupSummary.destroyed g /\
    PageView.combatPowerPct totals = GroupSummary.combatPowerPct g.
Proof.
  intros res totals. set (computed := Result.computedRows res).
  pose proof (computedRows_accounting localeCompare rows opts) as Hacc.
  fold res in Hacc. fold computed in Hacc.
  assert (Hg : Forall row_accounting (groupRows BCG_165 computed))
    by now apply filter_Forall.
  assert (Ho : Forall (fun r => exists z, ComputedRow.onHand r = of_Z z)
                      (groupRows BCG_165 computed)).
  { eapply Forall_impl; [| exact Hg]. intros r (oh & de & re & H & _). eauto. }
  assert (Hr : Forall (fun r => exists z, ComputedRow.remaining r = of_Z z)
                      (groupRows BCG_165 computed)).
  { eapply Forall_impl; [| exact Hg]. intros r (oh & de & re & _ & _ & H & _). eauto. }
  assert (Hd : Forall (fun r => exists z, ComputedRow.destroyed r = of_Z z)
                      (groupRows BCG_165 computed)).
  { eapply Forall_impl; [| exact Hg]. intros r (oh & de & re & _ & H & _). eauto. }
  exists (groupFinish computed
            (GroupSummary.mk BCG_165
               (sum_over ComputedRow.onHand (groupRows BCG_165 computed))
               (sum_over ComputedRow.remaining (groupRows BCG_165 computed))
               (sum_over ComputedRow.destroyed (groupRows BCG_165 computed))
               (Fin 0) None)).
  split.
  { unfold res. rewrite groupSummaries_unfold. apply sort_by_In.
    rewrite groupRollup_all. left. reflexivity. }
  split; [reflexivity |].
  unfold totals, PageView.bcgTotals. fold computed.
  rewrite bcgComputedRows_group.
  rewrite (fold_or_zero ComputedRow.onHand _ Ho),
          (fold_or_zero ComputedRow.remaining _ Hr),
          (fold_or_zero ComputedRow.destroyed _ Hd).
  repeat split.
Qed.

(** ** The sort button *)

(** The sort button goes round all four modes: from any mode, four presses
    come back to it and one, two or three presses do not; from
    unit-ascending the order is unit-descending, power-descending,
    power-ascending. *)
Theorem cycleSort_round (mode : PageView.SortMode) :
  let next := PageView.cycleSort in
  next (next (next (next mode))) = mode /\
  next mode <> mode /\ next (next mode) <> mode /\ next (next (next mode)) <> mode /\
  next PageView.BN_ASC = PageView.BN_DESC /\
  next PageView.BN_DESC = PageView.CP_DESC /\
  next PageView.CP_DESC = PageView.CP_ASC.
Proof.
  destruct mode; cbn; repeat split; discriminate.
Qed.

(** ** Clamping to whole numbers *)

(** [clampInt] always returns a whole number within its bounds: for integer
    bounds [lo <= hi] the result is the floor of the value clamped to
    [lo, hi] when the value converts to a finite number, 0 clamped when it
    converts to NaN, the upper bound for +Infinity and the lower bound for
    -Infinity. *)
Theorem clampInt_range (n : JsVal) (lo hi : Z) :
  (lo <= hi)%Z ->
  exists z : Z,
    (lo <= z <= hi)%Z /\
    Page.clampInt n (of_Z lo) (of_Z hi) = of_Z z /\
    (forall x : R, Number n = Fin x -> z = Z.max lo (Z.min hi (Zfloor x))) /\
    (Number n = NaN -> z = Z.max lo (Z.min hi 0)) /\
    (Number n = PosInf -> z = hi) /\
    (Number n = NegInf -> z = lo).
Proof.
  intros Hlh. unfold Page.clampInt. destruct (Number n) as [x | | |] eqn:E.
  - assert (F : Math_floor (or_zero (Fin x)) = of_Z (Zfloor x)).
    { unfold or_zero, R_eqb. destruct (Req_dec_T x 0) as [-> | _]; [| reflexivity].
      cbn [Math_floor]. reflexivity. }
    rewrite F, Math_min_Z, Math_max_Z. eexists.
    refine (conj _ (conj eq_refl (conj _ (conj _ (conj _ _))))); try discriminate; [lia |].
    intros y [= <-]. reflexivity.
  - cbn [or_zero]. change (Math_floor (Fin 0)) with (of_Z (Zfloor 0)).
    rewrite (ZfloorZ 0), Math_min_Z, Math_max_Z. eexists.
    refine (conj _ (conj eq_refl (conj _ (conj _ (conj _ _))))); try discriminate; [lia |].
    reflexivity.
  - cbn [or_zero Math_floor Math_min of_Z n_le]. change (Fin (IZR hi)) with (of_Z hi).
    change (Fin (IZR lo)) with (of_Z lo). rewrite Math_max_Z. exists hi.
    refine (conj _ (conj _ (conj _ (conj _ (conj _ _))))); try discriminate;
      try reflexivity; [lia | f_equal; lia].
  - cbn [or_zero Math_floor Math_min Math_max of_Z n_le]. exists lo.
    refine (conj _ (conj _ (conj _ (conj _ (conj _ _))))); try discriminate;
      try reflexivity. lia.
Qed.

Lemma clampInt_range_witness :
  exists z : Z,
    (1 <= z <= 5)%Z /\
    Page.clampInt (JNum (Fin 7.5)) (of_Z 1) (of_Z 5) = of_Z z /\
    (forall x : R, Number (JNum (Fin 7.5)) = Fin x -> z = Z.max 1 (Z.min 5 (Zfloor x))) /\
    (Number (JNum (Fin 7.5)) = NaN -> z = Z.max 1 (Z.min 5 0)) /\
    (Number (JNum (Fin 7.5)) = PosInf -> z = 5%Z) /\
    (Number (JNum (Fin 7.5)) = NegInf -> z = 1%Z).
Proof.
  apply (clampInt_range (JNum (Fin 7.5)) 1 5). lia.
Defined.

(** ** Canonical identifiers, canonical headers *)

Lemma lower_char_space (c : ascii) : is_space (PageView.lower_char c) = is_space c.
Proof.
  destruct c as [b0 b1 b2 b3 b4 b5 b6 b7];
    destruct b0, b1, b2, b3, b4, b5, b6, b7; reflexivity.
Qed.

Lemma lower_char_idem (c : ascii) :
  PageView.lower_char (PageView.lower_char c) = PageView.lower_char c.
Proof.
  destruct c as [b0 b1 b2 b3 b4 b5 b6 b7];
    destruct b0, b1, b2, b3, b4, b5, b6, b7; reflexivity.
Qed.

Lemma lower_upper_char (c : ascii) :
  PageView.lower_char (upper_char c) = PageView.lower_char c.
Proof.
  destruct c as [b0 b1 b2 b3 b4 b5 b6 b7];
    destruct b0, b1, b2, b3, b4, b5, b6, b7; reflexivity.
Qed.

Lemma upper_lower_char (c : ascii) :
  upper_char (PageView.lower_char c) = upper_char c.
Proof.
  destruct c as [b0 b1 b2 b3 b4 b5 b6 b7];
    destruct b0, b1, b2, b3, b4, b5, b6, b7; reflexivity.
Qed.

Lemma toLowerCase_idem (s : string) :
  PageView.toLowerCase (PageView.toLowerCase s) = PageView.toLowerCase s.
Proof.
  induction s as [| c s IH]; simpl; [reflexivity |].
  now rewrite lower_char_idem, IH.
Qed.

Lemma toLowerCase_toUpperCase (s : string) :
  PageView.toLowerCase (toUpperCase s) = PageView.toLowerCase s.
Proof.
  induction s as [| c s IH]; simpl; [reflexivity |].
  now rewrite lower_upper_char, IH.
Qed.

Lemma toUpperCase_toLowerCase (s : string) :
  toUpperCase (PageView.toLowerCase s) = toUpperCase s.
Proof.
  induction s as [| c s IH]; simpl; [reflexivity |].
  now rewrite upper_lower_char, IH.
Qed.

Lemma toLowerCase_collapse (b : bool) (s : string) :
  PageView.toLowerCase (collapse_spaces b s) = collapse_spaces b (PageView.toLowerCase s).
Proof.
  revert b. induction s as [| c s IH]; intros b;
    cbn [collapse_spaces PageView.toLowerCase]; [reflexivity |].
  rewrite lower_char_space. destruct (is_space c).
  - destruct b; cbn [PageView.toLowerCase]; now rewrite IH.
  - cbn [PageView.toLowerCase]. now rewrite IH.
Qed.

Lemma toLowerCase_no_lead (s : string) : no_lead s -> no_lead (PageView.toLowerCase s).
Proof. destruct s as [| c s]; simpl; [trivial |]. now rewrite lower_char_space. Qed.

Lemma toLowerCase_empty (s : string) :
  String.eqb (PageView.toLowerCase s) EmptyString = String.eqb s EmptyString.
Proof. destruct s; reflexivity. Qed.

Lemma trimEnd_toLowerCase (s : string) :
  trimEnd (PageView.toLowerCase s) = PageView.toLowerCase (trimEnd s).
Proof.
  induction s as [| c s IH]; cbn [trimEnd PageView.toLowerCase]; [reflexivity |].
  rewrite IH, lower_char_space, toLowerCase_empty.
  destruct (is_space c && String.eqb (trimEnd s) EmptyString)%bool; reflexivity.
Qed.

Lemma trimStart_toLowerCase (s : string) :
  trimStart (PageView.toLowerCase s) = PageView.toLowerCase (trimStart s).
Proof.
  induction s as [| c s IH]; cbn [trimStart PageView.toLowerCase]; [reflexivity |].
  rewrite lower_char_space. destruct (is_space c); [exact IH | reflexivity].
Qed.

Lemma trimStart_toUpperCase (s : string) :
  trimStart (toUpperCase s) = toUpperCase (trimStart s).
Proof.
  induction s as [| c s IH]; cbn [trimStart toUpperCase]; [reflexivity |].
  rewrite upper_char_space. destruct (is_space c); [exact IH | reflexivity].
Qed.

Lemma trim_toUpperCase (s : string) : trim (toUpperCase s) = toUpperCase (trim s).
Proof. unfold trim. now rewrite trimStart_toUpperCase, trimEnd_toUpperCase. Qed.

Lemma trim_toLowerCase (s : string) :
  trim (PageView.toLowerCase s) = PageView.toLowerCase (trim s).
Proof. unfold trim. now rewrite trimStart_toLowerCase, trimEnd_toLowerCase. Qed.

(** The squeezed form is trimmed on both sides. *)
Lemma squeezed_trim (raw : string) : trim (squeezed raw) = squeezed raw.
Proof.
  assert (Hl : no_lead (squeezed raw)).
  { unfold squeezed, trim.
    apply collapse_no_lead, toUpperCase_no_lead, trimEnd_no_lead, trimStart_no_lead. }
  unfold trim. rewrite (no_lead_trimStart _ Hl).
  unfold squeezed, trim. apply trimEnd_collapse.
  rewrite trimEnd_toUpperCase. now rewrite trimEnd_idem.
Qed.

(** The canonical identifier: what [normalizeBn] returns has no white space
    at either end, no lower-case letter and no run of white space other than
    a single blank, and [normalizeBn] leaves it as it is; each of the OS/SS
    spellings becomes OS/SS; and for an identifier of ASCII characters (on
    which the case mappings of JavaScript are those of the model) the case of
    the letters does not matter. *)
Theorem normalizeBn_canonical (raw : string) :
  let bn := normalizeBn raw in
  trim bn = bn /\ toUpperCase bn = bn /\ collapse_spaces false bn = bn /\
  normalizeBn bn = bn /\
  Forall (fun alias => normalizeBn alias = "OS/SS"%string) OS_SS_ALIASES /\
  (ascii_only raw = true ->
   normalizeBn (toUpperCase raw) = bn /\
   normalizeBn (PageView.toLowerCase raw) = bn).
Proof.
  intros bn.
  assert (H : forall s, normalizeBn s =
                        if has OS_SS_ALIASES (squeezed s) then "OS/SS"%string else squeezed s)
    by reflexivity.
  assert (Eu : squeezed (toUpperCase raw) = squeezed raw).
  { unfold squeezed. now rewrite trim_toUpperCase, toUpperCase_idem. }
  assert (El : squeezed (PageView.toLowerCase raw) = squeezed raw).
  { unfold squeezed. now rewrite trim_toLowerCase, toUpperCase_toLowerCase. }
  refine (conj _ (conj _ (conj _ (conj (normalizeBn_idem raw) (conj _ _))))).
  - unfold bn. rewrite H. destruct (has OS_SS_ALIASES (squeezed raw));
      [reflexivity | apply squeezed_trim].
  - unfold bn. rewrite H. destruct (has OS_SS_ALIASES (squeezed raw)); [reflexivity |].
    unfold squeezed. now rewrite toUpperCase_collapse, toUpperCase_idem.
  - unfold bn. rewrite H. destruct (has OS_SS_ALIASES (squeezed raw)); [reflexivity |].
    unfold squeezed. apply collapse_spaces_idem.
  - repeat constructor.
  - intros _. split; unfold bn; [now rewrite !H, Eu | now rewrite !H, El].
Qed.

(** The canonical header: [normalizeKey] leaves its own result as it is, and
    for a header of ASCII characters (on which the case mappings of
    JavaScript are those of the model) the case of the letters does not
    matter. *)
Theorem normalizeKey_canonical (s : string) :
  let key := PageView.normalizeKey s in
  PageView.normalizeKey key = key /\
  trim key = key /\ PageView.toLowerCase key = key /\ collapse_spaces false key = key /\
  (ascii_only s = true ->
   PageView.normalizeKey (toUpperCase s) = key /\
   PageView.normalizeKey (PageView.toLowerCase s) = key).
Proof.
  intros key.
  assert (Hl : no_lead key).
  { unfold key, PageView.normalizeKey, trim.
    apply collapse_no_lead, toLowerCase_no_lead, trimEnd_no_lead, trimStart_no_lead. }
  assert (Ht : trim key = key).
  { unfold trim. rewrite (no_lead_trimStart _ Hl).
    unfold key, PageView.normalizeKey, trim. apply trimEnd_collapse.
    rewrite trimEnd_toLowerCase. now rewrite trimEnd_idem. }
  assert (Hc : PageView.toLowerCase key = key).
  { unfold key, PageView.normalizeKey. now rewrite toLowerCase_collapse, toLowerCase_idem. }
  assert (Hs : collapse_spaces false key = key).
  { unfold key, PageView.normalizeKey. apply collapse_spaces_idem. }
  refine (conj _ (conj Ht (conj Hc (conj Hs _)))).
  - unfold PageView.normalizeKey at 1. now rewrite Ht, Hc, Hs.
  - intros _. split; unfold key, PageView.normalizeKey.
    + now rewrite trim_toUpperCase, toLowerCase_toUpperCase.
    + now rewrite trim_toLowerCase, toLowerCase_idem.
Qed.

(** ** Sheet cells *)

Lemma map_get_set {V : Type} (k k' : string) (v : V) (m : list (string * V)) :
  map_get String.eqb k (map_set String.eqb k' v m) =
  if String.eqb k k' then Some v else map_get String.eqb k m.
Proof.
  induction m as [| [k0 v0] m IH]; cbn [map_set map_get]; [reflexivity |].
  destruct (String.eqb_spec k' k0) as [-> | N]; cbn [map_get].
  - destruct (String.eqb k k0); reflexivity.
  - rewrite IH. destruct (String.eqb_spec k k0) as [-> | _]; [| reflexivity].
    destruct (String.eqb_spec k0 k') as [E | _]; [| reflexivity].
    exfalso. apply N. now symmetry.
Qed.

(** The map [getCell] builds holds, under each normalized header, the value
    of the last cell with that header. *)
Lemma getCell_map (key : string) (row : list (string * JsVal)) :
  forall m : list (string * JsVal),
    map_get String.eqb key
      (fold_left (fun m kv => map_set String.eqb (PageView.normalizeKey (fst kv)) (snd kv) m)
                 row m) =
    fold_left
      (fun found kv =>
         if String.eqb (PageView.normalizeKey (fst kv)) key then Some (snd kv) else found)
      row (map_get String.eqb key m).
Proof.
  induction row as [| [k v] row IH]; intros m; cbn [fold_left]; [reflexivity |].
  rewrite IH, map_get_set. cbn [fst snd].
  now rewrite (String.eqb_sym key).
Qed.

Lemma last_cell_snoc (key : string) (row : list (string * JsVal)) (kv : string * JsVal) :
  last_cell key (row ++ [kv]) =
  if String.eqb (PageView.normalizeKey (fst kv)) key then Some (snd kv)
  else last_cell key row.
Proof. unfold last_cell. now rewrite fold_left_app. Qed.

Lemma last_cell_In (key : string) (row : list (string * JsVal)) (v : JsVal) :
  last_cell key row = Some v ->
  exists k : string, In (k, v) row /\ PageView.normalizeKey k = key.
Proof.
  induction row as [| [k0 v0] row IH] using rev_ind; [discriminate |].
  rewrite last_cell_snoc. cbn [fst snd].
  destruct (String.eqb_spec (PageView.normalizeKey k0) key) as [E | _].
  - intros [= ->]. exists k0. split; [| exact E]. apply in_or_app. right. now left.
  - intros H. destruct (IH H) as (k & Hin & Ek). exists k. split; [| exact Ek].
    apply in_or_app. now left.
Qed.

Lemma getCell_cons (row : list (string * JsVal)) (want : string) (rest : list string) :
  PageView.getCell row (want :: rest) =
  match last_cell (PageView.normalizeKey want) row with
  | Some JUndefined | None => PageView.getCell row rest
  | Some v => v
  end.
Proof.
  unfold PageView.getCell. cbn [PageView.find_cell].
  rewrite (getCell_map (PageView.normalizeKey want) row []). reflexivity.
Qed.

(** Looking a cell up: [getCell] tries the wanted headers in order and
    returns, for the first of them that has a defined value, the value of the
    last cell of the row whose header is the same up to [normalizeKey];
    without wanted headers the result is undefined; and whatever it returns
    other than undefined is the value of a cell of the row whose header
    matches a wanted header. *)
Theorem getCell_lookup (row : list (string * JsVal)) (keys : list string) :
  PageView.getCell row [] = JUndefined /\
  (forall want : string,
      PageView.getCell row (want :: keys) =
      match last_cell (PageView.normalizeKey want) row with
      | Some JUndefined | None => PageView.getCell row keys
      | Some v => v
      end) /\
  (PageView.getCell row keys = JUndefined \/
   exists k want : string,
     In (k, PageView.getCell row keys) row /\ In want keys /\
     PageView.normalizeKey k = PageView.normalizeKey want).
Proof.
  refine (conj eq_refl (conj (fun want => getCell_cons row want keys) _)).
  induction keys as [| want keys IH]; [now left |].
  rewrite getCell_cons.
  destruct (last_cell (PageView.normalizeKey want) row) as [v |] eqn:E.
  - destruct (last_cell_In _ _ _ E) as (k & Hin & Ek).
    destruct v; try (right; exists k, want; split; [exact Hin |];
                     split; [now left | exact Ek]).
    destruct IH as [IH | (k' & want' & H1 & H2 & H3)]; [now left |].
    right. exists k', want'. split; [exact H1 |]. split; [now right | exact H3].
  - destruct IH as [IH | (k' & want' & H1 & H2 & H3)]; [now left |].
    right. exists k', want'. split; [exact H1 |]. split; [now right | exact H3].
Qed.

(** ** Recalculation on the page, then the engine *)

(** On a whole on-hand count the rounded loss of the decay model at the
    inferred rate is the cumulative loss capped at the on-hand count. *)
Lemma inferred_loss_Z (oh : Z) (l : list Z) (day : nat) :
  (0 <= oh)%Z ->
  List.length l = 5%nat ->
  Forall (fun z => 0 <= z)%Z l ->
  (1 <= day <= 5)%nat ->
  Math_round
    (n_sub (of_Z oh)
       (remainingAfterDays (of_Z oh)
          (JNum (Page.inferDailyAttritionPct (JNum (of_Z oh)) (numbers l)
                   (JNum (of_Z (Z.of_nat day)))))
          (JNum (of_Z (Z.of_nat day))))) =
  of_Z (Z.min oh (cumulative l day)).
Proof.
  intros Hoh Hlen Hpos Hday.
  assert (Hcum : (0 <= cumulative l day)%Z) by now apply cumulative_nonneg.
  unfold of_Z at 1 2 3.
  rewrite (remaining_of_inferred (IZR oh) l day Hlen Hpos Hday). cbv zeta.
  rewrite ZfloorZ, Z.max_r by exact Hoh. rewrite n_sub_fin.
  set (cum := cumulative l day) in *.
  apply Math_round_eq.
  destruct (Rle_dec (IZR oh) 0) as [N | P].
  { apply le_IZR in N. replace oh with 0%Z by lia. rewrite Z.min_l by lia. lra. }
  apply Rnot_le_lt, lt_IZR in P.
  destruct (Z.leb_spec oh 0) as [L0 | L0]; [lia |].
  destruct (Z.leb_spec oh cum) as [L1 | L1]; [rewrite Z.min_l by lia; lra |].
  destruct (Z.leb_spec cum 0) as [L2 | L2].
  { replace cum with 0%Z by lia. rewrite Z.min_r by lia. lra. }
  rewrite Z.min_r by lia. rewrite minus_IZR.
  assert (0 < IZR oh) by now apply IZR_lt. field. lra.
Qed.

Lemma page_clampInt_whole (n : JsVal) (lo hi : Z) :
  (lo <= hi)%Z ->
  exists z : Z, (lo <= z <= hi)%Z /\ Page.clampInt n (of_Z lo) (of_Z hi) = of_Z z.
Proof.
  intros Hlh. unfold Page.clampInt. destruct (Number n) as [x | | |].
  - rewrite floor_or_zero, Math_min_Z, Math_max_Z. eexists. split; [| reflexivity]. lia.
  - cbn [or_zero]. change (Math_floor (Fin 0)) with (of_Z (Zfloor 0)).
    rewrite Math_min_Z, Math_max_Z. eexists. split; [| reflexivity]. lia.
  - cbn [or_zero Math_floor Math_min of_Z n_le]. change (Fin (IZR hi)) with (of_Z hi).
    change (Fin (IZR lo)) with (of_Z lo). rewrite Math_max_Z. exists (Z.max lo hi).
    split; [lia | reflexivity].
  - cbn [or_zero Math_floor Math_min Math_max of_Z n_le]. exists lo.
    split; [lia | reflexivity].
Qed.

(** A well-formed row recalculated for a day and then computed for that
    day. *)
Lemma recalc_then_compute (row : TrackerRow.t) (oh : Z) (l : list Z) (day : nat)
    (useAttrition : bool) :
  (0 <= oh)%Z ->
  TrackerRow.onHand row = JNum (of_Z oh) ->
  TrackerRow.destroyedByDay row = numbers l ->
  List.length l = 5%nat ->
  Forall (fun z => 0 <= z <= 9007199254740991)%Z l ->
  (1 <= day <= 5)%nat ->
  let d := of_Z (Z.of_nat day) in
  let r := computeRow d useAttrition true (PageView.recalcRow (JNum d) row) in
  let k := Z.min oh (cumulative l day) in
  ComputedRow.onHand r = of_Z oh /\
  ComputedRow.destroyedManualActive r = of_Z k /\
  ComputedRow.destroyedAttrition r = (if useAttrition then of_Z k else Fin 0) /\
  ComputedRow.destroyed r = of_Z k /\
  ComputedRow.remaining r = of_Z (oh - k).
Proof.
  intros Hoh Eoh Ebd Hlen Hl Hday d r k.
  assert (Hpos : Forall (fun z => 0 <= z)%Z l).
  { eapply Forall_impl; [| exact Hl]. cbv beta. intros; lia. }
  assert (Hcum : (0 <= cumulative l day)%Z) by now apply cumulative_nonneg.
  assert (Erow : PageView.recalcRow (JNum d) row =
                 TrackerRow.mk (TrackerRow.id row) (TrackerRow.bn row)
                   (TrackerRow.equipmentType row) (JNum (of_Z oh))
                   (JNum (Page.inferDailyAttritionPct (JNum (of_Z oh)) (numbers l) (JNum d)))
                   (TrackerRow.destroyedManual row) (numbers l)).
  { unfold PageView.recalcRow. rewrite Ebd, Eoh, (page_normalize_Z l Hlen Hpos), map_map.
    reflexivity. }
  subst r. rewrite Erow. unfold computeRow.
  assert (Em : manualDestroyed
                 (TrackerRow.mk (TrackerRow.id row) (TrackerRow.bn row)
                    (TrackerRow.equipmentType row) (JNum (of_Z oh))
                    (JNum (Page.inferDailyAttritionPct (JNum (of_Z oh)) (numbers l) (JNum d)))
                    (TrackerRow.destroyedManual row) (numbers l)) d =
               (of_Z (cumulative l day), reduce_add (map of_Z l))).
  { unfold manualDestroyed. cbn [TrackerRow.destroyedByDay numbers Array_isArray].
    fold (numbers l). rewrite (normalizeDestroyedByDay_Z l Hlen Hl).
    unfold d. rewrite slice0_Z, reduce_add_Z. reflexivity. }
  rewrite Em. cbn [TrackerRow.onHand TrackerRow.dailyAttritionPct].
  assert (Eo : Math_max (Fin 0) (Math_floor (safeNum (JNum (of_Z oh)))) = of_Z oh).
  { change (safeNum (JNum (of_Z oh))) with (of_Z oh).
    rewrite Math_floor_Z, Fin_0, Math_max_Z. f_equal. lia. }
  rewrite Eo.
  cbn [ComputedRow.onHand ComputedRow.destroyedManualActive ComputedRow.destroyedAttrition
         ComputedRow.destroyed ComputedRow.remaining].
  unfold d. rewrite (inferred_loss_Z oh l day Hoh Hlen Hpos Hday).
  rewrite !Fin_0, !clamp_Z.
  assert (Ek : Z.max 0 (Z.min oh (cumulative l day)) = k) by (subst k; lia).
  assert (Ek' : Z.max 0 (Z.min oh (Z.min oh (cumulative l day))) = k) by (subst k; lia).
  rewrite Ek, Ek'.
  destruct useAttrition; rewrite ?Math_max_Z, ?Z.max_id, n_sub_Z, Math_max_Z;
    refine (conj eq_refl (conj eq_refl (conj eq_refl (conj eq_refl _)))); f_equal;
    subst k; lia.
Qed.

(** Recalculation keeps the model in step with the reports: after
    [setDayAndRecalc] has set the day and inferred the rates of well-formed
    rows (whole counts of at most 10^9), [computeRows] called as the page
    calls it (that day, manual wins)
    works on that very day, and in every computed row the destroyed count is
    the manual loss through the day; with modeling on, the modeled loss is
    that same count. *)
Theorem recalculated_rows_consistent
    (localeCompare : string -> string -> number)
    (nextDay : JsVal) (prev : list TrackerRow.t) (useAttrition : bool) :
  Forall well_formed_row prev ->
  let state := PageView.setDayAndRecalc nextDay prev in
  let res :=
    computeRows localeCompare (snd state)
      (Some (Opts.mk (JNum (fst state)) (Some useAttrition) (Some true))) in
  (exists d : Z, (1 <= d <= 5)%Z /\ fst state = of_Z d) /\
  Result.day res = fst state /\
  Forall (fun r => ComputedRow.destroyed r = ComputedRow.destroyedManualActive r /\
                   (useAttrition = true ->
                    ComputedRow.destroyedAttrition r = ComputedRow.destroyedManualActive r))
         (Result.computedRows res).
Proof.
  intros Hwf state res.
  destruct (page_clampInt_whole nextDay 1 5 ltac:(lia)) as (dz & Hdz & Ed).
  change (of_Z 1) with (Fin 1) in Ed. change (of_Z 5) with (Fin 5) in Ed.
  assert (Es : state = (of_Z dz, map (PageView.recalcRow (JNum (of_Z dz))) prev)).
  { unfold state, PageView.setDayAndRecalc. now rewrite Ed. }
  assert (Eday : Result.day res = of_Z dz).
  { unfold res. rewrite Es. cbn [fst snd].
    change (Result.day _) with
      (selectedDay (Some (Opts.mk (JNum (of_Z dz)) (Some useAttrition) (Some true)))).
    rewrite (selectedDay_floor _ (IZR dz)) by reflexivity.
    rewrite ZfloorZ. f_equal. lia. }
  refine (conj _ (conj _ _)).
  - exists dz. split; [exact Hdz |]. now rewrite Es.
  - rewrite Eday. now rewrite Es.
  - unfold res. rewrite computedRows_map. fold res.
    change (selectedDay _) with (Result.day res). rewrite Eday, Es. cbn [snd opt_flag
      Opts.useAttrition Opts.manualWins].
    apply Forall_map, Forall_map.
    eapply Forall_impl; [| exact Hwf].
    intros row (oh & l & Hoh & Eoh & Ebd & Hlen & Hl).
    assert (Hn : (1 <= Z.to_nat dz <= 5)%nat) by lia.
    assert (Hl' : Forall (fun z => 0 <= z <= 9007199254740991)%Z l).
    { eapply Forall_impl; [| exact Hl]. cbv beta. intros; lia. }
    pose proof (recalc_then_compute row oh l (Z.to_nat dz) useAttrition
                  (proj1 Hoh) Eoh Ebd Hlen Hl' Hn) as H.
    cbv zeta in H. rewrite Z2Nat.id in H by lia.
    destruct H as (_ & Em & Ea & Edd & _).
    rewrite Em, Edd. split; [reflexivity |]. intros ->. exact Ea.
Qed.

Lemma recalculated_rows_consistent_witness :
  (exists d : Z,
      (1 <= d <= 5)%Z /\
      fst (PageView.setDayAndRecalc (JNum (Fin 2)) [example4_row]) = of_Z d) /\
  Result.day
    (computeRows (fun _ _ => Fin 0)
       (snd (PageView.setDayAndRecalc (JNum (Fin 2)) [example4_row]))
       (Some (Opts.mk (JNum (fst (PageView.setDayAndRecalc (JNum (Fin 2)) [example4_row])))
                (Some true) (Some true)))) =
  fst (PageView.setDayAndRecalc (JNum (Fin 2)) [example4_row]) /\
  Forall (fun r => ComputedRow.destroyed r = ComputedRow.destroyedManualActive r /\
                   (true = true ->
                    ComputedRow.destroyedAttrition r = ComputedRow.destroyedManualActive r))
    (Result.computedRows
       (computeRows (fun _ _ => Fin 0)
          (snd (PageView.setDayAndRecalc (JNum (Fin 2)) [example4_row]))
          (Some (Opts.mk
                   (JNum (fst (PageView.setDayAndRecalc (JNum (Fin 2)) [example4_row])))
                   (Some true) (Some true))))).
Proof.
  apply (recalculated_rows_consistent (fun _ _ => Fin 0) (JNum (Fin 2)) [example4_row] true).
  constructor; [| constructor].
  exists 100%Z, [10; 0; 0; 0; 0]%Z.
  refine (conj _ (conj eq_refl (conj eq_refl (conj eq_refl _)))); [lia |].
  repeat constructor; lia.
Defined.

(** * The projected day *)

(** The day count of the computed branch, as a natural number: the first
    exponent at which the power of the base is at most the target. *)
Lemma crossing_day (q t : R) :
  0 < q < 1 -> 0 < t < 1 ->
  exists n : nat,
    INR n = IZR (Zceil (ln t / ln q)) /\
    q ^ n <= t /\
    (forall m : nat, q ^ m <= t -> (n <= m)%nat).
Proof.
  intros Hq Ht. set (d := ln t / ln q).
  assert (Hd : 0 < d).
  { subst d. apply Rdiv_neg_neg; apply ln_neg; lra. }
  assert (B := Zceil_bound d).
  assert (Hn : (0 < Zceil d)%Z) by (apply lt_IZR; lra).
  exists (Z.to_nat (Zceil d)).
  assert (En : INR (Z.to_nat (Zceil d)) = IZR (Zceil d)).
  { rewrite INR_IZR_INZ. f_equal. lia. }
  split; [exact En |]. split.
  - apply pow_le_target; [exact Hq | lra |]. fold d. lra.
  - intros m Hm. apply pow_le_target in Hm; [| exact Hq | lra]. fold d in Hm.
    apply Nat2Z.inj_le. rewrite Z2Nat.id by lia.
    apply Z.lt_succ_r, lt_IZR. rewrite succ_IZR, <- INR_IZR_INZ. lra.
Qed.

(** The projected day is the first crossing day of the decay curve, to within
    one day: for a rate between 1 and 99 percent and a target fraction
    between 0.01 and 0.99, [daysToReachFraction] returns a whole day [n >= 1]
    that differs by at most one from the first whole day at which the
    remaining fraction [(1 - p) ^ day] has fallen to the target or below.
    (The sources divide two rounded logarithms, which can move the quotient
    across a whole number when the curve meets the target exactly on a day;
    in exact arithmetic the two days are equal.) *)
Theorem daysToReachFraction_crossing_day (dailyPct : JsVal) (rate target : R) :
  safeNum dailyPct = Fin rate ->
  0.01 <= target <= 0.99 ->
  1 <= rate <= 99 ->
  exists n first : nat,
    daysToReachFraction dailyPct (Fin target) = Some (Fin (INR n)) /\
    (1 - rate / 100) ^ first <= target /\
    (forall m : nat, (1 - rate / 100) ^ m <= target -> (first <= m)%nat) /\
    (1 <= n)%nat /\ (first <= n + 1)%nat /\ (n <= first + 1)%nat.
Proof.
  intros Hr Ht Hp.
  rewrite (daysToReachFraction_computed dailyPct rate target Hr) by lra.
  destruct (crossing_day (1 - rate / 100) target ltac:(lra) ltac:(lra))
    as (n & En & Hn & Hmin).
  exists n, n. rewrite <- En.
  refine (conj eq_refl (conj Hn (conj Hmin (conj _ (conj _ _))))); try lia.
  destruct n as [| n]; [| lia]. simpl in Hn. lra.
Qed.

Lemma daysToReachFraction_crossing_day_witness :
  exists n first : nat,
    daysToReachFraction (JNum (Fin 50)) (Fin 0.25) = Some (Fin (INR n)) /\
    (1 - 50 / 100) ^ first <= 0.25 /\
    (forall m : nat, (1 - 50 / 100) ^ m <= 0.25 -> (first <= m)%nat) /\
    (1 <= n)%nat /\ (first <= n + 1)%nat /\ (n <= first + 1)%nat.
Proof.
  apply (daysToReachFraction_crossing_day (JNum (Fin 50)) 50 0.25 eq_refl); lra.
Defined.

(** * A row as the day advances *)

Lemma computeRow_values (day : number) (useAttrition manualWins : bool)
    (row : TrackerRow.t) (oh m0 t0 : Z) (x : R) :
  Math_max (Fin 0) (Math_floor (safeNum (TrackerRow.onHand row))) = of_Z oh ->
  manualDestroyed row day = (of_Z m0, of_Z t0) ->
  remainingAfterDays (of_Z oh) (TrackerRow.dailyAttritionPct row) (JNum day) = Fin x ->
  let r := computeRow day useAttrition manualWins row in
  let m := Z.max 0 (Z.min oh m0) in
  let a := if useAttrition then Z.max 0 (Z.min oh (Zfloor (IZR oh - x + / 2))) else 0%Z in
  let d := if useAttrition then (if manualWins then Z.max m a else a) else m in
  ComputedRow.onHand r = of_Z oh /\
  ComputedRow.destroyedManualActive r = of_Z m /\
  ComputedRow.destroyedAttrition r = of_Z a /\
  ComputedRow.destroyed r = of_Z d /\
  ComputedRow.remaining r = of_Z (Z.max 0 (oh - d)).
Proof.
  intros Eo Em Ex. cbv zeta. unfold computeRow. rewrite Eo, Em, Ex.
  cbn [ComputedRow.onHand ComputedRow.destroyedManualActive ComputedRow.destroyedAttrition
         ComputedRow.destroyed ComputedRow.remaining].
  assert (Er : Math_round (n_sub (of_Z oh) (Fin x)) = of_Z (Zfloor (IZR oh - x + / 2)))
    by reflexivity.
  rewrite ?Er, !Fin_0, !clamp_Z.
  destruct useAttrition; [destruct manualWins |];
    rewrite ?Math_max_Z, n_sub_Z, Math_max_Z; repeat split.
Qed.

Lemma manualDestroyed_day_monotone (row : TrackerRow.t) (d1 d2 : nat) :
  (d1 <= d2)%nat ->
  exists a1 a2 t1 t2 : Z,
    manualDestroyed row (of_Z (Z.of_nat d1)) = (of_Z a1, of_Z t1) /\
    manualDestroyed row (of_Z (Z.of_nat d2)) = (of_Z a2, of_Z t2) /\
    (a1 <= a2)%Z.
Proof.
  intros Hd. unfold manualDestroyed.
  destruct (Array_isArray (TrackerRow.destroyedByDay row)).
  - destruct (counts_of_Z _ (normalizeDestroyedByDay_counts (TrackerRow.destroyedByDay row)))
      as (zs & -> & Hzs).
    rewrite !slice0_Z, !reduce_add_Z. do 4 eexists.
    refine (conj eq_refl (conj eq_refl _)).
    replace (firstn d1 zs) with (firstn d1 (firstn d2 zs))
      by (rewrite firstn_firstn; f_equal; lia).
    apply (fold_add_firstn_le d1 (firstn d2 zs) 0). now apply firstn_Forall.
  - destruct (floor_count (nullish (TrackerRow.destroyedManual row) (JNum (Fin 0))))
      as (n & Hn & ->).
    exists n, n, n, n. repeat split. lia.
Qed.

Lemma remainingAfterDays_day_antitone (start : R) (dailyPct : JsVal) (d1 d2 : nat) :
  (d1 <= d2)%nat ->
  exists x1 x2 : R,
    remainingAfterDays (Fin start) dailyPct (JNum (of_Z (Z.of_nat d1))) = Fin x1 /\
    remainingAfterDays (Fin start) dailyPct (JNum (of_Z (Z.of_nat d2))) = Fin x2 /\
    x2 <= x1.
Proof.
  intros Hd. destruct (safeNum_finite dailyPct) as [r Hr].
  rewrite (remainingAfterDays_safe start dailyPct (JNum (of_Z (Z.of_nat d1))) r
             (IZR (Z.of_nat d1)) Hr eq_refl).
  rewrite (remainingAfterDays_safe start dailyPct (JNum (of_Z (Z.of_nat d2))) r
             (IZR (Z.of_nat d2)) Hr eq_refl).
  rewrite !ZfloorZ, !Nat2Z.id. do 2 eexists. refine (conj eq_refl (conj eq_refl _)).
  destruct (Rle_dec start 0); [lra |].
  destruct (Rle_dec (r / 100) 0); [lra |].
  destruct (Rle_dec 1 (r / 100)); [lra |].
  apply Rmult_le_compat_l; [lra |]. apply pow_antitone; [lra | exact Hd].
Qed.

(** Nothing comes back as the day advances: for the same row and flags, at
    a later whole day the manual loss through the day, the modeled loss and
    the destroyed count are at least what they are at an earlier day, and
    the remaining count is at most what it is at the earlier day. *)
Theorem computeRow_day_monotone (d1 d2 : nat) (useAttrition manualWins : bool)
    (row : TrackerRow.t) :
  (d1 <= d2)%nat ->
  let r1 := computeRow (of_Z (Z.of_nat d1)) useAttrition manualWins row in
  let r2 := computeRow (of_Z (Z.of_nat d2)) useAttrition manualWins row in
  n_le (ComputedRow.destroyedManualActive r1) (ComputedRow.destroyedManualActive r2) = true /\
  n_le (ComputedRow.destroyedAttrition r1) (ComputedRow.destroyedAttrition r2) = true /\
  n_le (ComputedRow.destroyed r1) (ComputedRow.destroyed r2) = true /\
  n_le (ComputedRow.remaining r2) (ComputedRow.remaining r1) = true.
Proof.
  intros Hd r1 r2.
  destruct (floor_count (TrackerRow.onHand row)) as (oh & Hoh & Eo).
  destruct (manualDestroyed_day_monotone row d1 d2 Hd) as (a1 & a2 & t1 & t2 & E1 & E2 & Ha).
  destruct (remainingAfterDays_day_antitone (IZR oh) (TrackerRow.dailyAttritionPct row)
              d1 d2 Hd) as (x1 & x2 & X1 & X2 & Hx).
  destruct (computeRow_values _ useAttrition manualWins row oh a1 t1 x1 Eo E1 X1)
    as (_ & M1 & A1 & D1 & R1).
  destruct (computeRow_values _ useAttrition manualWins row oh a2 t2 x2 Eo E2 X2)
    as (_ & M2 & A2 & D2 & R2).
  subst r1 r2. rewrite M1, M2, A1, A2, D1, D2, R1, R2, !n_le_Z.
  assert (Hf : (Zfloor (IZR oh - x1 + / 2) <= Zfloor (IZR oh - x2 + / 2))%Z)
    by (apply Zfloor_le; lra).
  destruct useAttrition; [destruct manualWins |]; repeat split; apply Z.leb_le; lia.
Qed.

Lemma computeRow_day_monotone_witness :
  n_le (ComputedRow.destroyedManualActive
          (computeRow (of_Z (Z.of_nat 1)) true true example4_row))
       (ComputedRow.destroyedManualActive
          (computeRow (of_Z (Z.of_nat 3)) true true example4_row)) = true /\
  n_le (ComputedRow.destroyedAttrition
          (computeRow (of_Z (Z.of_nat 1)) true true example4_row))
       (ComputedRow.destroyedAttrition
          (computeRow (of_Z (Z.of_nat 3)) true true example4_row)) = true /\
  n_le (ComputedRow.destroyed (computeRow (of_Z (Z.of_nat 1)) true true example4_row))
       (ComputedRow.destroyed (computeRow (of_Z (Z.of_nat 3)) true true example4_row))
    = true /\
  n_le (ComputedRow.remaining (computeRow (of_Z (Z.of_nat 3)) true true example4_row))
       (ComputedRow.remaining (computeRow (of_Z (Z.of_nat 1)) true true example4_row))
    = true.
Proof.
  apply (computeRow_day_monotone 1 3 true true example4_row). lia.
Defined.

(** * The inferred rate *)

Lemma remaining_share (oh cum : Z) :
  (0 < cum < oh)%Z -> 0 < IZR (oh - cum) / IZR oh < 1.
Proof.
  intros H. assert (0 < IZR oh) by (apply IZR_lt; lia).
  assert (0 < IZR (oh - cum)) by (apply IZR_lt; lia).
  assert (IZR (oh - cum) < IZR oh) by (apply IZR_lt; lia).
  split; [now apply Rdiv_pos_pos |].
  apply Rmult_lt_reg_r with (IZR oh); [assumption |].
  unfold Rdiv. rewrite Rmult_assoc, Rinv_l by lra. lra.
Qed.

Lemma day_root_exponent (day : nat) : (1 <= day)%nat -> 0 < 1 / INR day.
Proof.
  intros H. assert (0 < INR day) by (apply lt_0_INR; lia).
  unfold Rdiv. rewrite Rmult_1_l. now apply Rinv_0_lt_compat.
Qed.

(** The inferred rate is a percentage: for a finite on-hand count of at most
    10^9 (where the doubles of the sources still tell the remaining share
    from 1), five whole daily losses between 0 and 10^9 and a day from 1 to 5
    the rate
    [inferDailyAttritionPct] returns lies between 0 and 100; it is 0 exactly
    when nothing is on hand or nothing was lost through the day, and 100
    exactly when the loss through the day reaches the (positive) floored
    on-hand count. *)
Theorem inferred_rate_range (onHand : R) (destroyedByDay : list Z) (day : nat) :
  onHand <= 1000000000 ->
  List.length destroyedByDay = 5%nat ->
  Forall (fun z => 0 <= z <= 1000000000)%Z destroyedByDay ->
  (1 <= day <= 5)%nat ->
  let oh := Z.max 0 (Zfloor onHand) in
  let cum := cumulative destroyedByDay day in
  exists p : R,
    Page.inferDailyAttritionPct (JNum (Fin onHand)) (numbers destroyedByDay)
      (JNum (of_Z (Z.of_nat day))) = Fin p /\
    0 <= p <= 100 /\
    (p = 0 <-> (oh = 0 \/ cum = 0)%Z) /\
    (p = 100 <-> (0 < oh <= cum)%Z).
Proof.
  intros _ Hlen Hbounded Hday oh cum.
  assert (Hpos : Forall (fun z => 0 <= z)%Z destroyedByDay).
  { eapply Forall_impl; [| exact Hbounded]. cbv beta. intros; lia. }
  assert (Hcum : (0 <= cum)%Z) by now apply cumulative_nonneg.
  assert (Hoh : (0 <= oh)%Z) by (subst oh; lia).
  rewrite (inferDailyAttritionPct_counts onHand destroyedByDay day Hlen Hpos Hday).
  cbv zeta. fold oh. fold cum.
  destruct (Z.leb_spec oh 0) as [L0 | L0].
  { exists 0. refine (conj eq_refl (conj _ (conj _ _))); [lra | |].
    - split; [intros _; left; lia | reflexivity].
    - split; [intros H; lra | intros H; lia]. }
  destruct (Z.leb_spec oh cum) as [L1 | L1].
  { exists 100. refine (conj eq_refl (conj _ (conj _ _))); [lra | |].
    - split; [intros H; lra | intros [H | H]; lia].
    - split; [intros _; lia | reflexivity]. }
  destruct (Z.leb_spec cum 0) as [L2 | L2].
  { exists 0. refine (conj eq_refl (conj _ (conj _ _))); [lra | |].
    - split; [intros _; right; lia | reflexivity].
    - split; [intros H; lra | intros H; lia]. }
  destruct (Rpower_unit_interval _ (1 / INR day) (remaining_share oh cum ltac:(lia))
              (day_root_exponent day ltac:(lia))) as [P0 P1].
  eexists. refine (conj eq_refl (conj _ (conj _ _))); [lra | |].
  - split; [intros H; lra | intros [H | H]; lia].
  - split; [intros H; lra | intros H; lia].
Qed.

Lemma inferred_rate_range_witness :
  exists p : R,
    Page.inferDailyAttritionPct (JNum (Fin 44)) (numbers [0; 1; 0; 0; 0]%Z)
      (JNum (of_Z (Z.of_nat 2))) = Fin p /\
    0 <= p <= 100 /\
    (p = 0 <->
     (Z.max 0 (Zfloor 44) = 0 \/ cumulative [0; 1; 0; 0; 0]%Z 2 = 0)%Z) /\
    (p = 100 <-> (0 < Z.max 0 (Zfloor 44) <= cumulative [0; 1; 0; 0; 0]%Z 2)%Z).
Proof.
  apply (inferred_rate_range 44 [0; 1; 0; 0; 0]%Z 2).
  - lra.
  - reflexivity.
  - repeat constructor; lia.
  - lia.
Defined.

(** More lost, higher rate: for the same on-hand count of at most 10^9 and
    the same day, of two lists of whole daily losses between 0 and 10^9 (whose
    sums the doubles of the sources form exactly) the one with the larger
    cumulative loss through the day never gives a lower inferred rate. *)
Theorem inferred_rate_monotone (onHand : R) (l1 l2 : list Z) (day : nat) :
  onHand <= 1000000000 ->
  List.length l1 = 5%nat -> List.length l2 = 5%nat ->
  Forall (fun z => 0 <= z <= 1000000000)%Z l1 ->
  Forall (fun z => 0 <= z <= 1000000000)%Z l2 ->
  (1 <= day <= 5)%nat ->
  (cumulative l1 day <= cumulative l2 day)%Z ->
  n_le (Page.inferDailyAttritionPct (JNum (Fin onHand)) (numbers l1)
          (JNum (of_Z (Z.of_nat day))))
       (Page.inferDailyAttritionPct (JNum (Fin onHand)) (numbers l2)
          (JNum (of_Z (Z.of_nat day)))) = true.
Proof.
  intros _ Hlen1 Hlen2 Hb1 Hb2 Hday Hle.
  assert (Hpos1 : Forall (fun z => 0 <= z)%Z l1).
  { eapply Forall_impl; [| exact Hb1]. cbv beta. intros; lia. }
  assert (Hpos2 : Forall (fun z => 0 <= z)%Z l2).
  { eapply Forall_impl; [| exact Hb2]. cbv beta. intros; lia. }
  assert (Hc1 : (0 <= cumulative l1 day)%Z) by now apply cumulative_nonneg.
  rewrite (inferDailyAttritionPct_counts onHand l1 day Hlen1 Hpos1 Hday).
  rewrite (inferDailyAttritionPct_counts onHand l2 day Hlen2 Hpos2 Hday).
  cbv zeta. set (oh := Z.max 0 (Zfloor onHand)).
  set (c1 := cumulative l1 day) in *. set (c2 := cumulative l2 day) in *.
  pose proof (day_root_exponent day ltac:(lia)) as Hy.
  destruct (Z.leb_spec oh 0) as [L0 | L0]; [apply R_leb_true; lra |].
  destruct (Z.leb_spec oh c1) as [L1 | L1].
  { destruct (Z.leb_spec oh c2); [apply R_leb_true; lra | lia]. }
  destruct (Z.leb_spec c1 0) as [L2 | L2].
  { destruct (Z.leb_spec oh c2); [apply R_leb_true; lra |].
    destruct (Z.leb_spec c2 0); [apply R_leb_true; lra |].
    destruct (Rpower_unit_interval _ (1 / INR day) (remaining_share oh c2 ltac:(lia)) Hy).
    apply R_leb_true. lra. }
  destruct (Rpower_unit_interval _ (1 / INR day) (remaining_share oh c1 ltac:(lia)) Hy).
  destruct (Z.leb_spec oh c2); [apply R_leb_true; lra |].
  destruct (Z.leb_spec c2 0); [lia |].
  apply R_leb_true.
  assert (Q : Rpower (IZR (oh - c2) / IZR oh) (1 / INR day) <=
              Rpower (IZR (oh - c1) / IZR oh) (1 / INR day)).
  { apply Rle_Rpower_l; [lra |].
    split; [apply (remaining_share oh c2); lia |].
    assert (0 < IZR oh) by (apply IZR_lt; lia).
    apply Rmult_le_compat_r; [apply Rlt_le, Rinv_0_lt_compat; assumption |].
    apply IZR_le. lia. }
  lra.
Qed.

Lemma inferred_rate_monotone_witness :
  n_le (Page.inferDailyAttritionPct (JNum (Fin 44)) (numbers [0; 1; 0; 0; 0]%Z)
          (JNum (of_Z (Z.of_nat 2))))
       (Page.inferDailyAttritionPct (JNum (Fin 44)) (numbers [3; 1; 0; 0; 0]%Z)
          (JNum (of_Z (Z.of_nat 2)))) = true.
Proof.
  apply (inferred_rate_monotone 44 [0; 1; 0; 0; 0]%Z [3; 1; 0; 0; 0]%Z 2).
  - lra.
  - reflexivity.
  - reflexivity.
  - repeat constructor; lia.
  - repeat constructor; lia.
  - lia.
  - vm_compute. discriminate.
Defined.

(** * Recalculating twice *)

Lemma page_entry_idem (v : JsVal) :
  let entry := fun v => Math_max (Fin 0) (Math_floor (Number (nullish v (JNum (Fin 0))))) in
  entry (JNum (entry v)) = entry v.
Proof.
  cbv zeta. cbn [nullish Number].
  destruct (Number (nullish v (JNum (Fin 0)))) as [x | | |].
  - change (Math_floor (Fin x)) with (of_Z (Zfloor x)).
    rewrite Fin_0, Math_max_Z, Math_floor_Z, Math_max_Z. f_equal. lia.
  - reflexivity.
  - reflexivity.
  - change (Math_max (Fin 0) (Math_floor NegInf)) with (of_Z 0).
    rewrite Math_floor_Z, Fin_0, Math_max_Z. reflexivity.
Qed.

(** The page's normalizer leaves its own result as it is. *)
Lemma page_normalize_idem (arr : JsVal) :
  Page.normalizeDestroyedByDay (JArr (map JNum (Page.normalizeDestroyedByDay arr))) =
  Page.normalizeDestroyedByDay arr.
Proof.
  unfold Page.normalizeDestroyedByDay at 1 3.
  cbn [Array_isArray elements seq map index nth].
  unfold Page.normalizeDestroyedByDay.
  cbn [seq map index nth].
  set (base := if Array_isArray arr then elements arr else []).
  pose proof page_entry_idem as H. cbv zeta in H. now rewrite !H.
Qed.

Lemma recalcRow_idem (d : JsVal) (r : TrackerRow.t) :
  PageView.recalcRow d (PageView.recalcRow d r) = PageView.recalcRow d r.
Proof.
  unfold PageView.recalcRow at 1.
  assert (Eb : TrackerRow.destroyedByDay (PageView.recalcRow d r) =
               JArr (map JNum (Page.normalizeDestroyedByDay (TrackerRow.destroyedByDay r))))
    by reflexivity.
  rewrite Eb, page_normalize_idem. reflexivity.
Qed.

(** Recalculating again changes nothing: [setDayAndRecalc] applied to the
    day and the rows it has just produced gives the same day and the same
    rows, whatever the first day value and the rows were. *)
Theorem setDayAndRecalc_idempotent (nextDay : JsVal) (prev : list TrackerRow.t) :
  let state := PageView.setDayAndRecalc nextDay prev in
  PageView.setDayAndRecalc (JNum (fst state)) (snd state) = state.
Proof.
  intros state.
  destruct (page_clampInt_whole nextDay 1 5 ltac:(lia)) as (dz & Hdz & Ed).
  change (of_Z 1) with (Fin 1) in Ed. change (of_Z 5) with (Fin 5) in Ed.
  assert (Es : state = (of_Z dz, map (PageView.recalcRow (JNum (of_Z dz))) prev)).
  { unfold state, PageView.setDayAndRecalc. now rewrite Ed. }
  rewrite Es. cbn [fst snd]. unfold PageView.setDayAndRecalc.
  assert (Ec : Page.clampInt (JNum (of_Z dz)) (Fin 1) (Fin 5) = of_Z dz).
  { unfold Page.clampInt. cbn [Number].
    rewrite or_zero_Z, Math_floor_Z.
    change (Fin 1) with (of_Z 1). change (Fin 5) with (of_Z 5).
    rewrite Math_min_Z, Math_max_Z. f_equal. lia. }
  rewrite Ec. f_equal. rewrite map_map. apply map_ext. intros r. apply recalcRow_idem.
Qed.

(** * The order of the summaries *)

Section SortSorted.
Variable localeCompare : string -> string -> number.
Hypothesis localeCompare_orders : orders localeCompare.
Context {A : Type} (key : A -> string).

Lemma sort_insert_sorted (x : A) (sorted : list A) :
  StronglySorted (fun a b => not_after localeCompare (key a) (key b)) sorted ->
  StronglySorted (fun a b => not_after localeCompare (key a) (key b))
                 (sort_insert localeCompare key x sorted).
Proof.
  destruct localeCompare_orders as [Hasym Htrans].
  induction 1 as [| y rest Hrest IH Hy]; cbn [sort_insert].
  - repeat constructor.
  - destruct (n_gt (localeCompare (key y) (key x)) (Fin 0)) eqn:E.
    + constructor; [now constructor |].
      constructor; [now apply Hasym |].
      eapply Forall_impl; [| exact Hy]. intros z Hz.
      apply (Htrans _ (key y)); [now apply Hasym | exact Hz].
    + constructor; [exact IH |].
      apply Forall_forall. intros z Hz. apply sort_insert_In in Hz as [-> | Hz].
      * exact E.
      * rewrite Forall_forall in Hy. now apply Hy.
Qed.

Lemma sort_by_sorted (arr : list A) :
  StronglySorted (fun a b => not_after localeCompare (key a) (key b))
                 (sort_by localeCompare key arr).
Proof.
  unfold sort_by.
  assert (G : forall acc,
             StronglySorted (fun a b => not_after localeCompare (key a) (key b)) acc ->
             StronglySorted (fun a b => not_after localeCompare (key a) (key b))
               (fold_left (fun sorted x => sort_insert localeCompare key x sorted) arr acc)).
  { induction arr as [| x arr IH]; intros acc Hacc; cbn [fold_left]; [exact Hacc |].
    apply IH. now apply sort_insert_sorted. }
  apply G. constructor.
Qed.
End SortSorted.

(** The summaries come in order: when the host's comparison orders the
    strings, no unit summary sorts after a later one by its identifier, and
    no group summary sorts after a later one by the name of its group. *)
Theorem summaries_sorted
    (localeCompare : string -> string -> number)
    (rows : list TrackerRow.t) (opts : option Opts.t) :
  orders localeCompare ->
  let res := computeRows localeCompare rows opts in
  StronglySorted
    (fun s t => not_after localeCompare (BnSummary.bn s) (BnSummary.bn t))
    (Result.bnSummaries res) /\
  StronglySorted
    (fun g h => not_after localeCompare (GroupKey_name (GroupSummary.group g))
                          (GroupKey_name (GroupSummary.group h)))
    (Result.groupSummaries res).
Proof.
  intros Hord res. split.
  - unfold res. rewrite bnSummaries_unfold.
    apply (sort_by_sorted localeCompare Hord BnSummary.bn).
  - unfold res. rewrite groupSummaries_unfold.
    apply (sort_by_sorted localeCompare Hord
             (fun g => GroupKey_name (GroupSummary.group g))).
Qed.

Lemma summaries_sorted_witness :
  StronglySorted
    (fun s t =>
       not_after (fun a b => of_Z (Z.of_nat (String.length a) - Z.of_nat (String.length b)))
                 (BnSummary.bn s) (BnSummary.bn t))
    (Result.bnSummaries
       (computeRows
          (fun a b => of_Z (Z.of_nat (String.length a) - Z.of_nat (String.length b)))
          [example4_row; legacy_row] None)) /\
  StronglySorted
    (fun g h =>
       not_after (fun a b => of_Z (Z.of_nat (String.length a) - Z.of_nat (String.length b)))
                 (GroupKey_name (GroupSummary.group g))
                 (GroupKey_name (GroupSummary.group h)))
    (Result.groupSummaries
       (computeRows
          (fun a b => of_Z (Z.of_nat (String.length a) - Z.of_nat (String.length b)))
          [example4_row; legacy_row] None)).
Proof.
  apply (summaries_sorted
           (fun a b => of_Z (Z.of_nat (String.length a) - Z.of_nat (String.length b)))
           [example4_row; legacy_row] None).
  unfold orders, not_after, n_gt. split.
  - intros a b. rewrite !Fin_0, !n_lt_Z. intros H. apply Z.ltb_lt in H.
    apply Z.ltb_ge. lia.
  - intros a b c. rewrite !Fin_0, !n_lt_Z. intros H1 H2. apply Z.ltb_ge in H1, H2.
    apply Z.ltb_ge. lia.
Defined.
